(** * bybitron: the signal-to-settlement pipeline

    A shallow embedding of the TypeScript back end:
    - [routes/positionMonitor.ts]  profit sharing, settlement backfill and the
      position reconciler;
    - [routes/autoSignalGenerator.ts]  risk gates, the precision-retry ladder
      and the recording of an execution;
    - [routes/tradingviewWebhook.ts]  [executeTrade] and the alert handler;
    - [lib/indicators.ts], [lib/signalAnalysis.ts]  EMA, RSI, MACD and the
      signal analyzer.

    Conventions.
    - A JavaScript [number] is an exact rational ([Q]): arithmetic is the
      source's, without IEEE rounding.  A number that may be [undefined],
      [null] or [NaN] is an [option Q].  Where the webhook divides by a
      price that may be 0, the quotient is a [Quantity], which has the
      infinities and [NaN]; elsewhere a division by zero gives 0.
    - A route works on the tables in memory, which [db.read()] has just
      loaded from the file.  What a request leaves in the file for the next
      one is modelled for the position monitor ([positionMonitorServed]):
      [safeWrite()] is reached only past its check for open positions.
    - [db.data] is a record of tables, each a [list] of rows in insertion
      order; an object reference is the index of its row.
    - [crypto.randomUUID()] draws from a supply [randomUUID : nat -> string]
      through a counter kept in the state; [new Date()] is the instant [now]
      passed to a tick; instants are milliseconds since the epoch ([Z]).
    - A venue answers through an oracle indexed by the number of calls made so
      far; every call is appended to the state's trace.
    - Columns that the modelled routes neither read nor write are left out of
      the row types. *)

From Stdlib Require Import List String Ascii Bool Arith ZArith QArith Qabs Qround.
From Stdlib Require Import DecimalString Floats Lia Lqa.
Import ListNotations.

Open Scope string_scope.
Open Scope Q_scope.
Close Scope list_scope.
Open Scope list_scope.

(** ** JavaScript values *)

Module JS.

Definition Qltb (x y : Q) : bool := negb (Qle_bool y x).
Definition Qgtb (x y : Q) : bool := negb (Qle_bool x y).
Definition Qleb (x y : Q) : bool := Qle_bool x y.
Definition Qgeb (x y : Q) : bool := Qle_bool y x.

(** [x || 0] and [x ?? 0] on a number that may be missing. *)
Definition orZero (x : option Q) : Q :=
match x with Some q => q | None => 0 end.

(** Truthiness of a string that may be [null] or [undefined]. *)
Definition truthy (s : option string) : bool :=
match s with
| Some s' => negb (String.eqb s' EmptyString)
| None => false
end.

(** [s || fallback]. *)
Definition strOr (s fallback : string) : string :=
if String.eqb s EmptyString then fallback else s.

(** [Array.prototype.findIndex]. *)
Fixpoint findIndex {A : Type} (p : A -> bool) (l : list A) : option nat :=
match l with
| [] => None
| x :: r => if p x then Some 0%nat else option_map S (findIndex p r)
end.

(** Assignment through an object reference: the row at index [i] is replaced
    by [f] of it; an index past the end changes nothing. *)
Fixpoint update {A : Type} (i : nat) (f : A -> A) (l : list A) : list A :=
match l, i with
| [], _ => []
| x :: r, O => f x :: r
| x :: r, S i' => x :: update i' f r
end.

(** [s.split(c)] for a one-character separator. *)
Fixpoint split (c : ascii) (s : string) : list string :=
match s with
| EmptyString => [EmptyString]
| String a r =>
    if Ascii.eqb a c then EmptyString :: split c r
    else match split c r with
         | [] => [String a EmptyString]
         | h :: t => String a h :: t
         end
end.

Definition sum (l : list Q) : Q := fold_left Qplus l 0.

End JS.

(** ** Rows of [db.data] ([db/index.ts]) *)

Module ApiKey.
Record t := mk {
  user_id : string;
  exchange : string;
  product : string;
  environment : string;
  api_key_encrypted : string;
  api_secret_encrypted : string;
  is_active : bool }.
End ApiKey.

Module Trade.
Record t := mk {
  id : string;
  user_id : string;
  exchange : string;
  environment : string;
  symbol : string;
  side : string;
  order_type : string;
  price : Q;
  quantity : Q;
  realized_pnl : option Q;
  status : string;
  order_id : option string;
  triggered_by : option string;
  created_at : Z }.
End Trade.

Module Profile.
Record t := mk {
  id : string;
  user_id : string;
  referrer_id : option string }.
End Profile.

Module Position.
Record t := mk {
  id : string;
  user_id : string;
  symbol : string;
  side : string;
  size : Q;
  entry_price : Q;
  current_price : option Q;
  unrealized_pnl : option Q;
  leverage : Q;
  stop_loss : option Q;
  take_profit : option Q;
  is_open : bool;
  exchange : string;
  environment : string;
  created_at : Z;
  updated_at : Z }.

Definition set_mark (cp pnl : Q) (now : Z) (p : t) : t :=
  mk (id p) (user_id p) (symbol p) (side p) (size p) (entry_price p)
     (Some cp) (Some pnl) (leverage p) (stop_loss p) (take_profit p)
     (is_open p) (exchange p) (environment p) (created_at p) now.

Definition set_closed (pnl : Q) (now : Z) (p : t) : t :=
  mk (id p) (user_id p) (symbol p) (side p) (size p) (entry_price p)
     (current_price p) (Some pnl) (leverage p) (stop_loss p) (take_profit p)
     false (exchange p) (environment p) (created_at p) now.

Definition set_manually_closed (now : Z) (p : t) : t :=
  mk (id p) (user_id p) (symbol p) (side p) (size p) (entry_price p)
     (current_price p) (unrealized_pnl p) (leverage p) (stop_loss p)
     (take_profit p) false (exchange p) (environment p) (created_at p) now.
End Position.

Module GasFeeBalance.
Record t := mk {
  id : string;
  user_id : string;
  environment : string;
  balance : Q;
  total_deposited : Q;
  total_deducted : Q;
  created_at : Z;
  updated_at : Z }.

(** [b.balance = before - fee; b.total_deducted += fee; b.updated_at = now]. *)
Definition deduct (fee : Q) (now : Z) (b : t) : t :=
  mk (id b) (user_id b) (environment b) (balance b - fee)
     (total_deposited b) (total_deducted b + fee) (created_at b) now.

(** [b.balance = before + c; b.total_deposited += c; b.updated_at = now]. *)
Definition deposit (c : Q) (now : Z) (b : t) : t :=
  mk (id b) (user_id b) (environment b) (balance b + c)
     (total_deposited b + c) (total_deducted b) (created_at b) now.
End GasFeeBalance.

Module GasFeeTransaction.
Record t := mk {
  id : string;
  user_id : string;
  amount : Q;
  transaction_type : string;
  description : string;
  trade_id : option string;
  balance_before : Q;
  balance_after : Q;
  environment : string;
  created_at : Z }.
End GasFeeTransaction.

Module ReferralCommission.
Record t := mk {
  id : string;
  beneficiary_user_id : string;
  source_user_id : string;
  trade_id : option string;
  level : nat;
  gross_profit : Q;
  commission_rate : Q;
  commission_amount : Q;
  status : string;
  created_at : Z;
  paid_at : option Z }.
End ReferralCommission.

Module AdminEarning.
Record t := mk {
  id : string;
  source_user_id : option string;
  trade_id : option string;
  gross_profit : Q;
  total_service_fee : Q;
  referral_commissions_paid : Q;
  admin_share : Q;
  created_at : Z }.
End AdminEarning.

Module ProfitSettlement.
Record t := mk {
  id : string;
  user_id : string;
  trade_id : option string;
  gross_profit : Q;
  service_fee_rate : Q;
  service_fee_amount : Q;
  net_profit : Q;
  created_at : Z }.
End ProfitSettlement.

Module BotStatus.
Record t := mk {
  user_id : string;
  is_running : bool;
  environment : string;
  exchange : option string }.
End BotStatus.

Module StrategyIndicators.
Record t := mk {
  ema_short : nat;
  ema_long : nat;
  rsi_period : nat;
  rsi_overbought : Q;
  rsi_oversold : Q;
  macd_fast : nat;
  macd_slow : nat;
  macd_signal : nat;
  volume_multiplier : Q }.
End StrategyIndicators.

(** [strategy.strategy_config], a [Record<string, unknown>]: an entry is
    [Some v] when the key holds a value of the type its reader accepts
    ([getConfigNumber]: a finite number; [getConfigBoolean]: a boolean;
    a session bound: a string, given as the two results of
    [split(':').map(Number)], [None] for [NaN]). *)
Module Tuning.
Record t := mk {
  min_confidence : option Q;
  max_spread_percent : option Q;
  max_slippage_percent : option Q;
  require_volume_confirmed : option bool;
  risk_percent : option Q;
  cooldown_minutes : option Q;
  session_start : option (option Q * option Q);
  session_end : option (option Q * option Q);
  max_trades_per_day : option Q;
  max_daily_loss : option Q;
  max_consecutive_losses : option Q;
  position_side : option string;
  position_idx : option Q;
  use_trailing_stop : option bool;
  trailing_stop_callback : option Q;
  trailing_stop_activation : option Q }.

Definition empty : t :=
  mk None None None None None None None None None None None None None None
     None None.
End Tuning.

(** A [TradingStrategy] row read as [StrategyConfig]; a number that the code
    tests for being missing is an [option Q]. *)
Module TradingStrategy.
Record t := mk {
  id : string;
  user_id : string;
  name : string;
  webhook_secret : option string;
  is_active : bool;
  signal_mode : option string;
  auto_signal_enabled : option bool;
  exchange : string;
  product : string;
  environment : string;
  allowed_pairs : list string;
  auto_signal_indicators : option StrategyIndicators.t;
  auto_signal_interval : option Q;
  last_signal_at : option Z;
  position_size_type : string;
  position_size_value : Q;
  default_leverage : option Q;
  tp1_percent : option Q;
  tp2_percent : Q;
  tp3_percent : Q;
  stop_loss_percent : option Q;
  use_tp1 : option bool;
  use_tp2 : bool;
  use_tp3 : bool;
  max_positions : option Q;
  tp1_close_percent : option Q;
  tp2_close_percent : Q;
  tp3_close_percent : Q;
  max_trades_per_day : option Q;
  max_daily_loss : option Q;
  max_consecutive_losses : option Q;
  use_trailing_stop : bool;
  trailing_stop_activation : option Q;
  trailing_stop_callback : option Q;
  strategy_config : option Tuning.t }.
End TradingStrategy.

(** The body of an inbound alert ([TradingViewAlert]). *)
Module Alert.
Record t := mk {
  action : string;
  symbol : string;
  price : option Q;
  strategy_id : option string;
  secret : option string;
  leverage : option Q;
  quantity : option Q }.
End Alert.

Inductive FilterInfo : Type :=
| FilterGemini (execute : bool) (confidence : Q) (reason : string)
| FilterEngineOnly (reason : string).

Inductive LogPayload : Type :=
| PayloadAlert (a : Alert.t)
| PayloadAuto (action symbol : string) (price confidence : Q)
    (filter : FilterInfo) (orderId : option string).

Module WebhookLog.
Record t := mk {
  id : string;
  user_id : string;
  strategy_id : string;
  payload : LogPayload;
  status : string;
  error_message : option string;
  created_at : Z }.
End WebhookLog.

Module Candle.
Record t := mk {
  open : Q;
  high : Q;
  low : Q;
  close : Q;
  volume : Q;
  timestamp : Q }.
End Candle.

(** ** The outside world: venues, market data, the advisory filter *)

Inductive ParamValue : Type :=
| PStr (s : string)
| PNum (q : Q)      (* a number, sent as [n.toString()] or as a JSON number *)
| PFixed2 (q : Q)   (* a price, sent as [p.toFixed(2)] *)
| PBool (b : bool).

(** A row of the venue's position list after [parseFloat]; [None] is [NaN]. *)
Record VenuePosition := mkVenuePosition {
  vp_symbol : string;
  vp_size : option Q;
  vp_unrealized : option Q;
  vp_mark : option Q }.

Record VenueBalance := mkVenueBalance {
  vb_asset : string;
  vb_available : option Q;
  vb_total : option Q }.

Inductive ApiData : Type :=
| NoData
| OrderAck (orderId : option string)
| PositionList (l : list VenuePosition)
| BalanceList (l : list VenueBalance).

(** What [callBinanceApi] and [callBybitApi] resolve to. *)
Record ApiResult := mkApiResult {
  success : bool;
  data : ApiData;
  error : option string }.

Inductive Request : Type :=
| BinanceApi (endpoint apiKey apiSecret : string) (isTestnet : bool)
    (product method : string) (params : list (string * ParamValue))
| BybitApi (endpoint apiKey apiSecret : string) (isTestnet : bool)
    (method : string) (params : list (string * ParamValue))
| Klines (exchange symbol interval : string) (isTestnet : bool)
    (product : string) (limit : nat)
| BookTicker (exchange product symbol : string) (isTestnet : bool)
| GeminiFilter (action symbol : string) (price confidence : Q).

Record GeminiDecision := mkGeminiDecision {
  gd_ok : bool;
  gd_execute : bool;
  gd_confidence : Q;
  gd_reason : option string }.

(** The oracles: each answers the request made after [n] earlier requests.
    [decryptValue] and [numberToString] ([Number.prototype.toString]) are
    pure functions of the platform, left abstract. *)
Record World := mkWorld {
  randomUUID : nat -> string;
  decryptValue : string -> string;
  numberToString : Q -> string;
  callApi : nat -> Request -> ApiResult;
  fetchKlines : nat -> Request -> list Candle.t;
  getBookTicker : nat -> Request -> option (Q * Q);
  getGeminiFilterDecision : nat -> Request -> GeminiDecision }.

(** ** The state: [db.data], the UUID counter, the console and the trace of
    requests sent to the outside world *)

Record State := mkState {
  api_keys : list ApiKey.t;
  trading_strategies : list TradingStrategy.t;
  webhook_logs : list WebhookLog.t;
  trades : list Trade.t;
  bot_status : list BotStatus.t;
  profiles : list Profile.t;
  positions : list Position.t;
  gas_fee_balances : list GasFeeBalance.t;
  gas_fee_transactions : list GasFeeTransaction.t;
  referral_commissions : list ReferralCommission.t;
  admin_earnings : list AdminEarning.t;
  profit_settlements : list ProfitSettlement.t;
  next_uuid : nat;
  console : list string;
  trace : list Request }.

Definition set_trading_strategies (v : list TradingStrategy.t) (st : State) : State :=
  mkState (api_keys st) v (webhook_logs st) (trades st) (bot_status st)
    (profiles st) (positions st) (gas_fee_balances st) (gas_fee_transactions
    st) (referral_commissions st) (admin_earnings st) (profit_settlements
    st) (next_uuid st) (console st) (trace st).

Definition set_webhook_logs (v : list WebhookLog.t) (st : State) : State :=
  mkState (api_keys st) (trading_strategies st) v (trades st) (bot_status
    st) (profiles st) (positions st) (gas_fee_balances st)
    (gas_fee_transactions st) (referral_commissions st) (admin_earnings st)
    (profit_settlements st) (next_uuid st) (console st) (trace st).

Definition set_trades (v : list Trade.t) (st : State) : State :=
  mkState (api_keys st) (trading_strategies st) (webhook_logs st) v
    (bot_status st) (profiles st) (positions st) (gas_fee_balances st)
    (gas_fee_transactions st) (referral_commissions st) (admin_earnings st)
    (profit_settlements st) (next_uuid st) (console st) (trace st).

Definition set_positions (v : list Position.t) (st : State) : State :=
  mkState (api_keys st) (trading_strategies st) (webhook_logs st) (trades st)
    (bot_status st) (profiles st) v (gas_fee_balances st)
    (gas_fee_transactions st) (referral_commissions st) (admin_earnings st)
    (profit_settlements st) (next_uuid st) (console st) (trace st).

Definition set_gas_fee_balances (v : list GasFeeBalance.t) (st : State) : State :=
  mkState (api_keys st) (trading_strategies st) (webhook_logs st) (trades st)
    (bot_status st) (profiles st) (positions st) v (gas_fee_transactions
    st) (referral_commissions st) (admin_earnings st) (profit_settlements
    st) (next_uuid st) (console st) (trace st).

Definition set_gas_fee_transactions (v : list GasFeeTransaction.t) (st : State) : State :=
  mkState (api_keys st) (trading_strategies st) (webhook_logs st) (trades st)
    (bot_status st) (profiles st) (positions st) (gas_fee_balances st) v
    (referral_commissions st) (admin_earnings st) (profit_settlements st)
    (next_uuid st) (console st) (trace st).

Definition set_referral_commissions (v : list ReferralCommission.t) (st : State) : State :=
  mkState (api_keys st) (trading_strategies st) (webhook_logs st) (trades st)
    (bot_status st) (profiles st) (positions st) (gas_fee_balances st)
    (gas_fee_transactions st) v (admin_earnings st) (profit_settlements st)
    (next_uuid st) (console st) (trace st).

Definition set_admin_earnings (v : list AdminEarning.t) (st : State) : State :=
  mkState (api_keys st) (trading_strategies st) (webhook_logs st) (trades st)
    (bot_status st) (profiles st) (positions st) (gas_fee_balances st)
    (gas_fee_transactions st) (referral_commissions st) v
    (profit_settlements st) (next_uuid st) (console st) (trace st).

Definition set_profit_settlements (v : list ProfitSettlement.t) (st : State) : State :=
  mkState (api_keys st) (trading_strategies st) (webhook_logs st) (trades st)
    (bot_status st) (profiles st) (positions st) (gas_fee_balances st)
    (gas_fee_transactions st) (referral_commissions st) (admin_earnings st)
    v (next_uuid st) (console st) (trace st).

Definition set_next_uuid (v : nat) (st : State) : State :=
  mkState (api_keys st) (trading_strategies st) (webhook_logs st) (trades st)
    (bot_status st) (profiles st) (positions st) (gas_fee_balances st)
    (gas_fee_transactions st) (referral_commissions st) (admin_earnings st)
    (profit_settlements st) v (console st) (trace st).

Definition set_console (v : list string) (st : State) : State :=
  mkState (api_keys st) (trading_strategies st) (webhook_logs st) (trades st)
    (bot_status st) (profiles st) (positions st) (gas_fee_balances st)
    (gas_fee_transactions st) (referral_commissions st) (admin_earnings st)
    (profit_settlements st) (next_uuid st) v (trace st).

Definition set_trace (v : list Request) (st : State) : State :=
  mkState (api_keys st) (trading_strategies st) (webhook_logs st) (trades st)
    (bot_status st) (profiles st) (positions st) (gas_fee_balances st)
    (gas_fee_transactions st) (referral_commissions st) (admin_earnings st)
    (profit_settlements st) (next_uuid st) (console st) v.

(** ** The profit-sharing engine ([routes/positionMonitor.ts]) *)

Definition SERVICE_FEE_RATE : Q := 3 # 10.
Definition REFERRAL_RATES : list Q := [5 # 1000; 3 # 1000; 2 # 1000].

Definition natToString (n : nat) : string :=
  NilEmpty.string_of_uint (Nat.to_uint n).

Section Engine.

Variable W : World.

(** [crypto.randomUUID()]. *)
Definition freshUUID (st : State) : string * State :=
  (randomUUID W (next_uuid st), set_next_uuid (S (next_uuid st)) st).

(** [console.log(msg)]. *)
Definition consoleLog (msg : string) (st : State) : State :=
  set_console (console st ++ [msg]) st.

(** The body of the [while] loop of [getReferralChain]; [n] bounds the
    iterations left ([level <= 3] with [level] starting at 1). *)
Fixpoint referralWalk (profiles : list Profile.t) (n level : nat)
    (currentProfile : option Profile.t) : list (nat * Profile.t) :=
match n with
| O => []
| S n' =>
    match currentProfile with
    | None => []
    | Some cp =>
        if JS.truthy (Profile.referrer_id cp) then
          match find (fun p => String.eqb (Profile.id p)
                                 (match Profile.referrer_id cp with
                                  | Some r => r
                                  | None => EmptyString
                                  end)) profiles with
          | None => []
          | Some referrerProfile =>
              (level, referrerProfile)
                :: referralWalk profiles n' (S level) (Some referrerProfile)
          end
        else []
    end
end.

Definition getReferralChain (userId : string) (st : State)
    : list (nat * Profile.t) :=
  referralWalk (profiles st) 3 1
    (find (fun p => String.eqb (Profile.user_id p) userId) (profiles st)).

Definition sameAccount (userId environment : string) (b : GasFeeBalance.t)
    : bool :=
  String.eqb (GasFeeBalance.user_id b) userId
  && String.eqb (GasFeeBalance.environment b) environment.

(** [getOrCreateGasBalance]: the reference it returns is the row's index. *)
Definition getOrCreateGasBalance (now : Z) (userId environment : string)
    (st : State) : nat * State :=
  match JS.findIndex (sameAccount userId environment) (gas_fee_balances st) with
  | Some i => (i, st)
  | None =>
      let (uuid, st1) := freshUUID st in
      (List.length (gas_fee_balances st1),
       set_gas_fee_balances
         (gas_fee_balances st1
            ++ [GasFeeBalance.mk uuid userId environment 0 0 0 now now]) st1)
  end.

(** [row.balance] through the reference [i]. *)
Definition balanceAt (i : nat) (st : State) : Q :=
  match nth_error (gas_fee_balances st) i with
  | Some b => GasFeeBalance.balance b
  | None => 0
  end.

(** One iteration of [for (const entry of referralChain)]; the accumulator
    carries [totalReferralPaid]. *)
Definition payReferral (now : Z) (userId tradeId : string) (grossProfit : Q)
    (environment : string) (acc : State * Q) (entry : nat * Profile.t)
    : State * Q :=
  let (st, totalReferralPaid) := acc in
  let (level, referrerProfile) := entry in
  let rate := nth (level - 1)%nat REFERRAL_RATES 0 in
  let commission := grossProfit * rate in
  if JS.Qleb commission 0 then acc
  else
    let beneficiaryUserId := Profile.user_id referrerProfile in
    let (id1, st) := freshUUID st in
    let st :=
      set_referral_commissions
        (referral_commissions st
           ++ [ReferralCommission.mk id1 beneficiaryUserId userId
                 (Some tradeId) level grossProfit rate commission
                 "paid" now (Some now)]) st in
    let (i, st) := getOrCreateGasBalance now beneficiaryUserId environment st in
    let beneficiaryBefore := balanceAt i st in
    let st :=
      set_gas_fee_balances
        (JS.update i (GasFeeBalance.deposit commission now)
           (gas_fee_balances st)) st in
    let (id2, st) := freshUUID st in
    let st :=
      set_gas_fee_transactions
        (gas_fee_transactions st
           ++ [GasFeeTransaction.mk id2 beneficiaryUserId commission
                 "referral_commission"
                 ("Referral commission (level " ++ natToString level ++ ")")%string
                 (Some tradeId) beneficiaryBefore (balanceAt i st)
                 environment now]) st in
    (st, totalReferralPaid + commission).

Definition processProfitSharing (now : Z) (userId tradeId : string)
    (grossProfit : Q) (environment : string) (st : State) : State :=
  if JS.Qleb grossProfit 0 then st
  else
    let serviceFee := grossProfit * SERVICE_FEE_RATE in
    let netProfit := grossProfit - serviceFee in
    let (id1, st) := freshUUID st in
    let st :=
      set_profit_settlements
        (profit_settlements st
           ++ [ProfitSettlement.mk id1 userId (Some tradeId) grossProfit
                 SERVICE_FEE_RATE serviceFee netProfit now]) st in
    let (i, st) := getOrCreateGasBalance now userId environment st in
    let balanceBefore := balanceAt i st in
    let st :=
      set_gas_fee_balances
        (JS.update i (GasFeeBalance.deduct serviceFee now)
           (gas_fee_balances st)) st in
    let (id2, st) := freshUUID st in
    let st :=
      set_gas_fee_transactions
        (gas_fee_transactions st
           ++ [GasFeeTransaction.mk id2 userId (- serviceFee) "service_fee"
                 "Service fee for profitable trade" (Some tradeId)
                 balanceBefore (balanceAt i st) environment now]) st in
    let (st, totalReferralPaid) :=
      fold_left (payReferral now userId tradeId grossProfit environment)
        (getReferralChain userId st) (st, 0) in
    let adminShare := serviceFee - totalReferralPaid in
    let (id3, st) := freshUUID st in
    set_admin_earnings
      (admin_earnings st
         ++ [AdminEarning.mk id3 (Some userId) (Some tradeId) grossProfit
               serviceFee totalReferralPaid adminShare now]) st.

(** [await callBinanceApi(...)] / [await callBybitApi(...)]: the request goes
    on the trace and the venue's answer comes back. *)
Definition callApiM (r : Request) (st : State) : ApiResult * State :=
  (callApi W (List.length (trace st)) r, set_trace (trace st ++ [r]) st).

Record ExchangePosition := mkExchangePosition {
  isOpen : bool;
  currentSize : option Q;
  unrealizedPnl : Q;
  currentPrice : Q }.

Definition notOnVenue : ExchangePosition :=
  mkExchangePosition false (Some 0) 0 0.

(** [size !== 0] on the result of [parseFloat]: [NaN !== 0] holds. *)
Definition sizeNonZero (size : option Q) : bool :=
  match size with
  | Some q => negb (Qeq_bool q 0)
  | None => true
  end.

Definition checkExchangePosition (symbol exchange product : string)
    (isTestnet : bool) (apiKey apiSecret : string) (st : State)
    : ExchangePosition * State :=
  if String.eqb exchange "binance" && String.eqb product "futures" then
    let (result, st) :=
      callApiM (BinanceApi "/fapi/v2/positionRisk" apiKey apiSecret isTestnet
                  product "GET" [("symbol", PStr symbol)]) st in
    match success result, data result with
    | true, PositionList positions =>
        match find (fun p => String.eqb (vp_symbol p) symbol) positions with
        | Some position =>
            (mkExchangePosition (sizeNonZero (vp_size position))
               (option_map Qabs (vp_size position))
               (JS.orZero (vp_unrealized position))
               (JS.orZero (vp_mark position)), st)
        | None => (notOnVenue, st)
        end
    | _, _ => (notOnVenue, st)
    end
  else if String.eqb exchange "bybit" then
    let (result, st) :=
      callApiM (BybitApi "/v5/position/list" apiKey apiSecret isTestnet "GET"
                  [("category", PStr "linear"); ("symbol", PStr symbol)]) st in
    match success result, data result with
    | true, PositionList (position :: _) =>
        (mkExchangePosition (sizeNonZero (vp_size position))
           (vp_size position)
           (JS.orZero (vp_unrealized position))
           (JS.orZero (vp_mark position)), st)
    | _, _ => (notOnVenue, st)
    end
  else (notOnVenue, st).

(** *** The settlement backfill *)

(** [new Set(profit_settlements.map(s => s.trade_id).filter(id =>
    typeof id === 'string' && id.length > 0))]. *)
Definition settledTradeIds (st : State) : list string :=
  flat_map
    (fun s => match ProfitSettlement.trade_id s with
              | Some id => if String.eqb id "" then [] else [id]
              | None => []
              end)
    (profit_settlements st).

(** [(t.realized_pnl ?? 0) > 0 && t.status === 'filled']. *)
Definition isProfitableFilled (t : Trade.t) : bool :=
  JS.Qgtb (JS.orZero (Trade.realized_pnl t)) 0
  && String.eqb (Trade.status t) "filled".

Definition backfillStep (now : Z) (acc : State * list string)
    (trade : Trade.t) : State * list string :=
  let (st, settled) := acc in
  if existsb (String.eqb (Trade.id trade)) settled then acc
  else
    (processProfitSharing now (Trade.user_id trade) (Trade.id trade)
       (JS.orZero (Trade.realized_pnl trade))
       (JS.strOr (Trade.environment trade) "testnet") st,
     Trade.id trade :: settled).

Definition backfill (now : Z) (st : State) : State :=
  fst (fold_left (backfillStep now)
         (filter isProfitableFilled (trades st))
         (st, settledTradeIds st)).

(** *** The reconciler *)

Record MonitorResult := mkMonitorResult {
  position_id : string;
  mr_symbol : string;
  mr_status : string;
  trigger : string;
  mr_realized_pnl : Q }.

Inductive MonitorResponse : Type :=
| NoOpenPositions
| Monitored (monitored closed : nat) (results : list MonitorResult).

(** The references kept by [positions.filter(p => p.is_open)]. *)
Definition openPositions (st : State) : list nat :=
  filter
    (fun j => match nth_error (positions st) j with
              | Some p => Position.is_open p
              | None => false
              end)
    (seq 0 (List.length (positions st))).

(** [`${pos.user_id}-${pos.exchange}-${pos.environment}`]. *)
Definition groupKey (pos : Position.t) : string :=
  (Position.user_id pos ++ "-" ++ Position.exchange pos ++ "-"
     ++ Position.environment pos)%string.

(** [if (!m.has(key)) m.set(key, []); m.get(key).push(j)] on a [Map], which
    keeps its keys in insertion order. *)
Fixpoint mapPush (key : string) (j : nat) (m : list (string * list nat))
    : list (string * list nat) :=
match m with
| [] => [(key, [j])]
| (k, group) :: r =>
    if String.eqb k key then (k, group ++ [j]) :: r
    else (k, group) :: mapPush key j r
end.

Definition groupPositions (st : State) (refs : list nat)
    : list (string * list nat) :=
  fold_left
    (fun m j => match nth_error (positions st) j with
                | Some pos => mapPush (groupKey pos) j m
                | None => m
                end)
    refs [].

Definition samePosition (id : string) (p : Position.t) : bool :=
  String.eqb (Position.id p) id.

(** The body of [for (const position of userPosGroup)], [position] being the
    row referenced by [j]. *)
Definition monitorPosition (now : Z) (exchange product : string)
    (isTestnet : bool) (apiKey apiSecret : string)
    (acc : State * list MonitorResult) (j : nat)
    : State * list MonitorResult :=
  let (st, results) := acc in
  match nth_error (positions st) j with
  | None => acc
  | Some position =>
      let (exchangePos, st) :=
        checkExchangePosition (Position.symbol position) exchange product
          isTestnet apiKey apiSecret st in
      let st :=
        if JS.Qgtb (currentPrice exchangePos) 0 then
          match JS.findIndex (samePosition (Position.id position))
                  (positions st) with
          | Some posIndex =>
              set_positions
                (JS.update posIndex
                   (Position.set_mark (currentPrice exchangePos)
                      (unrealizedPnl exchangePos) now)
                   (positions st)) st
          | None => st
          end
        else st in
      let stillOpen :=
        match nth_error (positions st) j with
        | Some p => Position.is_open p
        | None => false
        end in
      if negb (isOpen exchangePos) && stillOpen then
        let st :=
          consoleLog ("Position " ++ Position.symbol position
                        ++ " closed on exchange, updating DB...")%string st in
        match JS.findIndex (samePosition (Position.id position))
                (positions st) with
        | Some posIndex =>
            let st :=
              set_positions
                (JS.update posIndex
                   (Position.set_closed (unrealizedPnl exchangePos) now)
                   (positions st)) st in
            let (tradeId, st) := freshUUID st in
            let st :=
              set_trades
                (trades st
                   ++ [Trade.mk tradeId (Position.user_id position)
                         (Position.exchange position)
                         (Position.environment position)
                         (Position.symbol position)
                         (if String.eqb (Position.side position) "long"
                          then "sell" else "buy")
                         "market"
                         (if Qeq_bool (currentPrice exchangePos) 0
                          then Position.entry_price position
                          else currentPrice exchangePos)
                         (Position.size position)
                         (Some (unrealizedPnl exchangePos))
                         "filled" None (Some "position_monitor") now]) st in
            let st :=
              processProfitSharing now (Position.user_id position) tradeId
                (unrealizedPnl exchangePos) (Position.environment position)
                st in
            (st,
             results
               ++ [mkMonitorResult (Position.id position)
                     (Position.symbol position) "closed" "exchange_close"
                     (unrealizedPnl exchangePos)])
        | None => (st, results)
        end
      else (st, results)
  end.

(** The credential the reconciler asks for: the key is split again and its
    first three pieces are taken as user, venue and environment. *)
Definition credentialFor (key : string) (st : State) : option ApiKey.t :=
  let parts := JS.split "-" key in
  let userId := nth 0 parts "" in
  let exchange := nth 1 parts "" in
  let environment := nth 2 parts "" in
  let product := "futures" in
  find
    (fun k =>
       String.eqb (ApiKey.user_id k) userId
       && String.eqb (ApiKey.exchange k) exchange
       && String.eqb (ApiKey.product k) product
       && String.eqb (ApiKey.environment k) environment
       && ApiKey.is_active k)
    (api_keys st).

(** The body of [for (const [key, userPosGroup] of userPositions.entries())]. *)
Definition monitorGroup (now : Z) (acc : State * list MonitorResult)
    (entry : string * list nat) : State * list MonitorResult :=
  let (st, results) := acc in
  let (key, userPosGroup) := entry in
  let parts := JS.split "-" key in
  let exchange := nth 1 parts "" in
  let environment := nth 2 parts "" in
  let product := "futures" in
  match credentialFor key st with
  | None => (consoleLog ("No API keys found for " ++ key)%string st, results)
  | Some apiKeys =>
      let apiKey := decryptValue W (ApiKey.api_key_encrypted apiKeys) in
      let apiSecret := decryptValue W (ApiKey.api_secret_encrypted apiKeys) in
      let isTestnet := String.eqb environment "testnet" in
      fold_left
        (monitorPosition now exchange product isTestnet apiKey apiSecret)
        userPosGroup (st, results)
  end.

(** [router.post('/')] of the position monitor: one tick. *)
Definition positionMonitor (now : Z) (st : State) : State * MonitorResponse :=
  let st := consoleLog "Position monitor started..." st in
  let st := backfill now st in
  let positions := openPositions st in
  match positions with
  | [] => (st, NoOpenPositions)
  | _ :: _ =>
      let st :=
        consoleLog ("Monitoring " ++ natToString (List.length positions)
                      ++ " open positions...")%string st in
      let userPositions := groupPositions st positions in
      let (st, results) := fold_left (monitorGroup now) userPositions (st, []) in
      let st :=
        consoleLog ("Position monitor completed: "
                      ++ natToString (List.length results)
                      ++ " positions closed")%string st in
      (st, Monitored (List.length positions) (List.length results) results)
  end.

(** *** The file behind [db]

    The handler starts with [db.read()], which replaces the tables in memory
    by those of the file, and persists them with [safeWrite()].  The UUID
    supply, the console and the trace of requests belong to the process and
    are not reloaded. *)

(** The tables of [file] with the process state of [st]. *)
Definition reloaded (file st : State) : State :=
  mkState (api_keys file) (trading_strategies file) (webhook_logs file)
    (trades file) (bot_status file) (profiles file) (positions file)
    (gas_fee_balances file) (gas_fee_transactions file)
    (referral_commissions file) (admin_earnings file)
    (profit_settlements file) (next_uuid st) (console st) (trace st).

(** One request to the position monitor, served from the file whose tables
    are those of [st]; the result holds the tables of the file afterwards.
    The handler returns before [safeWrite()] when no position is open: what
    its backfill settled in memory is then not in the file, and is dropped by
    the [db.read()] of the next request. *)
Definition positionMonitorServed (now : Z) (st : State) : State :=
  let out := positionMonitor now st in
  match snd out with
  | NoOpenPositions => reloaded st (fst out)
  | Monitored _ _ _ => fst out
  end.

End Engine.

(** ** The indicator library ([lib/indicators.ts]) *)

(** The arithmetic the indicators need.  They are written once and read at
    two instances: exact rationals, and IEEE 754 binary64 as JavaScript
    computes. *)
Record Arith (num : Type) := mkArith {
  ofNat : nat -> num;
  add : num -> num -> num;
  sub : num -> num -> num;
  mul : num -> num -> num;
  div : num -> num -> num;
  abs : num -> num;
  ltb : num -> num -> bool;
  eqb : num -> num -> bool }.

Arguments mkArith {num}.
Arguments ofNat {num}.
Arguments add {num}.
Arguments sub {num}.
Arguments mul {num}.
Arguments div {num}.
Arguments abs {num}.
Arguments ltb {num}.
Arguments eqb {num}.

Definition exact : Arith Q :=
  mkArith (fun n => inject_Z (Z.of_nat n)) Qplus Qminus Qmult Qdiv Qabs
    JS.Qltb Qeq_bool.

Definition binary64 : Arith float :=
  mkArith (fun n => PrimFloat.of_uint63 (Uint63.of_Z (Z.of_nat n)))
    PrimFloat.add PrimFloat.sub PrimFloat.mul PrimFloat.div PrimFloat.abs
    PrimFloat.ltb PrimFloat.eqb.

Section Indicators.

Context {num : Type} (A : Arith num).

(** [arr.reduce((a, b) => a + b, 0)]. *)
Definition total (l : list num) : num := fold_left (add A) l (ofNat A 0).

(** The second loop of [calculateEMA]: [last] is [ema[ema.length - 1]]. *)
Fixpoint emaLoop (multiplier : num) (rest : list num) (last : num)
    : list num :=
match rest with
| [] => []
| price :: rest' =>
    let newEma := add A (mul A (sub A price last) multiplier) last in
    newEma :: emaLoop multiplier rest' newEma
end.

Definition calculateEMA (prices : list num) (period : nat) : list num :=
  let multiplier := div A (ofNat A 2) (add A (ofNat A period) (ofNat A 1)) in
  if (List.length prices <? period)%nat then []
  else
    let sum := total (firstn period prices) in
    let first := div A sum (ofNat A period) in
    first :: emaLoop multiplier (skipn period prices) first.

(** [prices[i] - prices[i - 1]] for [i = 1 .. length - 1]. *)
Fixpoint changes (prices : list num) : list num :=
match prices with
| [] => []
| previous :: rest =>
    match rest with
    | [] => []
    | price :: _ => sub A price previous :: changes rest
    end
end.

Definition gainOf (change : num) : num :=
  if ltb A (ofNat A 0) change then change else ofNat A 0.

Definition lossOf (change : num) : num :=
  if ltb A change (ofNat A 0) then abs A change else ofNat A 0.

(** Wilder's smoothing step: [(avg * (period - 1) + x) / period]. *)
Definition smooth (period : nat) (avg x : num) : num :=
  div A (add A (mul A avg (sub A (ofNat A period) (ofNat A 1))) x)
    (ofNat A period).

(** [100 - 100 / (1 + rs)] with [rs = avgLoss === 0 ? 100 : avgGain / avgLoss]. *)
Definition rsiValue (avgGain avgLoss : num) : num :=
  let rs :=
    if eqb A avgLoss (ofNat A 0) then ofNat A 100 else div A avgGain avgLoss in
  sub A (ofNat A 100) (div A (ofNat A 100) (add A (ofNat A 1) rs)).

(** The second loop of [calculateRSI], over [gains[i]], [losses[i]] for
    [i >= period]. *)
Fixpoint rsiLoop (period : nat) (gains losses : list num)
    (avgGain avgLoss : num) : list num :=
match gains, losses with
| gain :: gains', loss :: losses' =>
    let avgGain' := smooth period avgGain gain in
    let avgLoss' := smooth period avgLoss loss in
    rsiValue avgGain' avgLoss' :: rsiLoop period gains' losses' avgGain' avgLoss'
| _, _ => []
end.

Definition calculateRSI (prices : list num) (period : nat) : list num :=
  if (List.length prices <? period + 1)%nat then []
  else
    let gains := map gainOf (changes prices) in
    let losses := map lossOf (changes prices) in
    let avgGain := div A (total (firstn period gains)) (ofNat A period) in
    let avgLoss := div A (total (firstn period losses)) (ofNat A period) in
    rsiLoop period (skipn period gains) (skipn period losses) avgGain avgLoss.

Record MACD := mkMACD {
  macd : list num;
  signal : list num;
  histogram : list num }.

(** [a[i]], 0 standing for a read outside the array. *)
Definition at_ (l : list num) (i : Z) : num :=
  if (i <? 0)%Z then ofNat A 0 else nth (Z.to_nat i) l (ofNat A 0).

Definition calculateMACD (prices : list num) (fast slow signalPeriod : nat)
    : MACD :=
  let emaFast := calculateEMA prices fast in
  let emaSlow := calculateEMA prices slow in
  match emaFast, emaSlow with
  | [], _ | _, [] => mkMACD [] [] []
  | _ :: _, _ :: _ =>
      let offset := (Z.of_nat slow - Z.of_nat fast)%Z in
      let n := Z.to_nat (Z.of_nat (List.length emaFast) - offset) in
      let macdLine :=
        map (fun i => sub A (at_ emaFast (Z.of_nat i + offset))
                        (at_ emaSlow (Z.of_nat i)))
          (seq 0 n) in
      if (List.length macdLine <? signalPeriod)%nat then mkMACD macdLine [] []
      else
        let signalLine := calculateEMA macdLine signalPeriod in
        let signalOffset := (Z.of_nat signalPeriod - 1)%Z in
        let m := Z.to_nat (Z.of_nat (List.length macdLine) - signalOffset) in
        let hist :=
          map (fun k =>
                 let i := (signalOffset + Z.of_nat k)%Z in
                 sub A (at_ macdLine i) (at_ signalLine (i - signalOffset)))
            (seq 0 m) in
        mkMACD macdLine signalLine hist
  end.

(** [volumes.slice(-period)]. *)
Definition lastN (n : nat) (l : list num) : list num :=
  skipn (List.length l - n) l.

Definition calculateAverageVolume (volumes : list num) (period : nat) : num :=
  match volumes with
  | [] => ofNat A 0
  | _ :: _ =>
      let slice := lastN period volumes in
      div A (total slice) (ofNat A (List.length slice))
  end.

End Indicators.

(** ** The signal analyzer ([lib/signalAnalysis.ts]), over exact rationals *)

Inductive Action : Type := Buy | Sell | NoAction.

(** The string the source uses for an action. *)
Definition actionName (a : Action) : string :=
  match a with
  | Buy => "buy"
  | Sell => "sell"
  | NoAction => "none"
  end.

Inductive Trend : Type := Bullish | Bearish | Neutral.

Inductive RsiSignal : Type := Oversold | Overbought | RsiNeutral.

Definition Trend_eqb (a b : Trend) : bool :=
  match a, b with
  | Bullish, Bullish | Bearish, Bearish | Neutral, Neutral => true
  | _, _ => false
  end.

Definition RsiSignal_eqb (a b : RsiSignal) : bool :=
  match a, b with
  | Oversold, Oversold | Overbought, Overbought | RsiNeutral, RsiNeutral => true
  | _, _ => false
  end.

Record SignalIndicators := mkSignalIndicators {
  ema_trend : Trend;
  rsi_signal : RsiSignal;
  macd_signal : Trend;
  volume_confirmed : bool }.

Record Signal := mkSignal {
  action : Action;
  sg_symbol : string;
  sg_price : Q;
  confidence : Q;
  indicators : SignalIndicators;
  rsi_value : Q;
  current_volume : Q;
  average_volume : Q }.

Record MarketConditions := mkMarketConditions {
  isTrending : bool;
  trendStrength : Q;
  volatility : Q;
  priceChange : Q }.

(** [a[a.length - k]], [None] for [undefined]. *)
Definition fromEnd (k : nat) (l : list Q) : option Q :=
  if (k <=? List.length l)%nat then nth_error l (List.length l - k) else None.

(** [x || fallback] on a number that may be [undefined]. *)
Definition orElse (x : option Q) (fallback : Q) : Q :=
  match x with
  | Some q => if Qeq_bool q 0 then fallback else q
  | None => fallback
  end.

(** [x ?? fallback]. *)
Definition orDefault (x : option Q) (fallback : Q) : Q :=
  match x with
  | Some q => q
  | None => fallback
  end.

(** [Math.sign(x) === Math.sign(y)]. *)
Definition sameSign (x y : Q) : bool :=
  match x ?= 0, y ?= 0 with
  | Lt, Lt | Eq, Eq | Gt, Gt => true
  | _, _ => false
  end.

Definition Qmax2 (a b : Q) : Q := if Qle_bool a b then b else a.
Definition Qmin2 (a b : Q) : Q := if Qle_bool a b then a else b.

Definition analyzeMarketConditions (candles : list Candle.t)
    : MarketConditions :=
  let closes := map Candle.close candles in
  let highs := map Candle.high candles in
  let lows := map Candle.low candles in
  let currentPrice := orDefault (fromEnd 1 closes) 0 in
  let price20CandlesAgo := orElse (fromEnd 20 closes) currentPrice in
  let price50CandlesAgo := orElse (fromEnd 50 closes) currentPrice in
  let priceChange20 :=
    ((currentPrice - price20CandlesAgo) / price20CandlesAgo) * 100 in
  let priceChange50 :=
    ((currentPrice - price50CandlesAgo) / price50CandlesAgo) * 100 in
  let recentHighs := lastN 20 highs in
  let recentLows := lastN 20 lows in
  let avgRange :=
    fold_left (fun sum hl => sum + (fst hl - snd hl))
      (combine recentHighs recentLows) 0 / 20 in
  let volatility := (avgRange / currentPrice) * 100 in
  let trendStrength := Qabs priceChange20 + Qabs priceChange50 / 2 in
  let isTrending :=
    JS.Qgtb (Qabs priceChange20) 1 && sameSign priceChange20 priceChange50 in
  mkMarketConditions isTrending trendStrength volatility priceChange20.

(** [const rsiOverbought = indicators.rsi_overbought >= 70 ? 75 :
    indicators.rsi_overbought]. *)
Definition rsiOverbought (ind : StrategyIndicators.t) : Q :=
  if JS.Qgeb (StrategyIndicators.rsi_overbought ind) 70 then 75
  else StrategyIndicators.rsi_overbought ind.

(** [const rsiOversold = indicators.rsi_oversold <= 30 ? 25 :
    indicators.rsi_oversold]. *)
Definition rsiOversold (ind : StrategyIndicators.t) : Q :=
  if JS.Qleb (StrategyIndicators.rsi_oversold ind) 30 then 25
  else StrategyIndicators.rsi_oversold ind.

(** The classification of [currentRSI] against the effective thresholds. *)
Definition classifyRSI (ind : StrategyIndicators.t) (currentRSI : Q)
    : RsiSignal :=
  if JS.Qltb currentRSI (rsiOversold ind) then Oversold
  else if JS.Qgtb currentRSI (rsiOverbought ind) then Overbought
  else RsiNeutral.

Definition classifyCross (previousA previousB currentA currentB : Q) : Trend :=
  if JS.Qltb previousA previousB && JS.Qgtb currentA currentB then Bullish
  else if JS.Qgtb previousA previousB && JS.Qltb currentA currentB then Bearish
  else if JS.Qgtb currentA currentB then Bullish
  else if JS.Qltb currentA currentB then Bearish
  else Neutral.

(** [[...].filter(Boolean).length]. *)
Definition countTrue (l : list bool) : nat :=
  List.length (filter (fun b => b) l).

Definition analyzeSignal (candles : list Candle.t)
    (ind : StrategyIndicators.t) (symbol : string) : Signal :=
  let closes := map Candle.close candles in
  let volumes := map Candle.volume candles in
  let currentPrice := orDefault (fromEnd 1 closes) 0 in
  let currentVolume := orDefault (fromEnd 1 volumes) 0 in
  let averageVolume := calculateAverageVolume exact volumes 20 in
  let marketConditions := analyzeMarketConditions candles in
  let emaShort := calculateEMA exact closes (StrategyIndicators.ema_short ind) in
  let emaLong := calculateEMA exact closes (StrategyIndicators.ema_long ind) in
  if (List.length emaShort <? 2)%nat || (List.length emaLong <? 2)%nat then
    mkSignal NoAction symbol currentPrice 0
      (mkSignalIndicators Neutral RsiNeutral Neutral false)
      50 currentVolume averageVolume
  else
    let currentEmaShort := orDefault (fromEnd 1 emaShort) 0 in
    let previousEmaShort := orDefault (fromEnd 2 emaShort) 0 in
    let currentEmaLong := orDefault (fromEnd 1 emaLong) 0 in
    let previousEmaLong := orDefault (fromEnd 2 emaLong) 0 in
    let ema_trend :=
      classifyCross previousEmaShort previousEmaLong
        currentEmaShort currentEmaLong in
    let rsiValues :=
      calculateRSI exact closes (StrategyIndicators.rsi_period ind) in
    let currentRSI := orDefault (fromEnd 1 rsiValues) 50 in
    let rsi_signal := classifyRSI ind currentRSI in
    let macdResult :=
      calculateMACD exact closes (StrategyIndicators.macd_fast ind)
        (StrategyIndicators.macd_slow ind)
        (StrategyIndicators.macd_signal ind) in
    let currentHistogram := orDefault (fromEnd 1 (histogram macdResult)) 0 in
    let previousHistogram := orDefault (fromEnd 2 (histogram macdResult)) 0 in
    let macd_signal :=
      classifyCross previousHistogram 0 currentHistogram 0 in
    let volumeMultiplier :=
      if JS.Qgeb (StrategyIndicators.volume_multiplier ind) (3 # 2)
      then Qmax2 2 (StrategyIndicators.volume_multiplier ind) else 2 in
    let volume_confirmed :=
      JS.Qgtb currentVolume (averageVolume * volumeMultiplier) in
    let bullishCount :=
      countTrue
        [Trend_eqb ema_trend Bullish;
         RsiSignal_eqb rsi_signal Oversold
         || (RsiSignal_eqb rsi_signal RsiNeutral && Trend_eqb ema_trend Bullish);
         Trend_eqb macd_signal Bullish;
         volume_confirmed] in
    let bearishCount :=
      countTrue
        [Trend_eqb ema_trend Bearish;
         RsiSignal_eqb rsi_signal Overbought
         || (RsiSignal_eqb rsi_signal RsiNeutral && Trend_eqb ema_trend Bearish);
         Trend_eqb macd_signal Bearish;
         volume_confirmed] in
    let decided : Action * Q :=
      if (3 <=? bullishCount)%nat
      then (Buy, inject_Z (Z.of_nat bullishCount) / 4)
      else if (3 <=? bearishCount)%nat
      then (Sell, inject_Z (Z.of_nat bearishCount) / 4)
      else (NoAction, 0) in
    let weak := (bullishCount <? 4)%nat && (bearishCount <? 4)%nat in
    let isAction (d : Action * Q) :=
      match fst d with NoAction => false | _ => true end in
    let decided :=
      if isAction decided && negb (isTrending marketConditions) && weak
      then (NoAction, 0) else decided in
    let decided :=
      if isAction decided && JS.Qgtb (volatility marketConditions) 5 && weak
      then (NoAction, 0) else decided in
    let decided :=
      if isAction decided && isTrending marketConditions
         && JS.Qltb (volatility marketConditions) 3
      then (fst decided, Qmin2 1 (snd decided * (11 # 10))) else decided in
    mkSignal (fst decided) symbol currentPrice (snd decided)
      (mkSignalIndicators ema_trend rsi_signal macd_signal volume_confirmed)
      currentRSI currentVolume averageVolume.

(** ** Helpers of the signal generator ([routes/autoSignalGenerator.ts]) *)

Definition MIN_SIGNAL_CONFIDENCE : Q := 8 # 10.

(** ASCII case folding, as the [i] flag of a regular expression without the
    [u] flag folds the letters of an ASCII pattern. *)
Definition toLower (a : ascii) : ascii :=
  let n := nat_of_ascii a in
  if (65 <=? n)%nat && (n <=? 90)%nat then ascii_of_nat (n + 32) else a.

Fixpoint lowerCase (s : string) : string :=
match s with
| EmptyString => EmptyString
| String a r => String (toLower a) (lowerCase r)
end.

(** [s.includes(pattern)]. *)
Fixpoint includes (pattern s : string) : bool :=
  String.prefix pattern s
  || match s with
     | EmptyString => false
     | String _ r => includes pattern r
     end.

Definition precisionPatterns : list string :=
  ["precision"; "step"; "lot"; "qty"; "quantity"; "filter failure"].

(** [/precision|step|lot|qty|quantity|filter failure/i.test(message)], after
    [if (!message) return false]. *)
Definition isPrecisionError (message : option string) : bool :=
  match message with
  | None => false
  | Some m =>
      negb (String.eqb m "")
      && existsb (fun p => includes p (lowerCase m)) precisionPatterns
  end.

(** The decimal digits of a natural number. *)
Definition digits (n : N) : string := NilEmpty.string_of_uint (N.to_uint n).

Fixpoint zeros (n : nat) : string :=
match n with
| O => ""
| S n' => String "0" (zeros n')
end.

(** [n / 10^decimals] written with exactly [decimals] decimals. *)
Definition fixedPoint (n : N) (decimals : nat) : string :=
  let ds := digits n in
  let padded := (zeros (S decimals - String.length ds) ++ ds)%string in
  let intLen := (String.length padded - decimals)%nat in
  match decimals with
  | O => padded
  | S _ =>
      (String.substring 0 intLen padded ++ "."
         ++ String.substring intLen decimals padded)%string
  end.

(** [x.toFixed(decimals)] for a finite [x] below [10^21]: the sign, then the
    integer nearest to [|x| * 10^decimals] (the larger one on a tie). *)
Definition toFixed (x : Q) (decimals : nat) : string :=
  let scaled := Qabs x * inject_Z (10 ^ Z.of_nat decimals) in
  let n := Z.to_N (Qfloor (scaled + (1 # 2))) in
  ((if JS.Qltb x 0 then "-" else "") ++ fixedPoint n decimals)%string.

Fixpoint reverse (s : string) : string :=
match s with
| EmptyString => EmptyString
| String a r => (reverse r ++ String a EmptyString)%string
end.

Fixpoint dropZeros (s : string) : string :=
match s with
| String "0" r => dropZeros r
| _ => s
end.

(** [s.replace(/\.?0+$/, '')]: the final run of zeros goes, and a point just
    before it; a string that does not end in a zero is unchanged. *)
Definition stripZeros (s : string) : string :=
  match reverse s with
  | String "0" r =>
      match dropZeros r with
      | String "." r' => reverse r'
      | r' => reverse r'
      end
  | _ => s
  end.

Definition formatQty (value : Q) (decimals : nat) : option string :=
  let factor := inject_Z (10 ^ Z.of_nat decimals) in
  let floored := inject_Z (Qfloor (value * factor)) / factor in
  if JS.Qleb floored 0 then None
  else Some (stripZeros (toFixed floored decimals)).

Definition clampNumber (value min max : Q) : Q :=
  Qmin2 max (Qmax2 min value).

Definition getConfigNumber (value : option Q) (fallback : Q) : Q :=
  orDefault value fallback.

Definition getConfigBoolean (value : option bool) (fallback : bool) : bool :=
  match value with
  | Some b => b
  | None => fallback
  end.

(** [now.getUTCHours() * 60 + now.getUTCMinutes()]. *)
Definition utcMinutes (now : Z) : Q :=
  inject_Z ((now / 60000) mod 1440).

(** [Date.UTC(year, month, date)] of [now]: the preceding UTC midnight. *)
Definition utcDayStart (now : Z) : Z := (now - now mod 86400000)%Z.

Definition isWithinTradingSession (config : Tuning.t) (now : Z) : bool :=
  match Tuning.session_start config, Tuning.session_end config with
  | Some (Some startH, Some startM), Some (Some endH, Some endM) =>
      let minutesNow := utcMinutes now in
      let startMinutes := startH * 60 + startM in
      let endMinutes := endH * 60 + endM in
      if JS.Qleb startMinutes endMinutes
      then JS.Qgeb minutesNow startMinutes && JS.Qleb minutesNow endMinutes
      else JS.Qgeb minutesNow startMinutes || JS.Qleb minutesNow endMinutes
  | _, _ => true
  end.

(** A truthy number: neither missing nor zero. *)
Definition truthyNum (x : option Q) : bool :=
  match x with
  | Some q => negb (Qeq_bool q 0)
  | None => false
  end.

(** ** The signal generator's tick ([routes/autoSignalGenerator.ts]) *)

Record AutoSignalResult := mkAutoSignalResult {
  ar_strategy : string;
  ar_pair : string;
  ar_signal : option (string * string * Q * Q);
  ar_executed : bool;
  ar_tradeId : option string;
  ar_reason : option string }.

(** The loop variables of the precision-retry ladder. *)
Record Ladder := mkLadder {
  orderResult : ApiResult;
  orderQtyDecimals : option nat;
  lastError : option string }.

(** What an execution leaves behind: [orderSuccess], [orderId] and
    [executionError]; [thrown] is set when the code raised an exception,
    which the per-pair [try]/[catch] swallows. *)
Record Execution := mkExecution {
  orderSuccess : bool;
  orderId : option string;
  executionError : option string;
  thrown : bool }.

Definition defaultIndicators : StrategyIndicators.t :=
  StrategyIndicators.mk 12 26 14 70 30 12 26 9 (3 # 2).

(** The defaults the [map] over the eligible strategies writes into each
    row. *)
Definition withDefaults (s : TradingStrategy.t) : TradingStrategy.t :=
  let dflt (x : option Q) (d : Q) := if truthyNum x then x else Some d in
  TradingStrategy.mk
    (TradingStrategy.id s) (TradingStrategy.user_id s) (TradingStrategy.name s)
    (TradingStrategy.webhook_secret s) (TradingStrategy.is_active s)
    (TradingStrategy.signal_mode s) (TradingStrategy.auto_signal_enabled s)
    (TradingStrategy.exchange s) (TradingStrategy.product s)
    (TradingStrategy.environment s)
    (match TradingStrategy.allowed_pairs s with
     | [] => ["BTCUSDT"; "ETHUSDT"]
     | l => l
     end)
    (match TradingStrategy.auto_signal_indicators s with
     | Some i => Some i
     | None => Some defaultIndicators
     end)
    (dflt (TradingStrategy.auto_signal_interval s) 1)
    (TradingStrategy.last_signal_at s)
    (TradingStrategy.position_size_type s)
    (TradingStrategy.position_size_value s)
    (dflt (TradingStrategy.default_leverage s) 1)
    (dflt (TradingStrategy.tp1_percent s) 3)
    (TradingStrategy.tp2_percent s) (TradingStrategy.tp3_percent s)
    (dflt (TradingStrategy.stop_loss_percent s) 2)
    (match TradingStrategy.use_tp1 s with
     | Some b => Some b
     | None => Some true
     end)
    (TradingStrategy.use_tp2 s) (TradingStrategy.use_tp3 s)
    (dflt (TradingStrategy.max_positions s) 5)
    (dflt (TradingStrategy.tp1_close_percent s) 50)
    (TradingStrategy.tp2_close_percent s) (TradingStrategy.tp3_close_percent s)
    (TradingStrategy.max_trades_per_day s) (TradingStrategy.max_daily_loss s)
    (TradingStrategy.max_consecutive_losses s)
    (TradingStrategy.use_trailing_stop s)
    (TradingStrategy.trailing_stop_activation s)
    (TradingStrategy.trailing_stop_callback s)
    (TradingStrategy.strategy_config s).

Definition set_last_signal_at (now : Z) (s : TradingStrategy.t)
    : TradingStrategy.t :=
  TradingStrategy.mk
    (TradingStrategy.id s) (TradingStrategy.user_id s) (TradingStrategy.name s)
    (TradingStrategy.webhook_secret s) (TradingStrategy.is_active s)
    (TradingStrategy.signal_mode s) (TradingStrategy.auto_signal_enabled s)
    (TradingStrategy.exchange s) (TradingStrategy.product s)
    (TradingStrategy.environment s) (TradingStrategy.allowed_pairs s)
    (TradingStrategy.auto_signal_indicators s)
    (TradingStrategy.auto_signal_interval s) (Some now)
    (TradingStrategy.position_size_type s)
    (TradingStrategy.position_size_value s)
    (TradingStrategy.default_leverage s) (TradingStrategy.tp1_percent s)
    (TradingStrategy.tp2_percent s) (TradingStrategy.tp3_percent s)
    (TradingStrategy.stop_loss_percent s) (TradingStrategy.use_tp1 s)
    (TradingStrategy.use_tp2 s) (TradingStrategy.use_tp3 s)
    (TradingStrategy.max_positions s) (TradingStrategy.tp1_close_percent s)
    (TradingStrategy.tp2_close_percent s) (TradingStrategy.tp3_close_percent s)
    (TradingStrategy.max_trades_per_day s) (TradingStrategy.max_daily_loss s)
    (TradingStrategy.max_consecutive_losses s)
    (TradingStrategy.use_trailing_stop s)
    (TradingStrategy.trailing_stop_activation s)
    (TradingStrategy.trailing_stop_callback s)
    (TradingStrategy.strategy_config s).

(** [s.is_active && (s.signal_mode === 'auto' || !s.signal_mode) &&
    (s.auto_signal_enabled === true || !s.auto_signal_enabled)]. *)
Definition isAutoStrategy (s : TradingStrategy.t) : bool :=
  TradingStrategy.is_active s
  && (match TradingStrategy.signal_mode s with
      | Some m => String.eqb m "auto" || String.eqb m ""
      | None => true
      end)
  && (match TradingStrategy.auto_signal_enabled s with
      | Some true => true
      | Some false => true
      | None => true
      end).

(** The tuning a strategy carries: [config.strategy_config || {}]. *)
Definition tuningOf (config : TradingStrategy.t) : Tuning.t :=
  match TradingStrategy.strategy_config config with
  | Some t => t
  | None => Tuning.empty
  end.

(** [t.user_id === userId && new Date(t.created_at) >= dayStart]. *)
Definition tradedToday (userId : string) (dayStart : Z) (t : Trade.t) : bool :=
  String.eqb (Trade.user_id t) userId && (dayStart <=? Trade.created_at t)%Z.

(** [.reduce((sum, t) => sum + Number(t.realized_pnl || 0), 0)] over the
    user's trades of the day. *)
Definition dailyPnl (userId : string) (dayStart : Z) (trades : list Trade.t)
    : Q :=
  fold_left (fun sum t => sum + JS.orZero (Trade.realized_pnl t))
    (filter (tradedToday userId dayStart) trades) 0.

(** Stable insertion into a list sorted by decreasing [created_at]. *)
Fixpoint insertByDate (t : Trade.t) (l : list Trade.t) : list Trade.t :=
match l with
| [] => [t]
| x :: r =>
    if (Trade.created_at x <=? Trade.created_at t)%Z then t :: l
    else x :: insertByDate t r
end.

(** [.sort((a, b) => new Date(b.created_at) - new Date(a.created_at))]:
    newest first, ties in their former order. *)
Definition newestFirst (l : list Trade.t) : list Trade.t :=
  fold_right insertByDate [] l.

(** The scan for the losing streak: the count of losses and the date of the
    first one met, up to the first profitable trade. *)
Fixpoint losingStreak (recent : list Trade.t) (consecutiveLosses : nat)
    (lastLossAt : option Z) : nat * option Z :=
match recent with
| [] => (consecutiveLosses, lastLossAt)
| trade :: rest =>
    let pnl := JS.orZero (Trade.realized_pnl trade) in
    if JS.Qltb pnl 0 then
      losingStreak rest (S consecutiveLosses)
        (match lastLossAt with
         | Some d => Some d
         | None => Some (Trade.created_at trade)
         end)
    else if JS.Qgtb pnl 0 then (consecutiveLosses, lastLossAt)
    else losingStreak rest consecutiveLosses lastLossAt
end.

Definition hasRealizedPnl (userId : string) (t : Trade.t) : bool :=
  String.eqb (Trade.user_id t) userId
  && match Trade.realized_pnl t with Some _ => true | None => false end.

Definition withPositionSide (positionSide : string)
    : list (string * ParamValue) :=
  if String.eqb positionSide "BOTH" then []
  else [("positionSide", PStr positionSide)].

(** [side === buy ? price * (1 + pct / 100) : price * (1 - pct / 100)]. *)
Definition above (isBuy : bool) (price pct : Q) : Q :=
  if isBuy then price * (1 + pct / 100) else price * (1 - pct / 100).

(** [side === buy ? price * (1 - pct / 100) : price * (1 + pct / 100)]. *)
Definition below (isBuy : bool) (price pct : Q) : Q :=
  if isBuy then price * (1 - pct / 100) else price * (1 + pct / 100).

(** [Math.floor(q * 1000) / 1000]. *)
Definition floor3 (q : Q) : Q := inject_Z (Qfloor (q * 1000)) / 1000.

(** [errors.join(' | ')]. *)
Fixpoint joinErrors (errors : list string) : string :=
match errors with
| [] => ""
| [e] => e
| e :: rest => (e ++ " | " ++ joinErrors rest)%string
end.

(** [error || fallback] on an optional string. *)
Definition errorOr (error : option string) (fallback : string) : string :=
  match error with
  | Some e => JS.strOr e fallback
  | None => fallback
  end.

Section AutoSignal.

Variable W : World.

(** [await fetchKlines(...)], [await getBookTicker(...)] and
    [await getGeminiFilterDecision(...)]: the request goes on the trace. *)
Definition fetchKlinesM (r : Request) (st : State) : list Candle.t * State :=
  (fetchKlines W (List.length (trace st)) r, set_trace (trace st ++ [r]) st).

Definition getBookTickerM (r : Request) (st : State)
    : option (Q * Q) * State :=
  (getBookTicker W (List.length (trace st)) r, set_trace (trace st ++ [r]) st).

Definition getGeminiFilterDecisionM (r : Request) (st : State)
    : GeminiDecision * State :=
  (getGeminiFilterDecision W (List.length (trace st)) r,
   set_trace (trace st ++ [r]) st).

(** [getAccountBalance]: the pair ([available], [total]). *)
Definition getAccountBalance (exchange product environment : string)
    (apiKey apiSecret : string) (st : State) : (Q * Q) * State :=
  let isTestnet := String.eqb environment "testnet" in
  let usdt (l : list VenueBalance) :=
    match find (fun b => String.eqb (vb_asset b) "USDT") l with
    | Some b => (JS.orZero (vb_available b), JS.orZero (vb_total b))
    | None => (0, 0)
    end in
  if String.eqb exchange "binance" then
    let endpoint :=
      if String.eqb product "futures" then "/fapi/v2/balance"
      else "/api/v3/account" in
    let (result, st) :=
      callApiM W (BinanceApi endpoint apiKey apiSecret isTestnet product "GET"
                    []) st in
    match success result, data result with
    | true, BalanceList balances =>
        if String.eqb product "futures" then (usdt balances, st)
        else ((0, 0), st)
    | _, _ => ((0, 0), st)
    end
  else if String.eqb exchange "bybit" then
    let (result, st) :=
      callApiM W (BybitApi "/v5/account/wallet-balance" apiKey apiSecret
                    isTestnet "GET" [("accountType", PStr "UNIFIED")]) st in
    match success result, data result with
    | true, BalanceList coins => (usdt coins, st)
    | _, _ => ((0, 0), st)
    end
  else ((0, 0), st).

(** The loop [for (const decimals of attempts)] of the entry order. *)
Fixpoint ladder (place : string -> Request) (quantity : Q)
    (attempts : list nat) (l : Ladder) (st : State) : Ladder * State :=
match attempts with
| [] => (l, st)
| decimals :: rest =>
    match formatQty quantity decimals with
    | None => ladder place quantity rest l st
    | Some qtyStr =>
        if String.eqb qtyStr "" then ladder place quantity rest l st
        else
          let (attemptResult, st) := callApiM W (place qtyStr) st in
          if success attemptResult then
            (mkLadder attemptResult (Some decimals) (lastError l), st)
          else if negb (isPrecisionError (error attemptResult)) then
            (mkLadder attemptResult (orderQtyDecimals l) (error attemptResult),
             st)
          else
            ladder place quantity rest
              (mkLadder (orderResult l) (orderQtyDecimals l)
                 (error attemptResult)) st
    end
end.

(** The entry order once the leverage is set: the ladder over 3, 2, 1 and 0
    decimals, then [if (!orderResult.success && lastError) orderResult =
    { success: false, error: lastError }]. *)
Definition placeEntryOrder (place : string -> Request) (quantity : Q)
    (st : State) : Ladder * State :=
  let (l, st) :=
    ladder place quantity [3; 2; 1; 0]%nat
      (mkLadder (mkApiResult false NoData (Some "Failed to set leverage"))
         None None) st in
  (if negb (success (orderResult l)) && JS.truthy (lastError l)
   then mkLadder (mkApiResult false NoData (lastError l))
          (orderQtyDecimals l) (lastError l)
   else l, st).

(** One take-profit level of the Binance branch. *)
Definition binanceTakeProfit (pair closeSide positionSide : string)
    (isBuy isTestnet : bool) (product apiKey apiSecret : string)
    (price roundedQty : Q) (decimals : nat)
    (acc : list string * State) (tp : bool * Q * Q) : list string * State :=
  let (tpSlErrors, st) := acc in
  let '(enabled, percent, closePercent) := tp in
  if negb enabled then acc
  else
    let tpPrice := above isBuy price percent in
    let tpQty := floor3 (roundedQty * (closePercent / 100)) in
    match formatQty tpQty decimals with
    | None => acc
    | Some tpQtyStr =>
        if String.eqb tpQtyStr "" then acc
        else
          let (tpResult, st) :=
            callApiM W
              (BinanceApi "/fapi/v1/order" apiKey apiSecret isTestnet product
                 "POST"
                 ([("symbol", PStr pair); ("side", PStr closeSide);
                   ("type", PStr "TAKE_PROFIT_MARKET");
                   ("stopPrice", PFixed2 tpPrice)]
                    ++ withPositionSide positionSide
                    ++ [("quantity", PStr tpQtyStr)])) st in
          if success tpResult then (tpSlErrors, st)
          else
            (tpSlErrors
               ++ [errorOr (error tpResult)
                     ("TP" ++ numberToString W percent ++ " failed")%string],
             st)
    end.

Definition tpLevels (config : TradingStrategy.t) : list (bool * Q * Q) :=
  [(match TradingStrategy.use_tp1 config with Some b => b | None => false end,
    JS.orZero (TradingStrategy.tp1_percent config),
    JS.orZero (TradingStrategy.tp1_close_percent config));
   (TradingStrategy.use_tp2 config, TradingStrategy.tp2_percent config,
    TradingStrategy.tp2_close_percent config);
   (TradingStrategy.use_tp3 config, TradingStrategy.tp3_percent config,
    TradingStrategy.tp3_close_percent config)].

(** The Binance futures branch of the execution. *)
Definition executeBinance (config : TradingStrategy.t) (isBuy : bool)
    (pair : string) (quantity price leverage : Q) (apiKey apiSecret : string)
    (st : State) : Execution * State :=
  let strategyConfig := tuningOf config in
  let product := TradingStrategy.product config in
  let isTestnet := String.eqb (TradingStrategy.environment config) "testnet" in
  let roundedQty := floor3 quantity in
  let stopLossPercent := JS.orZero (TradingStrategy.stop_loss_percent config) in
  let positionSide :=
    match Tuning.position_side strategyConfig with
    | Some s => JS.strOr s "BOTH"
    | None => "BOTH"
    end in
  let (leverageResult, st) :=
    callApiM W
      (BinanceApi "/fapi/v1/leverage" apiKey apiSecret isTestnet product "POST"
         [("symbol", PStr pair); ("leverage", PNum leverage)]) st in
  let side := if isBuy then "BUY" else "SELL" in
  let (l, st) :=
    if success leverageResult then
      placeEntryOrder
        (fun qtyStr =>
           BinanceApi "/fapi/v1/order" apiKey apiSecret isTestnet product "POST"
             ([("symbol", PStr pair); ("side", PStr side);
               ("type", PStr "MARKET")]
                ++ withPositionSide positionSide
                ++ [("quantity", PStr qtyStr)]))
        quantity st
    else
      (mkLadder
         (mkApiResult false NoData
            (Some (errorOr (error leverageResult) "Failed to set leverage")))
         None None, st) in
  if success (orderResult l) then
    match data (orderResult l) with
    | OrderAck (Some orderId) =>
        if JS.Qgtb price 0 then
          let closeSide := if isBuy then "SELL" else "BUY" in
          let slPrice := below isBuy price stopLossPercent in
          let (slResult, st) :=
            callApiM W
              (BinanceApi "/fapi/v1/order" apiKey apiSecret isTestnet product
                 "POST"
                 ([("symbol", PStr pair); ("side", PStr closeSide);
                   ("type", PStr "STOP_MARKET"); ("stopPrice", PFixed2 slPrice);
                   ("closePosition", PStr "true")]
                    ++ withPositionSide positionSide)) st in
          let tpSlErrors :=
            if success slResult then []
            else [errorOr (error slResult) "Stop loss failed"] in
          let decimals :=
            match orderQtyDecimals l with Some d => d | None => 3%nat end in
          let (tpSlErrors, st) :=
            fold_left
              (binanceTakeProfit pair closeSide positionSide isBuy isTestnet
                 product apiKey apiSecret price roundedQty decimals)
              (tpLevels config) (tpSlErrors, st) in
          let useTrailingStop :=
            getConfigBoolean (Tuning.use_trailing_stop strategyConfig) false in
          let trailingStopCallback :=
            getConfigNumber (Tuning.trailing_stop_callback strategyConfig) 0 in
          let trailingStopActivation :=
            getConfigNumber (Tuning.trailing_stop_activation strategyConfig) 0 in
          let (tpSlErrors, st) :=
            if useTrailingStop && JS.Qgtb trailingStopCallback 0 then
              let callbackRate :=
                clampNumber trailingStopCallback (1 # 10) 5 in
              let activationPrice :=
                if JS.Qgtb trailingStopActivation 0
                then above isBuy price trailingStopActivation else 0 in
              let (trailingResult, st) :=
                callApiM W
                  (BinanceApi "/fapi/v1/order" apiKey apiSecret isTestnet
                     product "POST"
                     ([("symbol", PStr pair); ("side", PStr closeSide);
                       ("type", PStr "TRAILING_STOP_MARKET");
                       ("callbackRate", PNum callbackRate)]
                        ++ (if JS.Qgtb activationPrice 0
                            then [("activationPrice", PFixed2 activationPrice)]
                            else [])
                        ++ withPositionSide positionSide)) st in
              if success trailingResult then (tpSlErrors, st)
              else
                (tpSlErrors
                   ++ [errorOr (error trailingResult) "Trailing stop failed"],
                 st)
            else (tpSlErrors, st) in
          (mkExecution true (Some orderId)
             (match tpSlErrors with
              | [] => None
              | _ :: _ => Some (joinErrors tpSlErrors)
              end) false, st)
        else (mkExecution true (Some orderId) None false, st)
    | _ => (mkExecution false None None true, st)
    end
  else
    (mkExecution false None
       (Some (errorOr (error (orderResult l)) "Binance order failed")) false,
     st).

(** One take-profit level of the Bybit branch: a failure overwrites
    [executionError]. *)
Definition bybitTakeProfit (pair closeSide : string) (isBuy isTestnet : bool)
    (apiKey apiSecret : string) (price roundedQty : Q) (decimals : nat)
    (acc : option string * State) (tp : bool * Q * Q)
    : option string * State :=
  let (executionError, st) := acc in
  let '(enabled, percent, closePercent) := tp in
  if negb enabled then acc
  else
    let tpPrice := above isBuy price percent in
    let tpQty := floor3 (roundedQty * (closePercent / 100)) in
    match formatQty tpQty decimals with
    | None => acc
    | Some tpQtyStr =>
        if String.eqb tpQtyStr "" then acc
        else
          let (tpResult, st) :=
            callApiM W
              (BybitApi "/v5/order/create" apiKey apiSecret isTestnet "POST"
                 [("category", PStr "linear"); ("symbol", PStr pair);
                  ("side", PStr closeSide); ("orderType", PStr "Market");
                  ("qty", PStr tpQtyStr); ("reduceOnly", PBool true);
                  ("closeOnTrigger", PBool true);
                  ("triggerPrice", PFixed2 tpPrice);
                  ("triggerBy", PStr "LastPrice")]) st in
          if success tpResult then (executionError, st)
          else (Some (errorOr (error tpResult) "Bybit TP failed"), st)
    end.

(** The Bybit branch of the execution. *)
Definition executeBybit (config : TradingStrategy.t) (isBuy : bool)
    (pair : string) (quantity price leverage : Q) (apiKey apiSecret : string)
    (st : State) : Execution * State :=
  let strategyConfig := tuningOf config in
  let isTestnet := String.eqb (TradingStrategy.environment config) "testnet" in
  let roundedQty := floor3 quantity in
  let stopLossPercent := JS.orZero (TradingStrategy.stop_loss_percent config) in
  let positionIdx := getConfigNumber (Tuning.position_idx strategyConfig) 0 in
  let (leverageResult, st) :=
    callApiM W
      (BybitApi "/v5/position/set-leverage" apiKey apiSecret isTestnet "POST"
         [("category", PStr "linear"); ("symbol", PStr pair);
          ("buyLeverage", PNum leverage); ("sellLeverage", PNum leverage)])
      st in
  let side := if isBuy then "Buy" else "Sell" in
  let (l, st) :=
    if success leverageResult then
      placeEntryOrder
        (fun qtyStr =>
           BybitApi "/v5/order/create" apiKey apiSecret isTestnet "POST"
             [("category", PStr "linear"); ("symbol", PStr pair);
              ("side", PStr side); ("orderType", PStr "Market");
              ("qty", PStr qtyStr)])
        quantity st
    else
      (mkLadder
         (mkApiResult false NoData
            (Some (errorOr (error leverageResult) "Failed to set leverage")))
         None None, st) in
  if success (orderResult l) then
    let orderId :=
      match data (orderResult l) with
      | OrderAck o => o
      | _ => None
      end in
    if JS.Qgtb price 0 then
      let slPrice := below isBuy price stopLossPercent in
      let (_, st) :=
        callApiM W
          (BybitApi "/v5/position/trading-stop" apiKey apiSecret isTestnet
             "POST"
             [("category", PStr "linear"); ("symbol", PStr pair);
              ("positionIdx", PNum 0); ("stopLoss", PFixed2 slPrice);
              ("slTriggerBy", PStr "LastPrice")]) st in
      let closeSide := if isBuy then "Sell" else "Buy" in
      let decimals :=
        match orderQtyDecimals l with Some d => d | None => 3%nat end in
      let (executionError, st) :=
        fold_left
          (bybitTakeProfit pair closeSide isBuy isTestnet apiKey apiSecret
             price roundedQty decimals)
          (tpLevels config) (None, st) in
      let useTrailingStop :=
        getConfigBoolean (Tuning.use_trailing_stop strategyConfig) false in
      let trailingStopCallback :=
        getConfigNumber (Tuning.trailing_stop_callback strategyConfig) 0 in
      let trailingStopActivation :=
        getConfigNumber (Tuning.trailing_stop_activation strategyConfig) 0 in
      if useTrailingStop && JS.Qgtb trailingStopCallback 0 then
        let trailingDistance := price * (trailingStopCallback / 100) in
        let activePrice :=
          if JS.Qgtb trailingStopActivation 0
          then above isBuy price trailingStopActivation else 0 in
        let (trailingResult, st) :=
          callApiM W
            (BybitApi "/v5/position/trading-stop" apiKey apiSecret isTestnet
               "POST"
               ([("category", PStr "linear"); ("symbol", PStr pair);
                 ("positionIdx", PNum positionIdx);
                 ("trailingStop", PFixed2 trailingDistance)]
                  ++ (if JS.Qgtb activePrice 0
                      then [("activePrice", PFixed2 activePrice)] else [])))
            st in
        (mkExecution true orderId
           (if success trailingResult then executionError
            else Some (errorOr (error trailingResult)
                         "Bybit trailing stop failed")) false, st)
      else (mkExecution true orderId executionError false, st)
    else (mkExecution true orderId None false, st)
  else
    (mkExecution false None
       (Some (errorOr (error (orderResult l)) "Bybit order failed")) false, st).

(** The execution of a signal on the strategy's venue. *)
Definition executeOrder (config : TradingStrategy.t) (isBuy : bool)
    (pair : string) (quantity price leverage : Q) (apiKey apiSecret : string)
    (st : State) : Execution * State :=
  if String.eqb (TradingStrategy.exchange config) "binance"
     && String.eqb (TradingStrategy.product config) "futures"
  then executeBinance config isBuy pair quantity price leverage apiKey apiSecret
         st
  else if String.eqb (TradingStrategy.exchange config) "bybit"
  then executeBybit config isBuy pair quantity price leverage apiKey apiSecret
         st
  else (mkExecution false None None false, st).

Definition filterInfo (geminiDecision : option GeminiDecision)
    (skipReason : string) : FilterInfo :=
  match geminiDecision with
  | Some d =>
      FilterGemini (gd_execute d) (gd_confidence d)
        (match gd_reason d with Some r => r | None => "" end)
  | None => FilterEngineOnly (JS.strOr skipReason "engine_confidence")
  end.

Definition sameStrategy (id : string) (s : TradingStrategy.t) : bool :=
  String.eqb (TradingStrategy.id s) id.

(** What the tick writes after an execution: on [orderSuccess && orderId] a
    trade, an open position, the strategy's [last_signal_at] and a webhook
    log with status "executed"; otherwise a webhook log with status
    "failed".  Console messages are given without their leading
    pictograph. *)
Definition recordExecution (now : Z) (config : TradingStrategy.t)
    (signal : Signal) (pair : string) (quantity leverage : Q)
    (geminiDecision : option GeminiDecision) (skipReason : string)
    (exec : Execution) (acc : State * list AutoSignalResult)
    : State * list AutoSignalResult :=
  let (st, results) := acc in
  let action := actionName (action signal) in
  let isBuy := String.eqb action "buy" in
  let price := sg_price signal in
  let summary := Some (action, pair, price, confidence signal) in
  if orderSuccess exec && JS.truthy (orderId exec) then
    let (tradeId, st) := freshUUID W st in
    let st :=
      set_trades
        (trades st
           ++ [Trade.mk tradeId (TradingStrategy.user_id config)
                 (TradingStrategy.exchange config)
                 (JS.strOr (TradingStrategy.environment config) "testnet")
                 pair action "market" price quantity None "filled"
                 (orderId exec) (Some "auto_strategy") now]) st in
    let (positionId, st) := freshUUID W st in
    let stopLossPercent :=
      JS.orZero (TradingStrategy.stop_loss_percent config) in
    let st :=
      set_positions
        (positions st
           ++ [Position.mk positionId (TradingStrategy.user_id config) pair
                 (if isBuy then "long" else "short") quantity price None None
                 leverage
                 (Some (below isBuy price stopLossPercent))
                 (match TradingStrategy.use_tp1 config with
                  | Some true =>
                      Some (above isBuy price
                              (JS.orZero (TradingStrategy.tp1_percent config)))
                  | _ => None
                  end)
                 true (TradingStrategy.exchange config)
                 (TradingStrategy.environment config) now now]) st in
    let st :=
      match JS.findIndex (sameStrategy (TradingStrategy.id config))
              (trading_strategies st) with
      | Some strategyIndex =>
          set_trading_strategies
            (JS.update strategyIndex (set_last_signal_at now)
               (trading_strategies st)) st
      | None => st
      end in
    let (webhookLogId, st) := freshUUID W st in
    let st :=
      set_webhook_logs
        (webhook_logs st
           ++ [WebhookLog.mk webhookLogId (TradingStrategy.user_id config)
                 (TradingStrategy.id config)
                 (PayloadAuto action pair price (confidence signal)
                    (filterInfo geminiDecision skipReason) (orderId exec))
                 "executed" None now]) st in
    (consoleLog
       ("Auto signal EXECUTED: " ++ pair ++ " " ++ action ++ " for strategy "
          ++ TradingStrategy.name config ++ " | Signal confidence: "
          ++ toFixed (confidence signal * 100) 1 ++ "%")%string st,
     results
       ++ [mkAutoSignalResult (TradingStrategy.name config) pair summary true
             (Some tradeId) None])
  else
    let (webhookLogId, st) := freshUUID W st in
    let st :=
      set_webhook_logs
        (webhook_logs st
           ++ [WebhookLog.mk webhookLogId (TradingStrategy.user_id config)
                 (TradingStrategy.id config)
                 (PayloadAuto action pair price (confidence signal)
                    (filterInfo geminiDecision skipReason) None)
                 "failed"
                 (Some (errorOr (executionError exec) "Trade execution failed"))
                 now]) st in
    (st,
     results
       ++ [mkAutoSignalResult (TradingStrategy.name config) pair summary false
             None (Some "Trade execution failed")]).
(** The quantity of the entry order. *)
Definition positionSize (config : TradingStrategy.t) (riskPercent price : Q)
    (apiKey apiSecret : string) (st : State) : Q * State :=
  let stopLossPercent := JS.orZero (TradingStrategy.stop_loss_percent config) in
  if JS.Qgtb riskPercent 0 && JS.Qgtb stopLossPercent 0 then
    let (balance, st) :=
      getAccountBalance (TradingStrategy.exchange config)
        (TradingStrategy.product config) (TradingStrategy.environment config)
        apiKey apiSecret st in
    let riskAmount := snd balance * (riskPercent / 100) in
    let stopDistance := price * (stopLossPercent / 100) in
    (if JS.Qgtb stopDistance 0 then riskAmount / stopDistance else 1 # 1000,
     st)
  else if String.eqb (TradingStrategy.position_size_type config) "fixed" then
    (TradingStrategy.position_size_value config / price, st)
  else
    let (balance, st) :=
      getAccountBalance (TradingStrategy.exchange config)
        (TradingStrategy.product config) (TradingStrategy.environment config)
        apiKey apiSecret st in
    let positionValue :=
      snd balance * (TradingStrategy.position_size_value config / 100) in
    (positionValue / price, st).

(** The spread and slippage caps: [Some message] when the pair is skipped. *)
Definition spreadGate (maxSpreadPercent maxSlippagePercent price : Q)
    (pair : string) (book : option (Q * Q)) : option string :=
  match book with
  | None => None
  | Some (bid, ask) =>
      let mid := (bid + ask) / 2 in
      let spreadPct := ((ask - bid) / mid) * 100 in
      let slippagePct := Qabs (price - mid) / mid * 100 in
      if JS.Qgtb maxSpreadPercent 0 && JS.Qgtb spreadPct maxSpreadPercent
      then Some ("Spread too high for " ++ pair ++ ": "
                   ++ toFixed spreadPct 3 ++ "%")%string
      else if JS.Qgtb maxSlippagePercent 0
              && JS.Qgtb slippagePct maxSlippagePercent
      then Some ("Slippage too high for " ++ pair ++ ": "
                   ++ toFixed slippagePct 3 ++ "%")%string
      else None
  end.

(** The body of [for (const pair of pairs)]. *)
Definition processPair (now : Z) (config : TradingStrategy.t)
    (apiKey apiSecret : string) (acc : State * list AutoSignalResult)
    (pair : string) : State * list AutoSignalResult :=
  let (st, results) := acc in
  let strategyConfig := tuningOf config in
  let minConfidence :=
    clampNumber
      (getConfigNumber (Tuning.min_confidence strategyConfig)
         MIN_SIGNAL_CONFIDENCE) 0 1 in
  let maxSpreadPercent :=
    getConfigNumber (Tuning.max_spread_percent strategyConfig) 0 in
  let maxSlippagePercent :=
    getConfigNumber (Tuning.max_slippage_percent strategyConfig) 0 in
  let requireVolumeConfirmed :=
    getConfigBoolean (Tuning.require_volume_confirmed strategyConfig) false in
  let riskPercent := getConfigNumber (Tuning.risk_percent strategyConfig) 0 in
  let exchange := TradingStrategy.exchange config in
  let isTestnet := String.eqb (TradingStrategy.environment config) "testnet" in
  let interval := if String.eqb exchange "binance" then "1m" else "1" in
  let (candles, st) :=
    fetchKlinesM (Klines exchange pair interval isTestnet
                    (TradingStrategy.product config) 100) st in
  if (List.length candles <? 50)%nat then
    (consoleLog ("Insufficient candle data for " ++ pair ++ " (got "
                   ++ natToString (List.length candles)
                   ++ " candles, need 50+)")%string st, results)
  else
    match TradingStrategy.auto_signal_indicators config with
    | None =>
        (consoleLog ("Strategy " ++ TradingStrategy.id config
                       ++ " missing auto_signal_indicators, skipping "
                       ++ pair)%string st, results)
    | Some ind =>
        let signal := analyzeSignal candles ind pair in
        match action signal with
        | NoAction => (st, results)
        | _ =>
            if requireVolumeConfirmed
               && negb (volume_confirmed (indicators signal))
            then
              (consoleLog ("Volume not confirmed for " ++ pair
                             ++ ", skipping")%string st, results)
            else
              let (skipped, st) :=
                if JS.Qgtb maxSpreadPercent 0 || JS.Qgtb maxSlippagePercent 0
                then
                  let (book, st) :=
                    getBookTickerM
                      (BookTicker exchange (TradingStrategy.product config)
                         pair isTestnet) st in
                  (spreadGate maxSpreadPercent maxSlippagePercent
                     (sg_price signal) pair book, st)
                else (None, st) in
              match skipped with
              | Some message => (consoleLog message st, results)
              | None =>
                  let name := actionName (action signal) in
                  let summary :=
                    Some (name, pair, sg_price signal, confidence signal) in
                  let '(shouldExecute, skipReason, geminiDecision, st) :=
                    if negb (JS.Qgeb (confidence signal) minConfidence) then
                      (false, "Confidence below threshold", None, st)
                    else
                      let (decision, st) :=
                        getGeminiFilterDecisionM
                          (GeminiFilter name pair (sg_price signal)
                             (confidence signal)) st in
                      if gd_ok decision then
                        if gd_execute decision
                           && JS.Qgeb (gd_confidence decision) minConfidence
                        then (true, "", Some decision, st)
                        else
                          (false,
                           errorOr (gd_reason decision) "Gemini rejected signal",
                           Some decision, st)
                      else
                        (true,
                         ("Gemini unavailable: "
                            ++ errorOr (gd_reason decision) "unknown_error")%string,
                         None, st) in
                  if shouldExecute then
                    let leverage :=
                      JS.orZero (TradingStrategy.default_leverage config) in
                    let price := sg_price signal in
                    let (quantity, st) :=
                      positionSize config riskPercent price apiKey apiSecret
                        st in
                    let (exec, st) :=
                      executeOrder config (String.eqb name "buy") pair quantity
                        price leverage apiKey apiSecret st in
                    if thrown exec then
                      (consoleLog ("Error processing " ++ pair
                                     ++ " for strategy "
                                     ++ TradingStrategy.id config)%string st,
                       results)
                    else
                      recordExecution now config signal pair quantity leverage
                        geminiDecision skipReason exec (st, results)
                  else
                    let (webhookLogId, st) := freshUUID W st in
                    let st :=
                      set_webhook_logs
                        (webhook_logs st
                           ++ [WebhookLog.mk webhookLogId
                                 (TradingStrategy.user_id config)
                                 (TradingStrategy.id config)
                                 (PayloadAuto name pair (sg_price signal)
                                    (confidence signal)
                                    (filterInfo geminiDecision skipReason)
                                    None)
                                 "filtered"
                                 (Some (JS.strOr skipReason "Signal filtered"))
                                 now]) st in
                    (st,
                     results
                       ++ [mkAutoSignalResult (TradingStrategy.name config)
                             pair summary false None
                             (Some (JS.strOr skipReason "Signal filtered"))])
              end
        end
    end.

(** The checks a strategy must pass before any of its pairs is looked at:
    [Some message] when the strategy is skipped with that console message,
    [None] when it goes on. *)
Definition strategyGate (now : Z) (config : TradingStrategy.t) (st : State)
    : option string :=
  let strategyConfig := tuningOf config in
  let id := TradingStrategy.id config in
  let userId := TradingStrategy.user_id config in
  let cooldownMinutes :=
    getConfigNumber (Tuning.cooldown_minutes strategyConfig) 0 in
  let dayStart := utcDayStart now in
  let dailyTrades :=
    filter
      (fun t =>
         tradedToday userId dayStart t
         && match Trade.triggered_by t with
            | Some by_ => String.eqb by_ "auto_strategy"
            | None => false
            end)
      (trades st) in
  let maxTradesPerDay :=
    getConfigNumber (Tuning.max_trades_per_day strategyConfig) 0 in
  let maxDailyLoss :=
    getConfigNumber (Tuning.max_daily_loss strategyConfig) 0 in
  let maxConsecutiveLosses :=
    getConfigNumber (Tuning.max_consecutive_losses strategyConfig) 0 in
  let streak :=
    losingStreak (newestFirst (filter (hasRealizedPnl userId) (trades st)))
      0 None in
  let intervalMinutes :=
    orElse (TradingStrategy.auto_signal_interval config) 1 in
  if negb (isWithinTradingSession strategyConfig now) then
    Some ("Outside trading session for strategy " ++ id)%string
  else if JS.Qgtb maxTradesPerDay 0
          && JS.Qgeb (inject_Z (Z.of_nat (List.length dailyTrades)))
               maxTradesPerDay
  then Some ("Max trades per day reached for strategy " ++ id)%string
  else if JS.Qgtb maxDailyLoss 0
          && JS.Qleb (dailyPnl userId dayStart (trades st)) (- maxDailyLoss)
  then Some ("Max daily loss reached for strategy " ++ id)%string
  else if JS.Qgtb maxConsecutiveLosses 0
          && JS.Qgeb (inject_Z (Z.of_nat (fst streak))) maxConsecutiveLosses
          && match snd streak with
             | Some lastLossAt =>
                 if JS.Qgtb cooldownMinutes 0
                 then JS.Qltb (inject_Z (now - lastLossAt) / 60000)
                        cooldownMinutes
                 else true
             | None => true
             end
  then
    Some (match snd streak with
          | Some _ =>
              if JS.Qgtb cooldownMinutes 0
              then "Cooldown active for strategy " ++ id
                     ++ " after loss streak"
              else "Max consecutive losses reached for strategy " ++ id
          | None => "Max consecutive losses reached for strategy " ++ id
          end)%string
  else if match TradingStrategy.last_signal_at config with
          | Some lastSignalTime =>
              JS.Qltb (inject_Z (now - lastSignalTime) / 60000) intervalMinutes
          | None => false
          end
  then
    Some ("Strategy " ++ TradingStrategy.name config ++ ": Waiting "
            ++ numberToString W
                 (inject_Z
                    (Qceiling
                       ((intervalMinutes
                         - inject_Z (now - match TradingStrategy.last_signal_at
                                                   config with
                                           | Some t => t
                                           | None => 0%Z
                                           end) / 60000) * 60)))
            ++ "s before next signal (interval: "
            ++ numberToString W intervalMinutes ++ "min)")%string
  else if match find
                  (fun k =>
                     String.eqb (ApiKey.user_id k) userId
                     && String.eqb (ApiKey.exchange k)
                          (TradingStrategy.exchange config)
                     && String.eqb (ApiKey.product k)
                          (TradingStrategy.product config)
                     && String.eqb (ApiKey.environment k)
                          (TradingStrategy.environment config)
                     && ApiKey.is_active k)
                  (api_keys st) with
          | Some _ => false
          | None => true
          end
  then Some ("No API keys found for strategy " ++ id)%string
  else if match find
                  (fun b =>
                     String.eqb (BotStatus.user_id b) userId
                     && String.eqb (BotStatus.environment b)
                          (TradingStrategy.environment config)
                     && match BotStatus.exchange b with
                        | Some e =>
                            String.eqb e (TradingStrategy.exchange config)
                            || String.eqb e ""
                        | None => true
                        end)
                  (bot_status st) with
          | Some b => negb (BotStatus.is_running b)
          | None => true
          end
  then Some ("Bot is not running for strategy " ++ id
               ++ " - skipping signal generation")%string
  else if match find
                  (sameAccount userId (TradingStrategy.environment config))
                  (gas_fee_balances st) with
          | Some gasBalance => JS.Qleb (GasFeeBalance.balance gasBalance) 0
          | None => true
          end
  then Some ("Insufficient gas balance for strategy " ++ id)%string
  else if JS.Qgeb
            (inject_Z
               (Z.of_nat
                  (List.length
                     (filter
                        (fun p =>
                           String.eqb (Position.user_id p) userId
                           && Position.is_open p)
                        (positions st)))))
            (JS.orZero (TradingStrategy.max_positions config))
  then Some ("Max positions reached for strategy " ++ id)%string
  else None.

(** The body of [for (const config of strategies)], [config] being the row
    referenced by [i]. *)
Definition processStrategy (now : Z) (acc : State * list AutoSignalResult)
    (i : nat) : State * list AutoSignalResult :=
  let (st, results) := acc in
  match nth_error (trading_strategies st) i with
  | None => acc
  | Some config =>
      match strategyGate now config st with
      | Some message => (consoleLog message st, results)
      | None =>
          match find
                  (fun k =>
                     String.eqb (ApiKey.user_id k)
                       (TradingStrategy.user_id config)
                     && String.eqb (ApiKey.exchange k)
                          (TradingStrategy.exchange config)
                     && String.eqb (ApiKey.product k)
                          (TradingStrategy.product config)
                     && String.eqb (ApiKey.environment k)
                          (TradingStrategy.environment config)
                     && ApiKey.is_active k)
                  (api_keys st) with
          | None => acc
          | Some apiKeys =>
              fold_left
                (processPair now config
                   (decryptValue W (ApiKey.api_key_encrypted apiKeys))
                   (decryptValue W (ApiKey.api_secret_encrypted apiKeys)))
                (TradingStrategy.allowed_pairs config) (st, results)
          end
      end
  end.

Record AutoSignalResponse := mkAutoSignalResponse {
  processed : nat;
  ar_results : list AutoSignalResult;
  executed : nat;
  totalSignals : nat }.

(** [router.post('/')] of the signal generator: one tick. *)
Definition autoSignalGenerator (now : Z) (st : State)
    : State * AutoSignalResponse :=
  let st :=
    set_trading_strategies
      (map (fun s => if isAutoStrategy s then withDefaults s else s)
         (trading_strategies st)) st in
  let strategies :=
    filter
      (fun i => match nth_error (trading_strategies st) i with
                | Some s => isAutoStrategy s
                | None => false
                end)
      (seq 0 (List.length (trading_strategies st))) in
  match strategies with
  | [] => (st, mkAutoSignalResponse 0 [] 0 0)
  | _ :: _ =>
      let (st, results) := fold_left (processStrategy now) strategies (st, []) in
      let executedCount := List.length (filter ar_executed results) in
      let totalSignals :=
        List.length
          (filter (fun r => match ar_signal r with
                            | Some _ => true
                            | None => false
                            end) results) in
      (consoleLog
         ("Auto-signal Summary: " ++ natToString executedCount ++ " executed, "
            ++ natToString totalSignals ++ " signals generated")%string st,
       mkAutoSignalResponse (List.length strategies) results executedCount
         totalSignals)
  end.

End AutoSignal.

(** ** The alert webhook ([routes/tradingviewWebhook.ts]) *)

(** What [executeTrade] resolves to. *)
Record ExecResult := mkExecResult {
  ex_success : bool;
  ex_orderId : option string;
  ex_error : option string }.

(** The JSON body of the handler's reply. *)
Record Body := mkBody {
  body_success : option bool;
  body_error : option string;
  body_orderId : option string;
  body_tradeId : option string;
  body_message : option string }.

(** The handler's reply: a status with a body, or the reply of its [catch]
    block (status 500, the error being the message of the exception). *)
Inductive WebhookResponse : Type :=
| Json (status : nat) (body : Body)
| Caught.

Definition errorBody (message : string) : Body :=
  mkBody None (Some message) None None None.

Definition refusal (message : string) : WebhookResponse :=
  Json 200 (mkBody (Some false) (Some message) None None None).

Definition failure (error : option string) : ExecResult :=
  mkExecResult false None error.

(** The size of an order as [executeTrade] computes it.  The price it
    divides by is [alert.price || 0], so the quotient may be an infinity or
    [NaN]; both pass the check [roundedQty <= 0]. *)
Inductive Quantity : Type :=
| Finite (q : Q)
| PlusInfinity
| MinusInfinity
| NotANumber.

(** [x / y], where a [y] that is zero is [+0] (it comes from [... || 0]). *)
Definition divide (x y : Q) : Quantity :=
  if Qeq_bool y 0 then
    if JS.Qgtb x 0 then PlusInfinity
    else if JS.Qltb x 0 then MinusInfinity
    else NotANumber
  else Finite (x / y).

(** [x * c] for a finite [c]. *)
Definition scale (x : Quantity) (c : Q) : Quantity :=
  match x with
  | Finite q => Finite (q * c)
  | PlusInfinity =>
      if JS.Qgtb c 0 then PlusInfinity
      else if JS.Qltb c 0 then MinusInfinity
      else NotANumber
  | MinusInfinity =>
      if JS.Qgtb c 0 then MinusInfinity
      else if JS.Qltb c 0 then PlusInfinity
      else NotANumber
  | NotANumber => NotANumber
  end.

(** [Math.floor(x * 1000) / 1000]. *)
Definition floorQuantity (x : Quantity) : Quantity :=
  match x with
  | Finite q => Finite (floor3 q)
  | other => other
  end.

(** [x <= 0]. *)
Definition nonPositive (x : Quantity) : bool :=
  match x with
  | Finite q => JS.Qleb q 0
  | MinusInfinity => true
  | PlusInfinity | NotANumber => false
  end.

(** [x > 0]. *)
Definition positive (x : Quantity) : bool :=
  match x with
  | Finite q => JS.Qgtb q 0
  | PlusInfinity => true
  | MinusInfinity | NotANumber => false
  end.

(** [x.toString()] as a request parameter. *)
Definition quantityParam (x : Quantity) : ParamValue :=
  match x with
  | Finite q => PNum q
  | PlusInfinity => PStr "Infinity"
  | MinusInfinity => PStr "-Infinity"
  | NotANumber => PStr "NaN"
  end.

Section Webhook.

Variable W : World.

Definition calculatePositionSize (strategy : TradingStrategy.t)
    (currentPrice : Q) (apiKey apiSecret : string) (st : State)
    : Quantity * State :=
  let riskPercent :=
    getConfigNumber (Tuning.risk_percent (tuningOf strategy)) 0 in
  let stopLossPercent :=
    JS.orZero (TradingStrategy.stop_loss_percent strategy) in
  if String.eqb (TradingStrategy.position_size_type strategy) "fixed" then
    (divide (TradingStrategy.position_size_value strategy) currentPrice, st)
  else
    let (balance, st) :=
      getAccountBalance W (TradingStrategy.exchange strategy)
        (TradingStrategy.product strategy)
        (TradingStrategy.environment strategy) apiKey apiSecret st in
    if JS.Qgtb riskPercent 0 && JS.Qgtb stopLossPercent 0 then
      let riskAmount := snd balance * (riskPercent / 100) in
      let stopDistance := currentPrice * (stopLossPercent / 100) in
      (Finite (if JS.Qgtb stopDistance 0 then riskAmount / stopDistance
               else 0), st)
    else
      (divide
         (snd balance * (TradingStrategy.position_size_value strategy / 100))
         currentPrice, st).

(** The take-profit loop of [executeTrade]: it returns at the first level
    the venue refuses. *)
Fixpoint webhookTakeProfits (place : Q -> Quantity -> Request)
    (isBuy : bool) (price : Q) (roundedQty : Quantity)
    (levels : list (bool * Q * Q)) (st : State)
    : option ExecResult * State :=
match levels with
| [] => (None, st)
| (enabled, percent, closePercent) :: rest =>
    if negb enabled then
      webhookTakeProfits place isBuy price roundedQty rest st
    else
      let tpPrice := above isBuy price percent in
      let tpQty := floorQuantity (scale roundedQty (closePercent / 100)) in
      if positive tpQty then
        let (tpResult, st) := callApiM W (place tpPrice tpQty) st in
        if success tpResult then
          webhookTakeProfits place isBuy price roundedQty rest st
        else
          (Some (failure (Some (errorOr (error tpResult) "Take profit failed"))),
           st)
      else webhookTakeProfits place isBuy price roundedQty rest st
end.

(** [executeTrade]; [None] when the code raises an exception. *)
Definition executeTrade (strategy : TradingStrategy.t) (alert : Alert.t)
    (apiKey apiSecret : string) (st : State) : option ExecResult * State :=
  let isTestnet :=
    String.eqb (TradingStrategy.environment strategy) "testnet" in
  let leverage :=
    if truthyNum (Alert.leverage alert) then Alert.leverage alert
    else TradingStrategy.default_leverage strategy in
  let price := JS.orZero (Alert.price alert) in
  let strategyConfig := tuningOf strategy in
  let positionSide :=
    match Tuning.position_side strategyConfig with
    | Some s => JS.strOr s "BOTH"
    | None => "BOTH"
    end in
  let positionIdx := getConfigNumber (Tuning.position_idx strategyConfig) 0 in
  let stopLossPercent :=
    JS.orZero (TradingStrategy.stop_loss_percent strategy) in
  let product := TradingStrategy.product strategy in
  let symbol := Alert.symbol alert in
  let isBuy := String.eqb (Alert.action alert) "buy" in
  let trailingCallback :=
    JS.orZero (TradingStrategy.trailing_stop_callback strategy) in
  let trailingActivation :=
    JS.orZero (TradingStrategy.trailing_stop_activation strategy) in
  let (quantity, st) :=
    if truthyNum (Alert.quantity alert)
    then (Finite (JS.orZero (Alert.quantity alert)), st)
    else calculatePositionSize strategy price apiKey apiSecret st in
  let roundedQty := floorQuantity quantity in
  if nonPositive roundedQty then
    (Some (failure (Some "Invalid position size calculated")), st)
  else if String.eqb (TradingStrategy.exchange strategy) "binance"
          && String.eqb product "futures" then
    match leverage with
    | None => (None, st)
    | Some lev =>
        let (_, st) :=
          callApiM W
            (BinanceApi "/fapi/v1/leverage" apiKey apiSecret isTestnet product
               "POST" [("symbol", PStr symbol); ("leverage", PNum lev)]) st in
        let side := if isBuy then "BUY" else "SELL" in
        let closeSide := if isBuy then "SELL" else "BUY" in
        let (orderResult, st) :=
          callApiM W
            (BinanceApi "/fapi/v1/order" apiKey apiSecret isTestnet product
               "POST"
               ([("symbol", PStr symbol); ("side", PStr side);
                 ("type", PStr "MARKET")]
                  ++ withPositionSide positionSide
                  ++ [("quantity", quantityParam roundedQty)])) st in
        if negb (success orderResult) then
          (Some (failure (error orderResult)), st)
        else
          let finish (st : State) : option ExecResult * State :=
            match data orderResult with
            | OrderAck (Some orderId) =>
                (Some (mkExecResult true (Some orderId) None), st)
            | _ => (None, st)
            end in
          if JS.Qgtb price 0 then
            let slPrice := below isBuy price stopLossPercent in
            let (slResult, st) :=
              callApiM W
                (BinanceApi "/fapi/v1/order" apiKey apiSecret isTestnet product
                   "POST"
                   ([("symbol", PStr symbol); ("side", PStr closeSide);
                     ("type", PStr "STOP_MARKET");
                     ("stopPrice", PFixed2 slPrice);
                     ("closePosition", PStr "true")]
                      ++ withPositionSide positionSide)) st in
            if negb (success slResult) then
              (Some (failure (Some (errorOr (error slResult)
                                      "Stop loss failed"))), st)
            else
              let (failed, st) :=
                webhookTakeProfits
                  (fun tpPrice tpQty =>
                     BinanceApi "/fapi/v1/order" apiKey apiSecret isTestnet
                       product "POST"
                       ([("symbol", PStr symbol); ("side", PStr closeSide);
                         ("type", PStr "TAKE_PROFIT_MARKET");
                         ("stopPrice", PFixed2 tpPrice)]
                          ++ withPositionSide positionSide
                          ++ [("quantity", quantityParam tpQty)]))
                  isBuy price roundedQty (tpLevels strategy) st in
              match failed with
              | Some r => (Some r, st)
              | None =>
                  if TradingStrategy.use_trailing_stop strategy
                     && JS.Qgtb trailingCallback 0 then
                    let callbackRate :=
                      clampNumber
                        (orElse (TradingStrategy.trailing_stop_callback
                                   strategy) (2 # 10)) (1 # 10) 5 in
                    let activationPrice :=
                      if JS.Qgtb trailingActivation 0
                      then above isBuy price trailingActivation else 0 in
                    let (trailingResult, st) :=
                      callApiM W
                        (BinanceApi "/fapi/v1/order" apiKey apiSecret isTestnet
                           product "POST"
                           ([("symbol", PStr symbol); ("side", PStr closeSide);
                             ("type", PStr "TRAILING_STOP_MARKET");
                             ("callbackRate", PNum callbackRate)]
                              ++ (if JS.Qgtb activationPrice 0
                                  then [("activationPrice",
                                         PFixed2 activationPrice)]
                                  else [])
                              ++ withPositionSide positionSide)) st in
                    if negb (success trailingResult) then
                      (Some (failure (Some (errorOr (error trailingResult)
                                              "Trailing stop failed"))), st)
                    else finish st
                  else finish st
              end
          else finish st
    end
  else if String.eqb (TradingStrategy.exchange strategy) "bybit" then
    match leverage with
    | None => (None, st)
    | Some lev =>
        let (_, st) :=
          callApiM W
            (BybitApi "/v5/position/set-leverage" apiKey apiSecret isTestnet
               "POST"
               [("category", PStr "linear"); ("symbol", PStr symbol);
                ("buyLeverage", PNum lev); ("sellLeverage", PNum lev)]) st in
        let side := if isBuy then "Buy" else "Sell" in
        let closeSide := if isBuy then "Sell" else "Buy" in
        let (orderResult, st) :=
          callApiM W
            (BybitApi "/v5/order/create" apiKey apiSecret isTestnet "POST"
               [("category", PStr "linear"); ("symbol", PStr symbol);
                ("side", PStr side); ("orderType", PStr "Market");
                ("qty", quantityParam roundedQty)]) st in
        if negb (success orderResult) then
          (Some (failure (error orderResult)), st)
        else
          let finish (st : State) : option ExecResult * State :=
            (Some (mkExecResult true
                     (match data orderResult with
                      | OrderAck o => o
                      | _ => None
                      end) None), st) in
          if JS.Qgtb price 0 then
            let slPrice := below isBuy price stopLossPercent in
            let tp1Price :=
              match TradingStrategy.use_tp1 strategy with
              | Some true =>
                  above isBuy price
                    (JS.orZero (TradingStrategy.tp1_percent strategy))
              | _ => 0
              end in
            let (_, st) :=
              callApiM W
                (BybitApi "/v5/position/trading-stop" apiKey apiSecret
                   isTestnet "POST"
                   ([("category", PStr "linear"); ("symbol", PStr symbol);
                     ("positionIdx", PNum positionIdx);
                     ("stopLoss", PFixed2 slPrice)]
                      ++ (if JS.Qgtb tp1Price 0
                          then [("takeProfit", PFixed2 tp1Price)] else [])
                      ++ [("slTriggerBy", PStr "LastPrice");
                          ("tpTriggerBy", PStr "LastPrice")])) st in
            let (failed, st) :=
              webhookTakeProfits
                (fun tpPrice tpQty =>
                   BybitApi "/v5/order/create" apiKey apiSecret isTestnet "POST"
                     [("category", PStr "linear"); ("symbol", PStr symbol);
                      ("side", PStr closeSide); ("orderType", PStr "Market");
                      ("qty", quantityParam tpQty); ("reduceOnly", PBool true);
                      ("closeOnTrigger", PBool true);
                      ("triggerPrice", PFixed2 tpPrice);
                      ("triggerBy", PStr "LastPrice")])
                isBuy price roundedQty (tl (tpLevels strategy)) st in
            match failed with
            | Some r => (Some r, st)
            | None =>
                if TradingStrategy.use_trailing_stop strategy
                   && JS.Qgtb trailingCallback 0 then
                  let trailingDistance := price * (trailingCallback / 100) in
                  let activePrice :=
                    if JS.Qgtb trailingActivation 0
                    then above isBuy price trailingActivation else 0 in
                  let (trailingResult, st) :=
                    callApiM W
                      (BybitApi "/v5/position/trading-stop" apiKey apiSecret
                         isTestnet "POST"
                         ([("category", PStr "linear"); ("symbol", PStr symbol);
                           ("positionIdx", PNum positionIdx);
                           ("trailingStop", PFixed2 trailingDistance)]
                            ++ (if JS.Qgtb activePrice 0
                                then [("activePrice", PFixed2 activePrice)]
                                else []))) st in
                  if negb (success trailingResult) then
                    (Some (failure (Some (errorOr (error trailingResult)
                                            "Trailing stop failed"))), st)
                  else finish st
                else finish st
            end
          else finish st
    end
  else (Some (failure (Some "Unsupported exchange or product")), st).

(** [db.data.webhook_logs.push({...})] for an alert. *)
Definition logAlert (now : Z) (strategy : TradingStrategy.t) (alert : Alert.t)
    (status : string) (error_message : option string) (st : State) : State :=
  let (id, st) := freshUUID W st in
  set_webhook_logs
    (webhook_logs st
       ++ [WebhookLog.mk id (TradingStrategy.user_id strategy)
             (TradingStrategy.id strategy) (PayloadAlert alert) status
             error_message now]) st.

Definition reject (now : Z) (strategy : TradingStrategy.t) (alert : Alert.t)
    (message : string) (st : State) : State * WebhookResponse :=
  (logAlert now strategy alert "rejected" (Some message) st, refusal message).

(** The checks an alert that is not a close must pass: [Some message] when
    it is rejected. *)
Definition alertGate (now : Z) (strategy : TradingStrategy.t)
    (alert : Alert.t) (st : State) : option string * State :=
  let strategyConfig := tuningOf strategy in
  let userId := TradingStrategy.user_id strategy in
  let dayStart := utcDayStart now in
  let dailyTrades :=
    filter
      (fun t =>
         tradedToday userId dayStart t
         && match Trade.triggered_by t with
            | Some by_ => String.eqb by_ "tradingview_webhook"
            | None => false
            end)
      (trades st) in
  let maxConsecutiveLosses :=
    JS.orZero (TradingStrategy.max_consecutive_losses strategy) in
  let consecutiveLosses :=
    fst (losingStreak
           (newestFirst (filter (hasRealizedPnl userId) (trades st))) 0 None) in
  let maxSpreadPercent :=
    getConfigNumber (Tuning.max_spread_percent strategyConfig) 0 in
  let maxSlippagePercent :=
    getConfigNumber (Tuning.max_slippage_percent strategyConfig) 0 in
  if truthyNum (TradingStrategy.max_trades_per_day strategy)
     && JS.Qgeb (inject_Z (Z.of_nat (List.length dailyTrades)))
          (JS.orZero (TradingStrategy.max_trades_per_day strategy))
  then (Some "Max trades per day reached", st)
  else if truthyNum (TradingStrategy.max_daily_loss strategy)
          && JS.Qleb (dailyPnl userId dayStart (trades st))
               (- JS.orZero (TradingStrategy.max_daily_loss strategy))
  then (Some "Max daily loss reached", st)
  else if JS.Qgtb maxConsecutiveLosses 0
          && JS.Qgeb (inject_Z (Z.of_nat consecutiveLosses))
               maxConsecutiveLosses
  then (Some "Max consecutive losses reached", st)
  else if JS.Qgtb maxSpreadPercent 0 || JS.Qgtb maxSlippagePercent 0 then
    let (book, st) :=
      getBookTickerM W
        (BookTicker (TradingStrategy.exchange strategy)
           (TradingStrategy.product strategy) (Alert.symbol alert)
           (String.eqb (TradingStrategy.environment strategy) "testnet")) st in
    match book with
    | None => (None, st)
    | Some (bid, ask) =>
        let mid := (bid + ask) / 2 in
        let spreadPct := ((ask - bid) / mid) * 100 in
        let slippagePct :=
          if truthyNum (Alert.price alert)
          then Qabs (JS.orZero (Alert.price alert) - mid) / mid * 100
          else 0 in
        if JS.Qgtb maxSpreadPercent 0 && JS.Qgtb spreadPct maxSpreadPercent
        then (Some "Spread too high", st)
        else if JS.Qgtb maxSlippagePercent 0
                && JS.Qgtb slippagePct maxSlippagePercent
        then (Some "Slippage too high", st)
        else (None, st)
    end
  else (None, st).

(** The rows written after [executeTrade] reported success with an order
    id. *)
Definition recordTrade (now : Z) (strategy : TradingStrategy.t)
    (alert : Alert.t) (orderId : string) (st : State)
    : State * WebhookResponse :=
  let isBuy := String.eqb (Alert.action alert) "buy" in
  let price := JS.orZero (Alert.price alert) in
  let (tradeId, st) := freshUUID W st in
  let st :=
    set_trades
      (trades st
         ++ [Trade.mk tradeId (TradingStrategy.user_id strategy)
               (TradingStrategy.exchange strategy)
               (TradingStrategy.environment strategy) (Alert.symbol alert)
               (Alert.action alert) "market" price
               (JS.orZero (Alert.quantity alert)) None "filled" (Some orderId)
               (Some "tradingview_webhook") now]) st in
  let (positionId, st) := freshUUID W st in
  let st :=
    set_positions
      (positions st
         ++ [Position.mk positionId (TradingStrategy.user_id strategy)
               (Alert.symbol alert) (if isBuy then "long" else "short")
               (JS.orZero (Alert.quantity alert)) price None (Some 0)
               (JS.orZero
                  (if truthyNum (Alert.leverage alert)
                   then Alert.leverage alert
                   else TradingStrategy.default_leverage strategy))
               (Some (below isBuy price
                        (JS.orZero (TradingStrategy.stop_loss_percent
                                      strategy))))
               (match TradingStrategy.use_tp1 strategy with
                | Some true =>
                    Some (above isBuy price
                            (JS.orZero (TradingStrategy.tp1_percent strategy)))
                | _ => None
                end)
               true (TradingStrategy.exchange strategy)
               (TradingStrategy.environment strategy) now now]) st in
  let st := logAlert now strategy alert "executed" None st in
  (st,
   Json 200
     (mkBody (Some true) None (Some orderId) (Some tradeId)
        (Some "Trade executed successfully"))).

(** [router.post('/')] of the alert webhook. *)
Definition tradingviewWebhook (now : Z) (alert : Alert.t) (st : State)
    : State * WebhookResponse :=
  if String.eqb (Alert.symbol alert) "" || String.eqb (Alert.action alert) ""
  then (st, Json 400 (errorBody "Missing symbol or action"))
  else
    let found :=
      if JS.truthy (Alert.strategy_id alert) then
        find (fun s => match Alert.strategy_id alert with
                       | Some id => String.eqb (TradingStrategy.id s) id
                       | None => false
                       end)
          (trading_strategies st)
      else if JS.truthy (Alert.secret alert) then
        find (fun s => match TradingStrategy.webhook_secret s,
                             Alert.secret alert with
                       | Some mine, Some given => String.eqb mine given
                       | _, _ => false
                       end)
          (trading_strategies st)
      else None in
    match found with
    | None => (st, Json 404 (errorBody "Strategy not found or inactive"))
    | Some strategy =>
        if negb (TradingStrategy.is_active strategy) then
          (st, Json 404 (errorBody "Strategy not found or inactive"))
        else if JS.truthy (Alert.secret alert)
                && negb (match TradingStrategy.webhook_secret strategy,
                               Alert.secret alert with
                         | Some mine, Some given => String.eqb mine given
                         | _, _ => false
                         end)
        then (st, Json 401 (errorBody "Invalid webhook secret"))
        else
          match find
                  (fun k =>
                     String.eqb (ApiKey.user_id k)
                       (TradingStrategy.user_id strategy)
                     && String.eqb (ApiKey.exchange k)
                          (TradingStrategy.exchange strategy)
                     && String.eqb (ApiKey.product k)
                          (TradingStrategy.product strategy)
                     && String.eqb (ApiKey.environment k)
                          (TradingStrategy.environment strategy)
                     && ApiKey.is_active k)
                  (api_keys st) with
          | None => (st, Json 400 (errorBody "API keys not configured"))
          | Some apiKeys =>
              let apiKey := decryptValue W (ApiKey.api_key_encrypted apiKeys) in
              let apiSecret :=
                decryptValue W (ApiKey.api_secret_encrypted apiKeys) in
              let isClose := String.eqb (Alert.action alert) "close" in
              if negb isClose
                 && negb (isWithinTradingSession (tuningOf strategy) now)
              then reject now strategy alert "Outside trading session" st
              else
                let (rejection, st) :=
                  if isClose then (None, st)
                  else alertGate now strategy alert st in
                match rejection with
                | Some message => reject now strategy alert message st
                | None =>
                    if isClose then
                      match JS.findIndex
                              (fun p =>
                                 String.eqb (Position.user_id p)
                                   (TradingStrategy.user_id strategy)
                                 && String.eqb (Position.symbol p)
                                      (Alert.symbol alert)
                                 && Position.is_open p)
                              (positions st) with
                      | None =>
                          (st,
                           Json 200
                             (mkBody (Some true) None None None
                                (Some "No position to close")))
                      | Some i =>
                          (set_positions
                             (JS.update i (Position.set_manually_closed now)
                                (positions st)) st,
                           Json 200
                             (mkBody (Some true) None None None
                                (Some "Position closed")))
                      end
                    else if match TradingStrategy.max_positions strategy with
                            | Some maxPositions =>
                                JS.Qgeb
                                  (inject_Z
                                     (Z.of_nat
                                        (List.length
                                           (filter
                                              (fun p =>
                                                 String.eqb
                                                   (Position.user_id p)
                                                   (TradingStrategy.user_id
                                                      strategy)
                                                 && Position.is_open p)
                                              (positions st)))))
                                  maxPositions
                            | None => false
                            end
                    then (st, Json 400 (errorBody "Max positions reached"))
                    else
                      let (execResult, st) :=
                        executeTrade strategy alert apiKey apiSecret st in
                      match execResult with
                      | None => (st, Caught)
                      | Some r =>
                          if ex_success r && JS.truthy (ex_orderId r) then
                            recordTrade now strategy alert
                              (match ex_orderId r with
                               | Some o => o
                               | None => ""
                               end) st
                          else
                            (logAlert now strategy alert "failed"
                               (Some (errorOr (ex_error r) "Unknown error")) st,
                             Json 500
                               (mkBody (Some false)
                                  (Some (errorOr (ex_error r)
                                           "Trade execution failed"))
                                  None None None))
                      end
                end
          end
    end.

End Webhook.

(** ** Vocabulary of the statements *)

(** The gas-fee balance of an account: the first row found for it, as
    [getOrCreateGasBalance] would read it; an account without a row has 0. *)
Definition balanceOf (st : State) (userId environment : string) : Q :=
  match find (sameAccount userId environment) (gas_fee_balances st) with
  | Some b => GasFeeBalance.balance b
  | None => 0
  end.

(** [REFERRAL_RATES[level - 1] || 0]. *)
Definition rateOf (level : nat) : Q := nth (level - 1)%nat REFERRAL_RATES 0.

Fixpoint Qsum (l : list Q) : Q :=
match l with
| [] => 0
| x :: r => x + Qsum r
end.

(** The commissions a chain pays to the account ([userId], [environment])
    when the settlement runs in [env]. *)
Definition creditedTo (env : string) (grossProfit : Q)
    (chain : list (nat * Profile.t)) (userId environment : string) : Q :=
  Qsum (map (fun e =>
               if String.eqb (Profile.user_id (snd e)) userId
                  && String.eqb env environment
               then grossProfit * rateOf (fst e) else 0) chain).

(** The fee taken from the account ([userId], [environment]) by a settlement
    of [trader] in [env]. *)
Definition debitedFrom (trader env : string) (fee : Q)
    (userId environment : string) : Q :=
  if String.eqb trader userId && String.eqb env environment then fee else 0.

(** What a commission row says, its [id] and dates apart. *)
Definition commissionView (c : ReferralCommission.t)
    : string * string * option string * nat * Q * Q * Q * string :=
  (ReferralCommission.beneficiary_user_id c,
   ReferralCommission.source_user_id c,
   ReferralCommission.trade_id c,
   ReferralCommission.level c,
   ReferralCommission.gross_profit c,
   ReferralCommission.commission_rate c,
   ReferralCommission.commission_amount c,
   ReferralCommission.status c).

(** What a ledger row says, its [id], snapshots and date apart. *)
Definition txView (t : GasFeeTransaction.t)
    : string * Q * string * option string * string :=
  (GasFeeTransaction.user_id t,
   GasFeeTransaction.amount t,
   GasFeeTransaction.transaction_type t,
   GasFeeTransaction.trade_id t,
   GasFeeTransaction.environment t).

(** [after = before + amount]. *)
Definition ledgerConsistent (t : GasFeeTransaction.t) : Prop :=
  GasFeeTransaction.balance_after t
  == GasFeeTransaction.balance_before t + GasFeeTransaction.amount t.

(** The tables a settlement does not touch. *)
Definition sameOutsideLedger (st st' : State) : Prop :=
  api_keys st' = api_keys st
  /\ trading_strategies st' = trading_strategies st
  /\ webhook_logs st' = webhook_logs st
  /\ trades st' = trades st
  /\ bot_status st' = bot_status st
  /\ profiles st' = profiles st
  /\ positions st' = positions st
  /\ console st' = console st
  /\ trace st' = trace st.

(** The settlement rows recorded for a trade id. *)
Definition settlesTrade (id : string) (s : ProfitSettlement.t) : bool :=
  match ProfitSettlement.trade_id s with
  | Some i => String.eqb i id
  | None => false
  end.

Definition settlementsFor (id : string) (st : State) : nat :=
  List.length (filter (settlesTrade id) (profit_settlements st)).

(** The UUID supply has not yet produced, from the state's counter on, any id
    that names a trade or a settled trade. *)
Definition supplyFresh (W : World) (st : State) : Prop :=
  forall n, (next_uuid st <= n)%nat ->
    settlementsFor (randomUUID W n) st = 0%nat
    /\ forall t, In t (trades st) -> Trade.id t <> randomUUID W n.

Definition supplyInjective (W : World) : Prop :=
  forall m n, randomUUID W m = randomUUID W n -> m = n.

(** At most one settlement row per non-empty trade id. *)
Definition settledOnce (st : State) : Prop :=
  forall id, id <> "" -> (settlementsFor id st <= 1)%nat.

(** A sequence of ticks of the position monitor, one per instant, each
    served from the file the one before left. *)
Fixpoint runTicks (W : World) (nows : list Z) (st : State) : State :=
match nows with
| [] => st
| now :: later => runTicks W later (positionMonitorServed W now st)
end.

(** An adjustment [f] of a balance row that keeps the row's account and adds
    [d] to its balance. *)
Definition adjusts (f : GasFeeBalance.t -> GasFeeBalance.t) (d : Q) : Prop :=
  forall b,
    GasFeeBalance.user_id (f b) = GasFeeBalance.user_id b
    /\ GasFeeBalance.environment (f b) = GasFeeBalance.environment b
    /\ GasFeeBalance.balance (f b) = GasFeeBalance.balance b + d.

(** What one settlement step may change: the ledger tables and the UUID
    counter, which never goes back. *)
Definition ledgerStep (st st' : State) : Prop :=
  sameOutsideLedger st st' /\ (next_uuid st <= next_uuid st')%nat.

(** The rows one level of the chain adds. *)
Definition expectedCommission (userId tradeId : string) (g : Q)
    (entry : nat * Profile.t)
    : string * string * option string * nat * Q * Q * Q * string :=
  (Profile.user_id (snd entry), userId, Some tradeId, fst entry, g,
   rateOf (fst entry), g * rateOf (fst entry), "paid").

Definition expectedCommissionTx (tradeId : string) (g : Q) (env : string)
    (entry : nat * Profile.t) : string * Q * string * option string * string :=
  (Profile.user_id (snd entry), g * rateOf (fst entry),
   "referral_commission", Some tradeId, env).

Definition commissionsOf (g : Q) (chain : list (nat * Profile.t)) : list Q :=
  map (fun e => g * rateOf (fst e)) chain.

(** The invariant of the settlement tables under a given UUID supply. *)
Definition settlementInv (W : World) (st : State) : Prop :=
  settledOnce st /\ supplyFresh W st.

(** The loop invariant of the backfill: the set holds exactly the ids that
    have a row (the empty id apart), and every id in it has one. *)
Definition backfillInv (W : World) (st : State) (settled : list string)
    : Prop :=
  settlementInv W st
  /\ (forall id, In id settled -> (1 <= settlementsFor id st)%nat)
  /\ (forall id, id <> "" -> (1 <= settlementsFor id st)%nat -> In id settled).



(** The ledger tables are the same in both states. *)
Definition sameLedger (st st' : State) : Prop :=
  gas_fee_balances st' = gas_fee_balances st
  /\ gas_fee_transactions st' = gas_fee_transactions st
  /\ referral_commissions st' = referral_commissions st
  /\ admin_earnings st' = admin_earnings st
  /\ profit_settlements st' = profit_settlements st.


(** [s.includes(c)] for a character. *)
Fixpoint hasChar (c : ascii) (s : string) : bool :=
match s with
| EmptyString => false
| String a r => Ascii.eqb a c || hasChar c r
end.

(** ** Concrete worlds and states used by the examples *)

(** A UUID supply without repetition: ["u"], ["uu"], ["uuu"], ... *)
Fixpoint unaryUUID (n : nat) : string :=
match n with
| O => "u"
| S n' => String "u" (unaryUUID n')
end.

Definition failedCall : ApiResult := mkApiResult false NoData (Some "Network error").

(** A world whose venue answers every request with a failure. *)
Definition quietWorld : World :=
  mkWorld unaryUUID (fun s => s) (fun _ => "") (fun _ _ => failedCall) (fun _ _ => [])
    (fun _ _ => None) (fun _ _ => mkGeminiDecision false false 0 None).

(** A world whose venue reports the BTCUSDT position flat, with a last
    unrealized PnL of 12 at a mark price of 50000. *)
Definition flatWorld : World :=
  mkWorld unaryUUID (fun s => s) (fun _ => "")
    (fun _ _ =>
       mkApiResult true
         (PositionList [mkVenuePosition "BTCUSDT" (Some 0) (Some 12) (Some 50000)])
         None)
    (fun _ _ => []) (fun _ _ => None)
    (fun _ _ => mkGeminiDecision false false 0 None).

Definition emptyState : State :=
  mkState [] [] [] [] [] [] [] [] [] [] [] [] 0 [] [].

(** alice was referred by bob, bob by carol; alice holds 500 of gas. *)
Definition referralState : State :=
  mkState [] [] [] [] []
    [Profile.mk "pA" "alice" (Some "pB"); Profile.mk "pB" "bob" (Some "pC");
     Profile.mk "pC" "carol" None]
    [] [GasFeeBalance.mk "g1" "alice" "testnet" 500 500 0 0 0] [] [] [] []
    0 [] [].

(** One filled trade with a realized PnL of 10 whose id is the empty string,
    and nothing else. *)
Definition emptyIdState : State :=
  mkState [] [] []
    [Trade.mk "" "alice" "binance" "testnet" "BTCUSDT" "sell" "market" 50000 1
       (Some 10) "filled" None (Some "position_monitor") 0]
    [] [] [] [] [] [] [] [] 0 [] [].

Definition longBTC (id userId : string) : Position.t :=
  Position.mk id userId "BTCUSDT" "long" 1 40000 None None 1 None None true
    "binance" "testnet" 0 0.

(** The trade of [emptyIdState] and an open position of bob, who has no
    credential: the monitor skips the position and reaches [safeWrite()]. *)
Definition emptyIdHeldState : State :=
  mkState [] [] [] (trades emptyIdState) [] [] [longBTC "p1" "bob"]
    [] [] [] [] [] 0 [] [].

Definition futuresKey (userId : string) : ApiKey.t :=
  ApiKey.mk userId "binance" "futures" "testnet" "k" "s" true.

(** One open position of [userId] on Binance testnet, and that user's active
    futures credential for Binance testnet. *)
Definition onePositionState (userId : string) : State :=
  mkState [futuresKey userId] [] [] [] [] [] [longBTC "p1" userId]
    [] [] [] [] [] 0 [] [].

(** The smoothed averages behind the outputs of [calculateRSI]: the pair
    ([avgGain], [avgLoss]) from which each value is computed. *)
Fixpoint wilderLoop {num : Type} (A : Arith num) (period : nat)
    (gains losses : list num) (avgGain avgLoss : num) : list (num * num) :=
match gains, losses with
| gain :: gains', loss :: losses' =>
    let avgGain' := smooth A period avgGain gain in
    let avgLoss' := smooth A period avgLoss loss in
    (avgGain', avgLoss') :: wilderLoop A period gains' losses' avgGain' avgLoss'
| _, _ => []
end.

Definition wilderAverages {num : Type} (A : Arith num) (prices : list num)
    (period : nat) : list (num * num) :=
  if (List.length prices <? period + 1)%nat then []
  else
    let gains := map (gainOf A) (changes A prices) in
    let losses := map (lossOf A) (changes A prices) in
    wilderLoop A period (skipn period gains) (skipn period losses)
      (div A (total A (firstn period gains)) (ofNat A period))
      (div A (total A (firstn period losses)) (ofNat A period)).

Fixpoint strictlyIncreasing (prices : list Q) : Prop :=
match prices with
| [] => True
| previous :: rest =>
    match rest with
    | [] => True
    | price :: _ => previous < price /\ strictlyIncreasing rest
    end
end.

(** The prices 1, 2, ..., 16. *)
Definition risingPrices {num : Type} (A : Arith num) : list num :=
  map (ofNat A) (seq 1 16).

Definition looseBands : StrategyIndicators.t :=
  StrategyIndicators.mk 12 26 14 60 40 12 26 9 (3 # 2).

(** *** The precision-retry policy, in the specification's words *)

(** The quantity strings of the given precisions, in their order; a
    precision at which the quantity formats to nothing gives none. *)
Definition stringsAt (quantity : Q) (precisions : list nat) : list string :=
  flat_map
    (fun decimals =>
       match formatQty quantity decimals with
       | Some s => if String.eqb s "" then [] else [s]
       | None => []
       end)
    precisions.

(** "Attempt quantity formatting at 3, then 2, then 1, then 0 decimal
    places". *)
Definition quantityStrings (quantity : Q) : list string :=
  stringsAt quantity [3; 2; 1; 0]%nat.



(** The value a request sends under the name [key]. *)
Definition paramOf (key : string) (r : Request) : option ParamValue :=
  let pick (params : list (string * ParamValue)) :=
    match find (fun p => String.eqb (fst p) key) params with
    | Some (_, v) => Some v
    | None => None
    end in
  match r with
  | BinanceApi _ _ _ _ _ _ params => pick params
  | BybitApi _ _ _ _ _ params => pick params
  | _ => None
  end.

(** *** Example strategies, alerts and venues *)

(** A Binance futures strategy of alice on testnet: fixed size, leverage 5,
    stop-loss 2%, first take-profit 3% closing half. *)
Definition demoStrategy (config : option Tuning.t) : TradingStrategy.t :=
  TradingStrategy.mk "s1" "alice" "demo" (Some "secret") true None None
    "binance" "futures" "testnet" ["BTCUSDT"] None None None "fixed" 100
    (Some 5) (Some 3) 5 8 (Some 2) (Some true) false false (Some 5) (Some 50)
    30 20 None None None false None None config.


Definition ok (d : ApiData) : ApiResult := mkApiResult true d None.

Definition refused (message : string) : ApiResult :=
  mkApiResult false NoData (Some message).

(** A venue that sets the leverage, fills the entry order as order 42 and
    refuses every order after it. *)
Definition legFailWorld : World :=
  mkWorld unaryUUID (fun s => s) (fun _ => "")
    (fun n _ =>
       match n with
       | O => ok NoData
       | S O => ok (OrderAck (Some "42"))
       | _ => refused "Order would immediately trigger"
       end)
    (fun _ _ => []) (fun _ _ => None)
    (fun _ _ => mkGeminiDecision false false 0 None).



(** A buy alert for 0.01 BTCUSDT at 50000, addressed to strategy s1. *)
Definition buyAlert : Alert.t :=
  Alert.mk "buy" "BTCUSDT" (Some 50000) (Some "s1") None None (Some (1 # 100)).

(** alice's credential and her strategy, nothing else. *)
Definition webhookState : State :=
  mkState [futuresKey "alice"] [demoStrategy None] [] [] [] [] [] [] [] [] []
    [] 0 [] [].

(** An instant of 14 November 2023, in milliseconds. *)
Definition someday : Z := 1700000000000.


(** The same account before the losing trade: every check of the tick
    passes. *)
Definition fundedState : State :=
  mkState [futuresKey "alice"] [demoStrategy None] [] []
    [BotStatus.mk "alice" true "testnet" (Some "binance")] [] []
    [GasFeeBalance.mk "g1" "alice" "testnet" 10 10 0 0 0] [] [] [] [] 0 [] [].

(** What a log row says, its [id], payload and date apart. *)
Definition logView (l : WebhookLog.t) : string * string * option string :=
  (WebhookLog.strategy_id l, WebhookLog.status l, WebhookLog.error_message l).

(** A buy signal for BTCUSDT at 50000 with confidence 0.9. *)
Definition buySignal : Signal :=
  mkSignal Buy "BTCUSDT" 50000 (9 # 10)
    (mkSignalIndicators Bullish Oversold Bullish true) 25 10 5.

(** ** Vocabulary of the further properties *)

(** Every element lies between [lo] and [hi]. *)
Definition allWithin (lo hi : Q) (l : list Q) : Prop :=
  Forall (fun x => lo <= x <= hi) l.

Fixpoint strictlyDecreasing (prices : list Q) : Prop :=
match prices with
| [] => True
| previous :: rest =>
    match rest with
    | [] => True
    | price :: _ => price < previous /\ strictlyDecreasing rest
    end
end.

(** The prices 16, 15, ..., 1. *)
Definition fallingPrices : list Q :=
  map (fun n => inject_Z (Z.of_nat (17 - n))) (seq 1 16).

(** The confirmations a signal's indicators give to a buy and to a sell, as
    [analyzeSignal] counts them. *)
Definition bullishVotes (i : SignalIndicators) : nat :=
  countTrue
    [Trend_eqb (ema_trend i) Bullish;
     RsiSignal_eqb (rsi_signal i) Oversold
     || (RsiSignal_eqb (rsi_signal i) RsiNeutral
         && Trend_eqb (ema_trend i) Bullish);
     Trend_eqb (macd_signal i) Bullish;
     volume_confirmed i].

Definition bearishVotes (i : SignalIndicators) : nat :=
  countTrue
    [Trend_eqb (ema_trend i) Bearish;
     RsiSignal_eqb (rsi_signal i) Overbought
     || (RsiSignal_eqb (rsi_signal i) RsiNeutral
         && Trend_eqb (ema_trend i) Bearish);
     Trend_eqb (macd_signal i) Bearish;
     volume_confirmed i].

(** A candle that closed at [close] with volume [volume]. *)
Definition candleAt (close volume : Q) : Candle.t :=
  Candle.mk close close close close volume 0.

(** A request that reads the positions of an account: the only kind the
    position monitor sends. *)
Definition isPositionQuery (r : Request) : bool :=
  match r with
  | BinanceApi endpoint _ _ _ _ method _ =>
      String.eqb endpoint "/fapi/v2/positionRisk" && String.eqb method "GET"
  | BybitApi endpoint _ _ _ method _ =>
      String.eqb endpoint "/v5/position/list" && String.eqb method "GET"
  | _ => false
  end.

(** The trace grows by requests that read positions, and by nothing else. *)
Definition onlyQueries (st st' : State) : Prop :=
  exists qs,
    trace st' = trace st ++ qs /\ forallb isPositionQuery qs = true.

(** Credentials, strategies, webhook logs, bot status and profiles are the
    same, and the trades are the former ones followed by closing trades of
    the monitor. *)
Definition monitorFrame (st st' : State) : Prop :=
  api_keys st' = api_keys st
  /\ trading_strategies st' = trading_strategies st
  /\ webhook_logs st' = webhook_logs st
  /\ bot_status st' = bot_status st
  /\ profiles st' = profiles st
  /\ exists closing,
       trades st' = trades st ++ closing
       /\ Forall (fun t => Trade.status t = "filled"
                           /\ Trade.triggered_by t = Some "position_monitor")
            closing.

(** A position row after the monitor has seen it: what identifies the
    position and what was traded is the same, and the row is open only if
    it was. *)
Definition sameHolding (p p' : Position.t) : Prop :=
  Position.id p' = Position.id p
  /\ Position.user_id p' = Position.user_id p
  /\ Position.symbol p' = Position.symbol p
  /\ Position.side p' = Position.side p
  /\ Position.size p' = Position.size p
  /\ Position.entry_price p' = Position.entry_price p
  /\ Position.leverage p' = Position.leverage p
  /\ Position.stop_loss p' = Position.stop_loss p
  /\ Position.take_profit p' = Position.take_profit p
  /\ Position.exchange p' = Position.exchange p
  /\ Position.environment p' = Position.environment p
  /\ Position.created_at p' = Position.created_at p
  /\ (Position.is_open p' = true -> Position.is_open p = true).

Definition holdingsKept (st st' : State) : Prop :=
  Forall2 sameHolding (positions st) (positions st').

(** Every gas-fee account's balance is what was deposited minus what was
    deducted. *)
Definition accountsBalanced (st : State) : Prop :=
  Forall (fun b => GasFeeBalance.balance b
                   == GasFeeBalance.total_deposited b
                      - GasFeeBalance.total_deducted b)
    (gas_fee_balances st).

(** A settlement row written for the trade [t]: its user, its id and its
    realized PnL as gross profit. *)
Definition settlementOf (t : Trade.t) (s : ProfitSettlement.t) : Prop :=
  ProfitSettlement.user_id s = Trade.user_id t
  /\ ProfitSettlement.trade_id s = Some (Trade.id t)
  /\ ProfitSettlement.gross_profit s = JS.orZero (Trade.realized_pnl t).

(** An active strategy whose signal mode is "auto" or unset. *)
Definition activeAutoMode (s : TradingStrategy.t) : bool :=
  TradingStrategy.is_active s
  && match TradingStrategy.signal_mode s with
     | Some m => String.eqb m "auto" || String.eqb m ""
     | None => true
     end.

(** The open positions of a user. *)
Definition openPositionsOf (userId : string) (st : State) : nat :=
  List.length
    (filter (fun p => String.eqb (Position.user_id p) userId
                      && Position.is_open p) (positions st)).

(** A request that sets the leverage of a symbol. *)
Definition isLeverageRequest (r : Request) : bool :=
  match r with
  | BinanceApi endpoint _ _ _ _ _ _ => String.eqb endpoint "/fapi/v1/leverage"
  | BybitApi endpoint _ _ _ _ _ =>
      String.eqb endpoint "/v5/position/set-leverage"
  | _ => false
  end.

(** alice's strategy with signal generation switched off by its flag. *)
Definition switchedOff : TradingStrategy.t :=
  TradingStrategy.mk "s1" "alice" "demo" (Some "secret") true (Some "auto")
    (Some false) "binance" "futures" "testnet" ["BTCUSDT"] None None None
    "fixed" 100 (Some 5) (Some 3) 5 8 (Some 2) (Some true) false false
    (Some 5) (Some 50) 30 20 None None None false None None None.

(** alice's credential, running bot and gas, with the switched-off
    strategy. *)
Definition switchedOffState : State :=
  mkState [futuresKey "alice"] [switchedOff] [] []
    [BotStatus.mk "alice" true "testnet" (Some "binance")] [] []
    [GasFeeBalance.mk "g1" "alice" "testnet" 10 10 0 0 0] [] [] [] [] 0 [] [].

(** Everything but the positions is the same in both states. *)
Definition samePositionsApart (st st' : State) : Prop :=
  api_keys st' = api_keys st
  /\ trading_strategies st' = trading_strategies st
  /\ webhook_logs st' = webhook_logs st
  /\ trades st' = trades st
  /\ bot_status st' = bot_status st
  /\ profiles st' = profiles st
  /\ sameLedger st st'
  /\ next_uuid st' = next_uuid st
  /\ console st' = console st
  /\ trace st' = trace st.

(** A close alert for BTCUSDT that names strategy s1 and carries no
    secret. *)
Definition unsignedClose : Alert.t :=
  Alert.mk "close" "BTCUSDT" None (Some "s1") None None None.

(** alice's credential, her strategy (whose secret is "secret") and her open
    BTCUSDT position. *)
Definition holdingState : State :=
  mkState [futuresKey "alice"] [demoStrategy None] [] [] [] []
    [longBTC "p1" "alice"] [] [] [] [] [] 0 [] [].

(** A buy alert for strategy s1 with a wrong secret. *)
Definition forgedAlert : Alert.t :=
  Alert.mk "buy" "BTCUSDT" (Some 50000) (Some "s1") (Some "guess") None None.

(** A buy alert for BTCUSDT at 50000 that leaves the size to the strategy. *)
Definition unsizedAlert : Alert.t :=
  Alert.mk "buy" "BTCUSDT" (Some 50000) (Some "s1") None None None.

(** A venue that accepts every request and acknowledges it as order 42. *)
Definition fillingWorld : World :=
  mkWorld unaryUUID (fun s => s) (fun _ => "")
    (fun _ _ => ok (OrderAck (Some "42")))
    (fun _ _ => []) (fun _ _ => None)
    (fun _ _ => mkGeminiDecision false false 0 None).

(** The trace grows from [st] to [st'] by requests that all pass [P], and
    nothing else differs. *)
Definition sends (P : Request -> bool) (st st' : State) : Prop :=
  exists rs, st' = set_trace (trace st ++ rs) st /\ forallb P rs = true.

(** A size as a request may carry it: a number greater than 0 or, unless
    [strict], the text of an infinite or undefined one. *)
Definition sizeOk (strict : bool) (v : option ParamValue) : bool :=
  match v with
  | None => true
  | Some (PNum q) => JS.Qgtb q 0
  | Some (PStr s) =>
      negb strict && (String.eqb s "Infinity" || String.eqb s "NaN")
  | Some _ => false
  end.

(** What an order may carry: a size, under either venue's name for it, that
    passes [sizeOk], and a callback rate that is a number between 0.1 and
    5. *)
Definition soundOrder (strict : bool) (r : Request) : bool :=
  sizeOk strict (paramOf "quantity" r)
  && sizeOk strict (paramOf "qty" r)
  && match paramOf "callbackRate" r with
     | Some (PNum q) => JS.Qleb (1 # 10) q && JS.Qleb q 5
     | Some _ => false
     | None => true
     end.

(** An alert carries what fixes the size of its order: a quantity, or a
    price to divide by. *)
Definition sized (alert : Alert.t) : bool :=
  truthyNum (Alert.quantity alert) || truthyNum (Alert.price alert).


(** alice's strategy with a trailing stop whose callback rate is 9. *)
Definition trailingStrategy : TradingStrategy.t :=
  TradingStrategy.mk "s1" "alice" "demo" (Some "secret") true None None
    "binance" "futures" "testnet" ["BTCUSDT"] None None None "fixed" 100
    (Some 5) (Some 3) 5 8 (Some 2) (Some true) false false (Some 5) (Some 50)
    30 20 None None None true None (Some 9) None.

(** What the alert webhook leaves alone: credentials, strategies, bot
    status, profiles and the ledger are the same; at most one webhook log
    and at most one trade, a filled one of the webhook, have been added. *)
Definition webhookFrame (st st' : State) : Prop :=
  api_keys st' = api_keys st
  /\ trading_strategies st' = trading_strategies st
  /\ bot_status st' = bot_status st
  /\ profiles st' = profiles st
  /\ sameLedger st st'
  /\ (exists logs,
        webhook_logs st' = webhook_logs st ++ logs
        /\ (List.length logs <= 1)%nat)
  /\ (exists added,
        trades st' = trades st ++ added
        /\ (List.length added <= 1)%nat
        /\ Forall (fun t => Trade.status t = "filled"
                            /\ Trade.triggered_by t
                               = Some "tradingview_webhook") added)
  /\ (List.length (positions st) <= List.length (positions st')
      <= S (List.length (positions st)))%nat.

(** The log row the handler's reply goes with: none, or one row with the
    given status and error message. *)
Definition loggedAs (st st' : State) (entry : option (string * option string))
    : Prop :=
  match entry with
  | None => webhook_logs st' = webhook_logs st
  | Some (status, message) =>
      exists l,
        webhook_logs st' = webhook_logs st ++ [l]
        /\ WebhookLog.status l = status
        /\ WebhookLog.error_message l = message
  end.

(** The log goes with the reply: a refusal (status 200 with "success:
    false") with one row of status "rejected" carrying the refusal's
    message, an execution (a reply with an order id) with one row of status
    "executed", a failed execution (status 500 with "success: false") with
    one row of status "failed", and any other reply with no new row. *)
Definition logFollowsReply (st : State) (out : State * WebhookResponse)
    : Prop :=
  match snd out with
  | Json 200 (mkBody (Some false) message _ _ _) =>
      loggedAs st (fst out) (Some ("rejected", message))
  | Json 200 (mkBody (Some true) _ (Some _) _ _) =>
      loggedAs st (fst out) (Some ("executed", None))
  | Json 500 (mkBody (Some false) _ _ _ _) =>
      exists message, loggedAs st (fst out) (Some ("failed", Some message))
  | _ => loggedAs st (fst out) None
  end.

(** Each profile of the list is the referrer of the one before it, the
    first one the referrer of [start]. *)
Fixpoint linkedFrom (start : Profile.t) (referrers : list Profile.t) : Prop :=
match referrers with
| [] => True
| p :: rest =>
    Profile.referrer_id start = Some (Profile.id p) /\ linkedFrom p rest
end.

(** dave, whose profile names itself as its referrer. *)
Definition selfReferralState : State :=
  mkState [] [] [] [] [] [Profile.mk "pD" "dave" (Some "pD")] [] [] [] [] []
    [] 0 [] [].

(** The double nearest to [n / d]: what the decimal literal reads as. *)
Definition double (n d : nat) : float :=
  div binary64 (ofNat binary64 n) (ofNat binary64 d).

(** [totalReferralPaid] of [processProfitSharing] in binary64 for a gross
    profit [g] and a chain of three referrers: [0 + g * 0.005 + g * 0.003 +
    g * 0.002], summed in the loop's order. *)
Definition paidInDoubles (g : float) : float :=
  fold_left (fun paid rate => add binary64 paid (mul binary64 g rate))
    [double 5 1000; double 3 1000; double 2 1000] (ofNat binary64 0).

(** * Properties *)

(** ** Lists and references *)

Section ListFacts.

Context {A : Type}.
Implicit Types (p q : A -> bool) (f : A -> A) (l : list A).

Lemma findIndex_Some p l i :
  JS.findIndex p l = Some i ->
  exists x, nth_error l i = Some x /\ p x = true /\ find p l = Some x.
Proof.
  revert i. induction l as [|a r IH]; simpl; intros i H; [discriminate|].
  destruct (p a) eqn:Ha.
  - inversion H; subst. exists a. auto.
  - destruct (JS.findIndex p r) as [k|] eqn:Hk; simpl in H; [|discriminate].
    inversion H; subst. destruct (IH k eq_refl) as (x & ? & ? & ?).
    exists x. auto.
Qed.

Lemma findIndex_None p l :
  JS.findIndex p l = None -> find p l = None.
Proof.
  induction l as [|a r IH]; simpl; intros H; [reflexivity|].
  destruct (p a); [discriminate|].
  destruct (JS.findIndex p r); [discriminate|auto].
Qed.

Lemma findIndex_first p l i :
  JS.findIndex p l = Some i ->
  forall k y, (k < i)%nat -> nth_error l k = Some y -> p y = false.
Proof.
  revert i. induction l as [|a r IH]; simpl; intros i H k y Hk Hy; [discriminate|].
  destruct (p a) eqn:Ha.
  - inversion H; subst. lia.
  - destruct (JS.findIndex p r) as [i'|] eqn:Hi; simpl in H; [|discriminate].
    inversion H; subst. destruct k as [|k]; simpl in Hy.
    + inversion Hy; subst; assumption.
    + eapply (IH i' eq_refl k); [lia|eassumption].
Qed.

Lemma findIndex_lt p l i :
  JS.findIndex p l = Some i -> (i < List.length l)%nat.
Proof.
  intros H. destruct (findIndex_Some _ _ _ H) as (x & Hx & _).
  apply nth_error_Some. congruence.
Qed.

Lemma update_length i f l : List.length (JS.update i f l) = List.length l.
Proof.
  revert i. induction l as [|a r IH]; intros [|i]; simpl; auto.
Qed.

Lemma nth_error_update_eq i f l x :
  nth_error l i = Some x -> nth_error (JS.update i f l) i = Some (f x).
Proof.
  revert i. induction l as [|a r IH]; intros [|i]; simpl; intros H;
    try discriminate.
  - inversion H; reflexivity.
  - auto.
Qed.

Lemma nth_error_update_neq i j f l :
  i <> j -> nth_error (JS.update i f l) j = nth_error l j.
Proof.
  revert i j. induction l as [|a r IH]; intros [|i] [|j] H; simpl; auto.
  - congruence.
Qed.

Lemma nth_error_update i j f l :
  nth_error (JS.update i f l) j =
  if Nat.eqb i j then option_map f (nth_error l j) else nth_error l j.
Proof.
  destruct (Nat.eqb_spec i j) as [->|Hn].
  - destruct (nth_error l j) as [x|] eqn:Hx.
    + simpl. apply nth_error_update_eq; assumption.
    + simpl. apply nth_error_None. rewrite update_length.
      apply nth_error_None; assumption.
  - apply nth_error_update_neq; assumption.
Qed.

Lemma update_map_inv {B : Type} (g : A -> B) i f l :
  (forall x, g (f x) = g x) -> map g (JS.update i f l) = map g l.
Proof.
  intros Hg. revert i. induction l as [|a r IH]; intros [|i]; simpl;
    rewrite ?Hg, ?IH; reflexivity.
Qed.

Lemma find_update_same q f l i :
  (forall x, q (f x) = q x) ->
  JS.findIndex q l = Some i ->
  find q (JS.update i f l) = option_map f (find q l).
Proof.
  intros Hq. revert i. induction l as [|a r IH]; simpl; intros i H; [discriminate|].
  destruct (q a) eqn:Ha.
  - inversion H; subst. simpl. rewrite Hq, Ha. reflexivity.
  - destruct (JS.findIndex q r) as [k|] eqn:Hk; simpl in H; [|discriminate].
    inversion H; subst. simpl. rewrite Ha. auto.
Qed.

Lemma find_update_other q f l i x :
  (forall y, q (f y) = q y) ->
  nth_error l i = Some x -> q x = false ->
  find q (JS.update i f l) = find q l.
Proof.
  intros Hq. revert i. induction l as [|a r IH]; intros [|i]; simpl; intros H Hx;
    try discriminate.
  - inversion H; subst. rewrite Hq, Hx. reflexivity.
  - destruct (q a); [reflexivity|]. eauto.
Qed.

Lemma find_app_last q l y :
  find q (l ++ [y]) =
  match find q l with
  | Some x => Some x
  | None => if q y then Some y else None
  end.
Proof.
  induction l as [|a r IH]; simpl; [reflexivity|].
  destruct (q a); auto.
Qed.

Lemma update_app_last f l y :
  JS.update (List.length l) f (l ++ [y]) = l ++ [f y].
Proof.
  induction l as [|a r IH]; simpl; [reflexivity|]. rewrite IH. reflexivity.
Qed.

Lemma nth_error_app_last l y :
  nth_error (l ++ [y]) (List.length l) = Some y.
Proof.
  induction l as [|a r IH]; simpl; auto.
Qed.

End ListFacts.

(** ** Gas-fee accounts *)

Section Accounts.

Variable W : World.

Lemma sameAccount_eq u e b :
  sameAccount u e b = true ->
  GasFeeBalance.user_id b = u /\ GasFeeBalance.environment b = e.
Proof.
  unfold sameAccount. intros H. apply andb_true_iff in H as [H1 H2].
  apply String.eqb_eq in H1, H2. auto.
Qed.

Lemma sameAccount_other u e u' e' b :
  sameAccount u e b = true ->
  sameAccount u' e' b = String.eqb u u' && String.eqb e e'.
Proof.
  intros H. apply sameAccount_eq in H as [<- <-]. reflexivity.
Qed.

Lemma deduct_adjusts fee now : adjusts (GasFeeBalance.deduct fee now) (- fee).
Proof. intros b. simpl. auto. Qed.

Lemma deposit_adjusts c now : adjusts (GasFeeBalance.deposit c now) c.
Proof. intros b. simpl. auto. Qed.

Lemma adjusts_sameAccount f d u e b :
  adjusts f d -> sameAccount u e (f b) = sameAccount u e b.
Proof.
  intros H. destruct (H b) as (H1 & H2 & _). unfold sameAccount.
  rewrite H1, H2. reflexivity.
Qed.

(** [getOrCreateGasBalance] followed by an assignment to the row returned. *)
Lemma getOrCreate_adjust now u e st i st1 f d :
  adjusts f d ->
  getOrCreateGasBalance W now u e st = (i, st1) ->
  let st2 := set_gas_fee_balances (JS.update i f (gas_fee_balances st1)) st1 in
  balanceAt i st1 = balanceOf st u e
  /\ balanceAt i st2 = balanceOf st u e + d
  /\ (forall u' e',
        balanceOf st2 u' e' =
        if String.eqb u u' && String.eqb e e'
        then balanceOf st u' e' + d else balanceOf st u' e').
Proof.
  intros Hf. unfold getOrCreateGasBalance.
  destruct (JS.findIndex (sameAccount u e) (gas_fee_balances st)) as [k|] eqn:Hk.
  - intros H; inversion H; subst; clear H. simpl.
    destruct (findIndex_Some _ _ _ Hk) as (x & Hx & Hpx & Hfx).
    unfold balanceAt, balanceOf. simpl.
    rewrite (nth_error_update_eq _ _ _ _ Hx), Hx, Hfx.
    split; [reflexivity|]. split; [apply Hf|].
    intros u' e'.
    destruct (String.eqb u u' && String.eqb e e') eqn:Hsame.
    + apply andb_true_iff in Hsame as [H1 H2].
      apply String.eqb_eq in H1, H2. subst u' e'.
      rewrite (find_update_same _ _ _ _ (fun b => adjusts_sameAccount f d u e b Hf) Hk).
      rewrite Hfx. simpl. apply Hf.
    + rewrite (find_update_other (sameAccount u' e') f _ _ _
                 (fun b => adjusts_sameAccount f d u' e' b Hf) Hx); [reflexivity|].
      rewrite (sameAccount_other u e u' e' x Hpx). assumption.
  - intros H; inversion H; subst; clear H. simpl.
    pose proof (findIndex_None _ _ Hk) as Hnone.
    unfold balanceAt, balanceOf. simpl.
    rewrite update_app_last, !nth_error_app_last, Hnone.
    split; [reflexivity|]. split; [apply Hf|].
    intros u' e'. rewrite find_app_last.
    destruct (find (sameAccount u' e') (gas_fee_balances st)) as [y|] eqn:Hy.
    + destruct (String.eqb u u' && String.eqb e e') eqn:Hsame; [|reflexivity].
      apply andb_true_iff in Hsame as [H1 H2].
      apply String.eqb_eq in H1, H2. subst u' e'. congruence.
    + rewrite (adjusts_sameAccount f d u' e' _ Hf). unfold sameAccount at 1. simpl.
      destruct (String.eqb u u' && String.eqb e e'); [apply Hf|reflexivity].
Qed.

End Accounts.

(** ** The referral cascade *)

Section Cascade.

Variable W : World.
Variables (now : Z) (userId tradeId : string) (g : Q) (env : string).

Lemma ledgerStep_refl st : ledgerStep st st.
Proof. unfold ledgerStep, sameOutsideLedger. intuition. Qed.

Lemma ledgerStep_trans st1 st2 st3 :
  ledgerStep st1 st2 -> ledgerStep st2 st3 -> ledgerStep st1 st3.
Proof.
  unfold ledgerStep, sameOutsideLedger. intros H1 H2.
  decompose [and] H1. decompose [and] H2.
  repeat split; try congruence; lia.
Qed.

Lemma getOrCreate_ledgerStep u e st i st1 :
  getOrCreateGasBalance W now u e st = (i, st1) ->
  ledgerStep st st1
  /\ gas_fee_transactions st1 = gas_fee_transactions st
  /\ referral_commissions st1 = referral_commissions st
  /\ admin_earnings st1 = admin_earnings st
  /\ profit_settlements st1 = profit_settlements st.
Proof.
  unfold getOrCreateGasBalance, ledgerStep, sameOutsideLedger.
  destruct (JS.findIndex _ _); intros H; inversion H; subst; simpl;
    repeat split; auto.
Qed.

Lemma payReferral_step st tot entry :
  0 < g * rateOf (fst entry) ->
  let r := payReferral W now userId tradeId g env (st, tot) entry in
  snd r = tot + g * rateOf (fst entry)
  /\ (forall u' e',
        balanceOf (fst r) u' e' =
        if String.eqb (Profile.user_id (snd entry)) u' && String.eqb env e'
        then balanceOf st u' e' + g * rateOf (fst entry)
        else balanceOf st u' e')
  /\ (exists c,
        referral_commissions (fst r) = referral_commissions st ++ [c]
        /\ commissionView c = expectedCommission userId tradeId g entry)
  /\ (exists t,
        gas_fee_transactions (fst r) = gas_fee_transactions st ++ [t]
        /\ txView t = expectedCommissionTx tradeId g env entry
        /\ GasFeeTransaction.balance_before t
           = balanceOf st (Profile.user_id (snd entry)) env
        /\ GasFeeTransaction.balance_after t
           = GasFeeTransaction.balance_before t + GasFeeTransaction.amount t)
  /\ profit_settlements (fst r) = profit_settlements st
  /\ admin_earnings (fst r) = admin_earnings st
  /\ ledgerStep st (fst r).
Proof.
  intros Hpos. destruct entry as [level rp]. simpl in Hpos.
  unfold payReferral. fold (rateOf level).
  assert (Hle : JS.Qleb (g * rateOf level) 0 = false).
  { unfold JS.Qleb. destruct (Qle_bool (g * rateOf level) 0) eqn:E; [|reflexivity].
    apply Qle_bool_iff in E. lra. }
  rewrite Hle. unfold freshUUID. simpl.
  match goal with
  | |- context [getOrCreateGasBalance W now ?u ?e ?s] =>
      destruct (getOrCreateGasBalance W now u e s) as [i st1] eqn:E;
      pose proof (getOrCreate_adjust W now u e s i st1 _ _
                    (deposit_adjusts (g * rateOf level) now) E) as (Hb1 & Hb2 & Hb3);
      pose proof (getOrCreate_ledgerStep u e s i st1 E) as (Hl & Ht & Hc & Ha & Hs)
  end.
  simpl in *.
  split; [reflexivity|].
  split.
  { intros u' e'. unfold balanceOf in *. simpl in *. apply Hb3. }
  split.
  { eexists. split; [rewrite Hc; reflexivity|reflexivity]. }
  split.
  { eexists. split; [rewrite Ht; reflexivity|]. simpl.
    unfold balanceAt in *. simpl in *. rewrite Hb2, Hb1.
    repeat split; reflexivity. }
  split; [assumption|]. split; [assumption|].
  destruct Hl as (Hl1 & Hl2). unfold ledgerStep, sameOutsideLedger in *.
  simpl in *. decompose [and] Hl1. repeat split; auto; lia.
Qed.

Lemma payReferral_fold chain :
  Forall (fun e => 0 < g * rateOf (fst e)) chain ->
  forall st tot,
  let r := fold_left (payReferral W now userId tradeId g env) chain (st, tot) in
  snd r == tot + Qsum (commissionsOf g chain)
  /\ (forall u' e',
        balanceOf (fst r) u' e'
        == balanceOf st u' e' + creditedTo env g chain u' e')
  /\ map commissionView (referral_commissions (fst r))
     = map commissionView (referral_commissions st)
         ++ map (expectedCommission userId tradeId g) chain
  /\ (exists txs,
        gas_fee_transactions (fst r) = gas_fee_transactions st ++ txs
        /\ map txView txs = map (expectedCommissionTx tradeId g env) chain
        /\ Forall ledgerConsistent txs)
  /\ profit_settlements (fst r) = profit_settlements st
  /\ admin_earnings (fst r) = admin_earnings st
  /\ ledgerStep st (fst r).
Proof.
  induction 1 as [|entry chain Hpos _ IH]; intros st tot; cbn [fold_left].
  - simpl. split; [ring|]. split; [intros; unfold creditedTo; simpl; ring|].
    split; [rewrite app_nil_r; reflexivity|].
    split; [exists []; rewrite app_nil_r; auto|].
    auto using ledgerStep_refl.
  - pose proof (payReferral_step st tot entry Hpos) as Hstep. cbv zeta in Hstep.
    destruct (payReferral W now userId tradeId g env (st, tot) entry)
      as [st1 tot1] eqn:E1. cbn [fst snd] in Hstep.
    destruct Hstep as (Htot & Hbal & (c & Hc & Hcv) & (t & Ht & Htv & Htb & Hta)
                       & Hps & Hae & Hls).
    specialize (IH st1 tot1). cbv zeta in IH.
    destruct IH as (IHtot & IHbal & IHc & (txs & IHt & IHtv & IHf)
                    & IHps & IHae & IHls).
    split; [rewrite IHtot, Htot; simpl; ring|].
    split.
    { intros u' e'. rewrite IHbal, Hbal. unfold creditedTo. simpl.
      destruct (String.eqb (Profile.user_id (snd entry)) u' && String.eqb env e');
        ring. }
    split.
    { rewrite IHc, Hc, map_app. simpl. rewrite Hcv, <- app_assoc. reflexivity. }
    split.
    { exists (t :: txs). rewrite IHt, Ht, <- app_assoc. simpl.
      split; [reflexivity|]. split; [rewrite Htv, IHtv; reflexivity|].
      constructor; [|assumption]. unfold ledgerConsistent. rewrite Hta.
      reflexivity. }
    split; [congruence|]. split; [congruence|].
    eapply ledgerStep_trans; eassumption.
Qed.

(** The chain has at most three levels, numbered from 1. *)
Lemma referralWalk_levels profiles n level cur :
  map fst (referralWalk profiles n level cur)
  = seq level (List.length (referralWalk profiles n level cur))
  /\ (List.length (referralWalk profiles n level cur) <= n)%nat.
Proof.
  revert level cur. induction n as [|n IH]; intros level cur; simpl.
  - auto.
  - destruct cur as [cp|]; simpl; [|auto with arith].
    destruct (JS.truthy (Profile.referrer_id cp)); simpl; [|auto with arith].
    destruct (find _ profiles) as [rp|]; simpl; [|auto with arith].
    destruct (IH (S level) (Some rp)) as [H1 H2].
    rewrite H1. split; [reflexivity|lia].
Qed.

Lemma getReferralChain_levels user st :
  map fst (getReferralChain user st)
  = seq 1 (List.length (getReferralChain user st))
  /\ (List.length (getReferralChain user st) <= 3)%nat.
Proof. apply referralWalk_levels. Qed.

Lemma rateOf_pos level : (1 <= level <= 3)%nat -> 0 < rateOf level.
Proof.
  intros H. destruct level as [|[|[|[|level]]]]; try lia; reflexivity.
Qed.

Lemma getReferralChain_pays user st :
  0 < g ->
  Forall (fun e => 0 < g * rateOf (fst e)) (getReferralChain user st).
Proof.
  intros Hg. destruct (getReferralChain_levels user st) as [Hl Hn].
  apply Forall_forall. intros e He.
  assert (Hin : In (fst e) (seq 1 (List.length (getReferralChain user st)))).
  { rewrite <- Hl. apply in_map. assumption. }
  apply in_seq in Hin.
  apply Qmult_lt_0_compat; [assumption|]. apply rateOf_pos. lia.
Qed.

End Cascade.

(** ** One settlement *)

Section Settlement.

Variable W : World.

Lemma getReferralChain_profiles user st st' :
  profiles st' = profiles st ->
  getReferralChain user st' = getReferralChain user st.
Proof. unfold getReferralChain. intros ->. reflexivity. Qed.

Lemma Qleb_pos_false g : 0 < g -> JS.Qleb g 0 = false.
Proof.
  intros H. unfold JS.Qleb. destruct (Qle_bool g 0) eqn:E; [|reflexivity].
  apply Qle_bool_iff in E. lra.
Qed.

Lemma Qleb_nonpos_true g : g <= 0 -> JS.Qleb g 0 = true.
Proof. intros H. unfold JS.Qleb. apply Qle_bool_iff. assumption. Qed.

(** Everything a settlement with a positive gross profit does. *)
Lemma processProfitSharing_spec now userId tradeId g env st :
  0 < g ->
  let st' := processProfitSharing W now userId tradeId g env st in
  let chain := getReferralChain userId st in
  let fee := g * SERVICE_FEE_RATE in
  (exists s,
     profit_settlements st' = profit_settlements st ++ [s]
     /\ ProfitSettlement.user_id s = userId
     /\ ProfitSettlement.trade_id s = Some tradeId
     /\ ProfitSettlement.gross_profit s = g
     /\ ProfitSettlement.service_fee_rate s = SERVICE_FEE_RATE
     /\ ProfitSettlement.service_fee_amount s = fee
     /\ ProfitSettlement.net_profit s = g - fee)
  /\ (exists t txs,
        gas_fee_transactions st' = gas_fee_transactions st ++ t :: txs
        /\ txView t = (userId, - fee, "service_fee", Some tradeId, env)
        /\ GasFeeTransaction.balance_before t = balanceOf st userId env
        /\ GasFeeTransaction.balance_after t = balanceOf st userId env - fee
        /\ map txView txs = map (expectedCommissionTx tradeId g env) chain
        /\ Forall ledgerConsistent (t :: txs))
  /\ map commissionView (referral_commissions st')
     = map commissionView (referral_commissions st)
         ++ map (expectedCommission userId tradeId g) chain
  /\ (exists a,
        admin_earnings st' = admin_earnings st ++ [a]
        /\ AdminEarning.source_user_id a = Some userId
        /\ AdminEarning.trade_id a = Some tradeId
        /\ AdminEarning.gross_profit a = g
        /\ AdminEarning.total_service_fee a = fee
        /\ AdminEarning.referral_commissions_paid a
           == Qsum (commissionsOf g chain)
        /\ AdminEarning.admin_share a == fee - Qsum (commissionsOf g chain))
  /\ (forall u' e',
        balanceOf st' u' e'
        == balanceOf st u' e' - debitedFrom userId env fee u' e'
           + creditedTo env g chain u' e')
  /\ ledgerStep st st'.
Proof.
  intros Hg st' chain fee. subst st'.
  unfold processProfitSharing. rewrite (Qleb_pos_false g Hg).
  unfold freshUUID. cbn [fst snd].
  fold fee.
  match goal with
  | |- context [getOrCreateGasBalance W now ?u ?e ?s] =>
      destruct (getOrCreateGasBalance W now u e s) as [i st1] eqn:E;
      pose proof (getOrCreate_adjust W now u e s i st1 _ _
                    (deposit_adjusts 0 now) E) as (Hb1 & _);
      pose proof (getOrCreate_adjust W now u e s i st1 _ _
                    (deduct_adjusts fee now) E) as (_ & Hb2 & Hb3);
      pose proof (getOrCreate_ledgerStep W now u e s i st1 E)
        as (Hl & Ht & Hc & Ha & Hs)
  end.
  cbv zeta in Hb2, Hb3.
  match goal with
  | |- context [fold_left ?f (getReferralChain userId ?s) (?s0, 0)] =>
      assert (Hchain : getReferralChain userId s = chain)
        by (apply getReferralChain_profiles; destruct Hl as [Hl _];
            unfold sameOutsideLedger in Hl; simpl in *; tauto);
      rewrite Hchain;
      pose proof (payReferral_fold W now userId tradeId g env chain
                    (getReferralChain_pays g userId st Hg) s0 0) as Hfold;
      cbv zeta in Hfold;
      destruct (fold_left f chain (s0, 0)) as [st2 tot] eqn:Efold
  end.
  cbn [fst snd] in Hfold.
  destruct Hfold as (Htot & Hbal & Hcom & (txs & Htx & Htxv & Htxf)
                     & Hps & Hae & Hls).
  simpl in Hcom, Htx, Hps, Hae.
  unfold balanceOf in Hbal, Hb1, Hb2, Hb3. simpl in Hbal, Hb1, Hb2, Hb3.
  unfold balanceAt in *. simpl in *.
  split.
  { eexists. rewrite Hps, Hs. split; [reflexivity|]. simpl. auto 10. }
  split.
  { eexists. exists txs. rewrite Htx, Ht, <- app_assoc. simpl.
    split; [reflexivity|]. split; [reflexivity|].
    split; [exact Hb1|]. split; [exact Hb2|].
    split; [assumption|]. constructor; [|assumption].
    unfold ledgerConsistent. simpl. rewrite Hb2, Hb1. reflexivity. }
  split.
  { rewrite Hcom, Hc. reflexivity. }
  split.
  { eexists. rewrite Hae, Ha. split; [reflexivity|]. simpl.
    repeat split; try reflexivity.
    - rewrite Htot. ring.
    - rewrite Htot. ring. }
  split.
  { intros u' e'. unfold balanceOf. rewrite Hbal, Hb3. unfold debitedFrom.
    destruct (String.eqb userId u' && String.eqb env e'); unfold balanceOf; ring. }
  destruct Hl as (Hl1 & Hl2), Hls as (Hls1 & Hls2).
  unfold ledgerStep, sameOutsideLedger in *. simpl in *.
  decompose [and] Hl1. decompose [and] Hls1.
  repeat split; try congruence; lia.
Qed.

(** A settlement with no positive gross profit is not performed. *)
Lemma processProfitSharing_nonpos now userId tradeId g env st :
  g <= 0 -> processProfitSharing W now userId tradeId g env st = st.
Proof.
  intros H. unfold processProfitSharing. rewrite (Qleb_nonpos_true g H).
  reflexivity.
Qed.

End Settlement.

(** ** At most one settlement per trade *)

Section Idempotence.

Variable W : World.
Hypothesis uuid_injective : supplyInjective W.

Lemma settlementsFor_app id st s st' :
  profit_settlements st' = profit_settlements st ++ [s] ->
  settlementsFor id st' =
  (settlementsFor id st + if settlesTrade id s then 1 else 0)%nat.
Proof.
  unfold settlementsFor. intros ->. rewrite filter_app, length_app. simpl.
  destruct (settlesTrade id s); reflexivity.
Qed.

Lemma settlementsFor_same id st st' :
  profit_settlements st' = profit_settlements st ->
  settlementsFor id st' = settlementsFor id st.
Proof. unfold settlementsFor. intros ->. reflexivity. Qed.

(** The rows a settlement call adds for each trade id. *)
Lemma processProfitSharing_count now userId tradeId g env st id :
  let st' := processProfitSharing W now userId tradeId g env st in
  settlementsFor id st' =
  (settlementsFor id st
   + if JS.Qgtb g 0 && String.eqb tradeId id then 1 else 0)%nat
  /\ ledgerStep st st'.
Proof.
  intros st'. subst st'. unfold JS.Qgtb.
  destruct (Qle_bool g 0) eqn:E.
  - apply Qle_bool_iff in E.
    rewrite (processProfitSharing_nonpos W now userId tradeId g env st E).
    simpl. split; [lia|apply ledgerStep_refl].
  - assert (Hg : 0 < g).
    { destruct (Qlt_le_dec 0 g) as [H|H]; [assumption|].
      apply Qle_bool_iff in H. congruence. }
    destruct (processProfitSharing_spec W now userId tradeId g env st Hg)
      as ((s & Hs & _ & Htid & _) & _ & _ & _ & _ & Hl).
    split; [|assumption].
    rewrite (settlementsFor_app id st s _ Hs). unfold settlesTrade.
    rewrite Htid. reflexivity.
Qed.

Lemma supplyFresh_mono st st' :
  supplyFresh W st ->
  (next_uuid st <= next_uuid st')%nat ->
  trades st' = trades st ->
  (forall n, (next_uuid st' <= n)%nat ->
     settlementsFor (randomUUID W n) st' = settlementsFor (randomUUID W n) st) ->
  supplyFresh W st'.
Proof.
  intros Hf Hle Ht Hs n Hn. destruct (Hf n ltac:(lia)) as [H1 H2].
  rewrite Hs, Ht; auto.
Qed.

(** A settlement for a trade id that has no row yet (or is empty), and that
    the supply will not produce later, keeps the invariant. *)
Lemma processProfitSharing_inv now userId tradeId g env st :
  settlementInv W st ->
  (tradeId = "" \/ settlementsFor tradeId st = 0%nat) ->
  (forall n, (next_uuid st <= n)%nat -> randomUUID W n <> tradeId) ->
  settlementInv W (processProfitSharing W now userId tradeId g env st).
Proof.
  intros [Huniq Hfresh] Hnew Hnot.
  pose proof (fun id => processProfitSharing_count now userId tradeId g env st id)
    as Hcount. cbv zeta in Hcount.
  destruct (Hcount "") as [_ [Hsame Hle]].
  split.
  - intros id Hid. destruct (Hcount id) as [-> _].
    destruct (JS.Qgtb g 0 && String.eqb tradeId id) eqn:E.
    + apply andb_true_iff in E as [_ E]. apply String.eqb_eq in E. subst id.
      destruct Hnew as [Hempty|Hzero]; [contradiction|]. rewrite Hzero. lia.
    + specialize (Huniq id Hid). lia.
  - apply (supplyFresh_mono st); auto.
    + unfold sameOutsideLedger in Hsame. tauto.
    + intros n Hn. destruct (Hcount (randomUUID W n)) as [-> _].
      destruct (String.eqb_spec tradeId (randomUUID W n)) as [Heq|Hne].
      * exfalso. apply (Hnot n); [lia|congruence].
      * rewrite andb_false_r. lia.
Qed.

(** *** The backfill pass *)

Lemma settledTradeIds_In id st :
  In id (settledTradeIds st) <-> id <> "" /\ (1 <= settlementsFor id st)%nat.
Proof.
  unfold settledTradeIds, settlementsFor.
  induction (profit_settlements st) as [|s l IH]; cbn [flat_map filter].
  - simpl. split; [tauto|]. intros [_ H]. lia.
  - rewrite in_app_iff, IH.
    change (settlesTrade id s)
      with (match ProfitSettlement.trade_id s with
            | Some i => String.eqb i id
            | None => false
            end).
    destruct (ProfitSettlement.trade_id s) as [i|]; [|simpl; tauto].
    destruct (String.eqb_spec i "") as [->|Hi].
    + destruct (String.eqb_spec "" id) as [<-|Hne]; simpl; tauto.
    + destruct (String.eqb_spec i id) as [->|Hne]; simpl.
      * split; [intros _; split; [assumption|lia]|tauto].
      * split; [intros [[H|[]]|H]; [congruence|tauto]|tauto].
Qed.

Lemma isProfitableFilled_pos t :
  isProfitableFilled t = true -> 0 < JS.orZero (Trade.realized_pnl t).
Proof.
  unfold isProfitableFilled, JS.Qgtb. intros H.
  apply andb_true_iff in H as [H _].
  destruct (Qle_bool (JS.orZero (Trade.realized_pnl t)) 0) eqn:E;
    [discriminate|].
  destruct (Qlt_le_dec 0 (JS.orZero (Trade.realized_pnl t))) as [Hlt|Hle];
    [assumption|].
  apply Qle_bool_iff in Hle. congruence.
Qed.

Lemma existsb_eqb_In id l :
  existsb (String.eqb id) l = true <-> In id l.
Proof.
  rewrite existsb_exists. split.
  - intros (x & Hx & He). apply String.eqb_eq in He. subst. assumption.
  - intros H. exists id. split; [assumption|apply String.eqb_refl].
Qed.

Lemma backfillStep_inv now st settled t :
  backfillInv W st settled ->
  In t (trades st) -> isProfitableFilled t = true ->
  let r := backfillStep W now (st, settled) t in
  backfillInv W (fst r) (snd r)
  /\ ledgerStep st (fst r)
  /\ In (Trade.id t) (snd r)
  /\ incl settled (snd r).
Proof.
  intros (Hinv & H1 & H2) Hin Hprof. unfold backfillStep.
  destruct (existsb (String.eqb (Trade.id t)) settled) eqn:E.
  - apply existsb_eqb_In in E. simpl.
    split; [split; [assumption|split; assumption]|].
    split; [apply ledgerStep_refl|]. split; [assumption|apply incl_refl].
  - cbn [fst snd].
    assert (Hnotin : ~ In (Trade.id t) settled).
    { intros Hc. apply existsb_eqb_In in Hc. congruence. }
    pose proof (isProfitableFilled_pos t Hprof) as Hg.
    pose proof (fun id => processProfitSharing_count now (Trade.user_id t)
                  (Trade.id t) (JS.orZero (Trade.realized_pnl t))
                  (JS.strOr (Trade.environment t) "testnet") st id) as Hcount.
    cbv zeta in Hcount.
    assert (Hgt : JS.Qgtb (JS.orZero (Trade.realized_pnl t)) 0 = true).
    { unfold isProfitableFilled in Hprof.
      apply andb_true_iff in Hprof. tauto. }
    rewrite Hgt in Hcount. simpl in Hcount.
    split; [split; [|split]|].
    + apply processProfitSharing_inv; [assumption| |].
      * destruct (String.eqb_spec (Trade.id t) "") as [Hemp|Hne]; [auto|].
        right. destruct (settlementsFor (Trade.id t) st) eqn:Ez; [reflexivity|].
        exfalso. apply Hnotin, H2; [assumption|lia].
      * intros n Hn Heq. destruct Hinv as [_ Hf].
        destruct (Hf n Hn) as [_ Hf2]. apply (Hf2 t Hin). congruence.
    + intros id [<-|Hid].
      * destruct (Hcount (Trade.id t)) as [-> _]. rewrite String.eqb_refl. lia.
      * destruct (Hcount id) as [-> _]. specialize (H1 id Hid). lia.
    + intros id Hne Hc. destruct (Hcount id) as [Hc' _]. rewrite Hc' in Hc.
      destruct (String.eqb_spec (Trade.id t) id) as [->|Hd]; [left; reflexivity|].
      right. apply H2; [assumption|lia].
    + split; [apply (Hcount "")|]. split; [left; reflexivity|].
      intros x Hx. right. assumption.
Qed.

Lemma backfill_fold_inv now ts :
  forall st settled,
  backfillInv W st settled ->
  (forall t, In t ts -> In t (trades st) /\ isProfitableFilled t = true) ->
  let r := fold_left (backfillStep W now) ts (st, settled) in
  backfillInv W (fst r) (snd r)
  /\ ledgerStep st (fst r)
  /\ (forall t, In t ts -> In (Trade.id t) (snd r))
  /\ incl settled (snd r).
Proof.
  induction ts as [|t ts IH]; intros st settled Hinv Hts; cbn [fold_left].
  - simpl. split; [assumption|]. split; [apply ledgerStep_refl|].
    split; [intros t []|apply incl_refl].
  - destruct (Hts t (or_introl eq_refl)) as [Hin Hprof].
    pose proof (backfillStep_inv now st settled t Hinv Hin Hprof) as Hstep.
    cbv zeta in Hstep.
    destruct (backfillStep W now (st, settled) t) as [st1 settled1] eqn:E.
    cbn [fst snd] in Hstep. destruct Hstep as (Hinv1 & Hl1 & Hid1 & Hincl1).
    assert (Htr : trades st1 = trades st).
    { destruct Hl1 as [Hs _]. unfold sameOutsideLedger in Hs. tauto. }
    specialize (IH st1 settled1 Hinv1).
    cbv zeta in IH. destruct IH as (Hinv2 & Hl2 & Hid2 & Hincl2).
    { intros t' Ht'. rewrite Htr. apply Hts. right. assumption. }
    split; [assumption|]. split; [eapply ledgerStep_trans; eassumption|].
    split.
    + intros t' [<-|Ht']; [apply Hincl2; assumption|auto].
    + eapply incl_tran; eassumption.
Qed.

Lemma backfillInv_start st :
  settlementInv W st -> backfillInv W st (settledTradeIds st).
Proof.
  intros Hinv. split; [assumption|]. split.
  - intros id Hid. apply settledTradeIds_In in Hid. tauto.
  - intros id Hne Hc. apply settledTradeIds_In. tauto.
Qed.

Lemma backfill_spec now st :
  settlementInv W st ->
  settlementInv W (backfill W now st)
  /\ ledgerStep st (backfill W now st)
  /\ (forall t, In t (trades st) -> isProfitableFilled t = true ->
        (1 <= settlementsFor (Trade.id t) (backfill W now st))%nat).
Proof.
  intros Hinv. unfold backfill.
  pose proof (backfill_fold_inv now (filter isProfitableFilled (trades st))
                st (settledTradeIds st) (backfillInv_start st Hinv)) as H.
  cbv zeta in H. destruct H as ((Hi & H1 & H2) & Hl & Hid & _).
  { intros t Ht. apply filter_In in Ht. assumption. }
  split; [assumption|]. split; [assumption|].
  intros t Ht Hp. apply H1, Hid, filter_In. auto.
Qed.

(** A trade that is in the set is passed over. *)
Lemma backfill_fold_skip now ts st settled :
  (forall t, In t ts -> In (Trade.id t) settled) ->
  fold_left (backfillStep W now) ts (st, settled) = (st, settled).
Proof.
  induction ts as [|t ts IH]; intros H; cbn [fold_left]; [reflexivity|].
  unfold backfillStep at 2.
  assert (E : existsb (String.eqb (Trade.id t)) settled = true)
    by (apply existsb_eqb_In, H; left; reflexivity).
  rewrite E. apply IH. intros t' Ht'. apply H. right. assumption.
Qed.

(** Running the backfill when every profitable filled trade already has its
    row changes nothing. *)
Lemma backfill_noop now st :
  (forall t, In t (trades st) -> isProfitableFilled t = true ->
     Trade.id t <> "" /\ (1 <= settlementsFor (Trade.id t) st)%nat) ->
  backfill W now st = st.
Proof.
  intros H. unfold backfill. rewrite backfill_fold_skip; [reflexivity|].
  intros t Ht. apply filter_In in Ht as [Hin Hp].
  apply settledTradeIds_In. auto.
Qed.

(** *** The reconciler *)

Lemma settlementInv_frame st st' :
  profit_settlements st' = profit_settlements st ->
  trades st' = trades st ->
  next_uuid st' = next_uuid st ->
  settlementInv W st -> settlementInv W st'.
Proof.
  intros Hs Ht Hn [Hu Hf]. split.
  - intros id Hid. rewrite (settlementsFor_same id st st' Hs). auto.
  - intros n Hle. rewrite Hn in Hle. destruct (Hf n Hle) as [H1 H2].
    rewrite (settlementsFor_same _ st st' Hs), Ht. auto.
Qed.

Lemma checkExchangePosition_state symbol exchange product isTestnet k s st :
  exists tr,
    snd (checkExchangePosition W symbol exchange product isTestnet k s st)
    = set_trace tr st.
Proof.
  unfold checkExchangePosition, callApiM.
  destruct (String.eqb exchange "binance" && String.eqb product "futures").
  - destruct (success _); [|eexists; reflexivity].
    destruct (data _); try (eexists; reflexivity).
    destruct (find _ _); eexists; reflexivity.
  - destruct (String.eqb exchange "bybit").
    + destruct (success _); [|eexists; reflexivity].
      destruct (data _) as [| |[|? ?]|]; eexists; reflexivity.
    + exists (trace st). destruct st; reflexivity.
Qed.

(** Recording a closing trade under a fresh id. *)
Lemma settlementInv_newTrade st st' t :
  settlementInv W st ->
  profit_settlements st' = profit_settlements st ->
  trades st' = trades st ++ [t] ->
  next_uuid st' = S (next_uuid st) ->
  Trade.id t = randomUUID W (next_uuid st) ->
  settlementInv W st'
  /\ settlementsFor (Trade.id t) st' = 0%nat
  /\ (forall n, (next_uuid st' <= n)%nat -> randomUUID W n <> Trade.id t).
Proof.
  intros [Hu Hf] Hs Ht Hn Hid. split; [split|split].
  - intros id Hne. rewrite (settlementsFor_same id st st' Hs). auto.
  - intros n Hle. rewrite Hn in Hle. destruct (Hf n ltac:(lia)) as [H1 H2].
    rewrite (settlementsFor_same _ st st' Hs), Ht. split; [assumption|].
    intros t' Hin. apply in_app_iff in Hin as [Hin|[<-|[]]]; [auto|].
    rewrite Hid. intros Heq. apply uuid_injective in Heq. lia.
  - rewrite (settlementsFor_same _ st st' Hs), Hid. apply (Hf (next_uuid st)). lia.
  - intros n Hle Heq. rewrite Hid in Heq. apply uuid_injective in Heq. lia.
Qed.

Lemma monitorPosition_inv now exchange product isTestnet k s st results j :
  settlementInv W st ->
  settlementInv W
    (fst (monitorPosition W now exchange product isTestnet k s (st, results) j)).
Proof.
  intros Hinv. unfold monitorPosition.
  destruct (nth_error (positions st) j) as [position|]; [|assumption].
  destruct (checkExchangePosition_state (Position.symbol position) exchange
              product isTestnet k s st) as [tr Htr].
  destruct (checkExchangePosition W (Position.symbol position) exchange product
              isTestnet k s st) as [exchangePos st1].
  simpl in Htr. subst st1.
  set (st2 := (if JS.Qgtb (currentPrice exchangePos) 0 then _ else _) : State).
  match goal with
  | |- context [if negb (isOpen exchangePos) && ?b then _ else _] =>
      destruct (negb (isOpen exchangePos) && b)
  end.
  - assert (Hinv2 : settlementInv W st2).
    { subst st2. destruct (JS.Qgtb _ _); [destruct (JS.findIndex _ _)|];
        (eapply settlementInv_frame; [| | |exact Hinv]; reflexivity). }
    clearbody st2.
    destruct (JS.findIndex _ _) as [posIndex|]; cbn [fst].
    + unfold freshUUID. cbn [fst snd].
      match goal with
      | |- settlementInv W (processProfitSharing W now ?u ?tid ?g ?e ?sa) =>
          destruct (settlementInv_newTrade st2 sa
                      (Trade.mk tid (Position.user_id position)
                         (Position.exchange position)
                         (Position.environment position)
                         (Position.symbol position)
                         (if String.eqb (Position.side position) "long"
                          then "sell" else "buy")
                         "market"
                         (if Qeq_bool (currentPrice exchangePos) 0
                          then Position.entry_price position
                          else currentPrice exchangePos)
                         (Position.size position)
                         (Some (unrealizedPnl exchangePos))
                         "filled" None (Some "position_monitor") now)
                      Hinv2 eq_refl eq_refl eq_refl eq_refl)
            as (Ha & Hb & Hc)
      end.
      apply processProfitSharing_inv; auto.
    + eapply settlementInv_frame; [| | |exact Hinv2]; reflexivity.
  - cbn [fst]. subst st2.
    destruct (JS.Qgtb _ _); [destruct (JS.findIndex _ _)|];
      (eapply settlementInv_frame; [| | |exact Hinv]; reflexivity).
Qed.

Lemma monitorPosition_fold_inv now exchange product isTestnet k s group :
  forall st results,
  settlementInv W st ->
  settlementInv W
    (fst (fold_left (monitorPosition W now exchange product isTestnet k s)
            group (st, results))).
Proof.
  induction group as [|j group IH]; intros st results Hinv; cbn [fold_left];
    [assumption|].
  pose proof (monitorPosition_inv now exchange product isTestnet k s st results
                j Hinv) as H.
  destruct (monitorPosition W now exchange product isTestnet k s (st, results) j)
    as [st1 results1].
  apply IH. assumption.
Qed.

Lemma monitorGroup_inv now st results entry :
  settlementInv W st ->
  settlementInv W (fst (monitorGroup W now (st, results) entry)).
Proof.
  intros Hinv. unfold monitorGroup. destruct entry as [key group].
  destruct (credentialFor key st) as [apiKeys|].
  - apply monitorPosition_fold_inv. assumption.
  - cbn [fst]. eapply settlementInv_frame; [| | |exact Hinv]; reflexivity.
Qed.

Lemma monitorGroup_fold_inv now groups :
  forall st results,
  settlementInv W st ->
  settlementInv W (fst (fold_left (monitorGroup W now) groups (st, results))).
Proof.
  induction groups as [|entry groups IH]; intros st results Hinv;
    cbn [fold_left]; [assumption|].
  pose proof (monitorGroup_inv now st results entry Hinv) as H.
  destruct (monitorGroup W now (st, results) entry) as [st1 results1].
  apply IH. assumption.
Qed.

(** One tick keeps the invariant. *)
Lemma positionMonitor_inv now st :
  settlementInv W st -> settlementInv W (fst (positionMonitor W now st)).
Proof.
  intros Hinv. unfold positionMonitor.
  assert (H0 : settlementInv W (consoleLog "Position monitor started..." st))
    by (eapply settlementInv_frame; [| | |exact Hinv]; reflexivity).
  destruct (backfill_spec now _ H0) as (H1 & _ & _).
  destruct (openPositions _) as [|j refs] eqn:Eo; [assumption|].
  match goal with
  | |- context [fold_left (monitorGroup W now) ?gs (?s0, [])] =>
      assert (H2 : settlementInv W s0)
        by (eapply settlementInv_frame; [| | |exact H1]; reflexivity);
      pose proof (monitorGroup_fold_inv now gs s0 [] H2) as H3;
      destruct (fold_left (monitorGroup W now) gs (s0, [])) as [st3 results]
  end.
  cbn [fst] in *. eapply settlementInv_frame; [| | |exact H3]; reflexivity.
Qed.

(** The backfill is idempotent when no profitable filled trade has the empty
    id: run again, at any instant, it changes nothing. *)
Lemma backfill_idempotent now now' st :
  settlementInv W st ->
  (forall t, In t (trades st) -> isProfitableFilled t = true ->
     Trade.id t <> "") ->
  backfill W now' (backfill W now st) = backfill W now st.
Proof.
  intros Hinv Hne. destruct (backfill_spec now st Hinv) as (_ & Hl & Hs).
  assert (Ht : trades (backfill W now st) = trades st).
  { destruct Hl as [Hl _]. unfold sameOutsideLedger in Hl. tauto. }
  apply backfill_noop. rewrite Ht. auto.
Qed.

End Idempotence.

(** ** The reconciler's loop body *)

Section Reconciler.

Variable W : World.






Lemma samePosition_set_closed id pnl now p :
  samePosition id (Position.set_closed pnl now p) = samePosition id p.
Proof. reflexivity. Qed.




End Reconciler.

(** ** Splitting the group key *)

Lemma split_head_no_sep c s : hasChar c (nth 0 (JS.split c s) "") = false.
Proof.
  induction s as [|a r IH]; simpl; [reflexivity|].
  destruct (Ascii.eqb a c) eqn:E; [reflexivity|].
  destruct (JS.split c r) as [|h t]; simpl in *.
  - rewrite E. reflexivity.
  - rewrite E, IH. reflexivity.
Qed.

Lemma unaryUUID_length n : String.length (unaryUUID n) = S n.
Proof. induction n; simpl; congruence. Qed.

Lemma unaryUUID_injective m n : unaryUUID m = unaryUUID n -> m = n.
Proof.
  intros H. apply (f_equal String.length) in H.
  rewrite !unaryUUID_length in H. congruence.
Qed.

Lemma unaryUUID_head n : exists r, unaryUUID n = String "u" r.
Proof. destruct n; simpl; eauto. Qed.

(** ** Indicators *)

Lemma calculateRSI_wilder {num : Type} (A : Arith num) prices period :
  calculateRSI A prices period
  = map (fun p => rsiValue A (fst p) (snd p)) (wilderAverages A prices period).
Proof.
  unfold calculateRSI, wilderAverages.
  destruct (List.length prices <? period + 1)%nat; [reflexivity|].
  cbv zeta.
  generalize (div A (total A (firstn period (map (gainOf A) (changes A prices))))
                (ofNat A period)).
  generalize (div A (total A (firstn period (map (lossOf A) (changes A prices))))
                (ofNat A period)).
  generalize (skipn period (map (gainOf A) (changes A prices))).
  generalize (skipn period (map (lossOf A) (changes A prices))).
  intros losses gains. revert losses.
  induction gains as [|g gains IH]; intros [|l losses] avgLoss avgGain;
    simpl; try reflexivity.
  rewrite IH. reflexivity.
Qed.

Lemma rsiValue_zero_loss avgGain avgLoss :
  avgLoss == 0 -> rsiValue exact avgGain avgLoss == 10000 # 101.
Proof.
  intros H. unfold rsiValue. simpl.
  assert (E : Qeq_bool avgLoss (inject_Z 0) = true) by (apply Qeq_bool_iff; exact H).
  rewrite E. reflexivity.
Qed.

Lemma total_zero l : Forall (fun x => x == 0) l -> total exact l == 0.
Proof.
  unfold total. simpl.
  assert (G : forall acc, acc == 0 -> Forall (fun x => x == 0) l ->
                          fold_left Qplus l acc == 0).
  { induction l as [|x l IH]; intros acc Hacc Hl; simpl; [assumption|].
    inversion Hl; subst. apply IH; [|assumption].
    rewrite Hacc. rewrite H1. reflexivity. }
  apply G. reflexivity.
Qed.

Lemma smooth_zero period avg x :
  avg == 0 -> x == 0 -> smooth exact period avg x == 0.
Proof.
  intros Ha Hx. unfold smooth. simpl. rewrite Ha, Hx. unfold Qdiv. ring.
Qed.

Lemma wilderLoop_zero_loss period gains :
  forall losses avgGain avgLoss,
  Forall (fun x => x == 0) losses -> avgLoss == 0 ->
  Forall (fun p => snd p == 0) (wilderLoop exact period gains losses avgGain avgLoss).
Proof.
  induction gains as [|g gains IH]; intros [|l losses] avgGain avgLoss Hl Ha;
    simpl; try constructor.
  - inversion Hl; subst. apply smooth_zero; assumption.
  - inversion Hl; subst. apply IH; [assumption|].
    apply smooth_zero; assumption.
Qed.

Lemma Forall_firstn {A : Type} (P : A -> Prop) n l :
  Forall P l -> Forall P (firstn n l).
Proof.
  intros H. revert n. induction H; intros [|n]; simpl; constructor; auto.
Qed.

Lemma Forall_skipn {A : Type} (P : A -> Prop) n l :
  Forall P l -> Forall P (skipn n l).
Proof.
  intros H. revert n. induction H; intros [|n]; simpl; auto.
Qed.

Lemma increasing_losses prices :
  strictlyIncreasing prices ->
  Forall (fun x => x == 0) (map (lossOf exact) (changes exact prices)).
Proof.
  induction prices as [|a rest IH]; simpl; [constructor|].
  destruct rest as [|b rest']; [constructor|].
  intros [Hab Hrest]. constructor; [|apply IH; assumption].
  unfold lossOf. simpl.
  assert (E : JS.Qltb (b - a) (inject_Z 0) = false).
  { unfold JS.Qltb. apply negb_false_iff, Qle_bool_iff.
    change (inject_Z 0) with 0. lra. }
  rewrite E. reflexivity.
Qed.

Lemma increasing_zero_loss prices period :
  strictlyIncreasing prices ->
  Forall (fun p => snd p == 0) (wilderAverages exact prices period).
Proof.
  intros H. unfold wilderAverages.
  destruct (List.length prices <? period + 1)%nat; [constructor|].
  cbv zeta. pose proof (increasing_losses prices H) as Hl.
  apply wilderLoop_zero_loss; [apply Forall_skipn; assumption|].
  assert (Ht : total exact (firstn period (map (lossOf exact) (changes exact prices)))
               == 0) by (apply total_zero, Forall_firstn; assumption).
  simpl. simpl in Ht. rewrite Ht. unfold Qdiv. ring.
Qed.

(** ** The entry order's retries and the checks of the tick *)

Section Execution.

Variable W : World.


Lemma set_trace_nil (st : State) : set_trace (trace st ++ []) st = st.
Proof.
  destruct st. unfold set_trace. cbn. rewrite app_nil_r. reflexivity.
Qed.





End Execution.

Section Gates.

Variable W : World.


Lemma Qleb_true (x y : Q) : x <= y -> JS.Qleb x y = true.
Proof.
  intros H. unfold JS.Qleb. apply Qle_bool_iff. exact H.
Qed.

Lemma Qleb_false (x y : Q) : JS.Qleb x y = false -> y < x.
Proof.
  unfold JS.Qleb. intros H. apply Qnot_le_lt. intros Hle.
  apply Qle_bool_iff in Hle. congruence.
Qed.





(** A strategy that passes every check has a gas balance above zero. *)
Lemma strategyGate_gas (now : Z) (config : TradingStrategy.t) (st : State) :
  strategyGate W now config st = None ->
  0 < balanceOf st (TradingStrategy.user_id config)
        (TradingStrategy.environment config).
Proof.
  unfold strategyGate. cbv zeta. intros H.
  repeat match type of H with
         | (if ?c then _ else _) = None =>
             destruct c eqn:?; [discriminate H|]
         end.
  unfold balanceOf.
  match goal with
  | E : match find (sameAccount _ _) _ with _ => _ end = false |- _ =>
      destruct (find (sameAccount (TradingStrategy.user_id config)
                        (TradingStrategy.environment config))
                  (gas_fee_balances st)); [|discriminate E];
      apply Qleb_false; exact E
  end.
Qed.

End Gates.

(** ** Ranges and lengths of the indicators *)

Section IndicatorLengths.

Context {num : Type} (A : Arith num).

Lemma emaLoop_length (multiplier : num) (rest : list num) (last : num) :
  List.length (emaLoop A multiplier rest last) = List.length rest.
Proof.
  revert last. induction rest as [|p rest IH]; intros last; simpl;
    [reflexivity|]. rewrite IH. reflexivity.
Qed.

Lemma rsiLoop_length (period : nat) (gains losses : list num)
    (avgGain avgLoss : num) :
  List.length gains = List.length losses ->
  List.length (rsiLoop A period gains losses avgGain avgLoss)
  = List.length gains.
Proof.
  revert losses avgGain avgLoss.
  induction gains as [|g gains IH]; intros [|l losses] avgGain avgLoss H;
    simpl in *; try reflexivity; try discriminate.
  rewrite IH; [reflexivity|]. lia.
Qed.

Lemma changes_length (prices : list num) :
  List.length (changes A prices) = (List.length prices - 1)%nat.
Proof.
  induction prices as [|a rest IH]; [reflexivity|].
  destruct rest as [|b rest']; [reflexivity|].
  change (changes A (a :: b :: rest'))
    with (sub A b a :: changes A (b :: rest')).
  cbn [List.length] in *. rewrite IH. lia.
Qed.

End IndicatorLengths.

Section IndicatorRanges.

Lemma fold_plus_bounds (lo hi : Q) (l : list Q) (acc : Q) :
  allWithin lo hi l ->
  acc + inject_Z (Z.of_nat (List.length l)) * lo <= fold_left Qplus l acc
  /\ fold_left Qplus l acc <= acc + inject_Z (Z.of_nat (List.length l)) * hi.
Proof.
  intros H. revert acc. induction H as [|x l [Hlo Hhi] _ IH]; intros acc.
  - cbn [fold_left List.length Z.of_nat]. change (inject_Z 0) with 0.
    split; lra.
  - cbn [fold_left List.length]. destruct (IH (acc + x)) as [I1 I2].
    rewrite Nat2Z.inj_succ, <- Z.add_1_r, inject_Z_plus.
    change (inject_Z 1) with 1. split; lra.
Qed.

Lemma ofNat_pos (n : nat) : (1 <= n)%nat -> 0 < ofNat exact n.
Proof.
  intros H. cbn. change 0 with (inject_Z 0). rewrite <- Zlt_Qlt. lia.
Qed.

(** The mean of [n >= 1] numbers between [lo] and [hi] lies between them. *)
Lemma mean_bounds (lo hi : Q) (l : list Q) :
  (1 <= List.length l)%nat -> allWithin lo hi l ->
  lo <= total exact l / ofNat exact (List.length l)
  /\ total exact l / ofNat exact (List.length l) <= hi.
Proof.
  intros Hn H. pose proof (ofNat_pos _ Hn) as Hpos.
  destruct (fold_plus_bounds lo hi l 0 H) as [H1 H2].
  unfold total. cbn in *. change (inject_Z 0) with 0. split.
  - apply Qle_shift_div_l; [exact Hpos|]. lra.
  - apply Qle_shift_div_r; [exact Hpos|]. lra.
Qed.

Lemma multiplier_range (period : nat) :
  (1 <= period)%nat ->
  0 < div exact (ofNat exact 2) (add exact (ofNat exact period) (ofNat exact 1))
  /\ div exact (ofNat exact 2) (add exact (ofNat exact period) (ofNat exact 1))
     <= 1.
Proof.
  intros H. pose proof (ofNat_pos _ H) as Hpos. cbn in *.
  assert (Hp : 1 <= inject_Z (Z.of_nat period)).
  { change 1 with (inject_Z 1). rewrite <- Zle_Qle. lia. }
  change (inject_Z 2) with 2. change (inject_Z 1) with 1. split.
  - apply Qlt_shift_div_l; lra.
  - apply Qle_shift_div_r; lra.
Qed.

Lemma emaLoop_bounds (lo hi m : Q) (rest : list Q) (last : Q) :
  0 <= m <= 1 -> allWithin lo hi rest -> lo <= last <= hi ->
  allWithin lo hi (emaLoop exact m rest last).
Proof.
  intros Hm H. revert last. induction H as [|p rest [Hlo Hhi] _ IH];
    intros last Hl; cbn [emaLoop]; [constructor|].
  assert (Hnew : lo <= add exact (mul exact (sub exact p last) m) last <= hi).
  { cbn. split; nra. }
  constructor; [exact Hnew|]. apply IH. exact Hnew.
Qed.

End IndicatorRanges.

Section RsiRange.

Lemma gainOf_nonneg (c : Q) : 0 <= gainOf exact c.
Proof.
  unfold gainOf. cbn. change (inject_Z 0) with 0.
  destruct (JS.Qltb 0 c) eqn:E; [|lra].
  unfold JS.Qltb in E. apply negb_true_iff in E.
  destruct (Qlt_le_dec 0 c) as [H|H]; [lra|].
  apply Qle_bool_iff in H. congruence.
Qed.

Lemma lossOf_nonneg (c : Q) : 0 <= lossOf exact c.
Proof.
  unfold lossOf. cbn. change (inject_Z 0) with 0.
  destruct (JS.Qltb c 0); [apply Qabs_nonneg | lra].
Qed.

Lemma total_nonneg (l : list Q) :
  Forall (fun x => 0 <= x) l -> 0 <= total exact l.
Proof.
  intros H. unfold total. cbn. change (inject_Z 0) with 0.
  assert (G : forall acc, 0 <= acc -> 0 <= fold_left Qplus l acc).
  { induction H as [|x l Hx _ IH]; intros acc Ha; cbn; [exact Ha|].
    apply IH. lra. }
  apply G. lra.
Qed.

Lemma mean_nonneg (period : nat) (l : list Q) :
  (1 <= period)%nat -> Forall (fun x => 0 <= x) l ->
  0 <= div exact (total exact l) (ofNat exact period).
Proof.
  intros Hp H. pose proof (ofNat_pos _ Hp) as Hpos.
  pose proof (total_nonneg l H) as Ht. cbn in *.
  apply Qle_shift_div_l; [exact Hpos|]. lra.
Qed.

Lemma smooth_nonneg (period : nat) (avg x : Q) :
  (1 <= period)%nat -> 0 <= avg -> 0 <= x -> 0 <= smooth exact period avg x.
Proof.
  intros Hp Ha Hx. pose proof (ofNat_pos _ Hp) as Hpos.
  unfold smooth. cbn in *. change (inject_Z 1) with 1.
  assert (H1 : 1 <= inject_Z (Z.of_nat period)).
  { change 1 with (inject_Z 1). rewrite <- Zle_Qle. lia. }
  apply Qle_shift_div_l; [exact Hpos|]. nra.
Qed.

Lemma smooth_pos (period : nat) (avg x : Q) :
  (1 <= period)%nat -> 0 < avg -> 0 < x -> 0 < smooth exact period avg x.
Proof.
  intros Hp Ha Hx. pose proof (ofNat_pos _ Hp) as Hpos.
  unfold smooth. cbn in *. change (inject_Z 1) with 1.
  assert (H1 : 1 <= inject_Z (Z.of_nat period)).
  { change 1 with (inject_Z 1). rewrite <- Zle_Qle. lia. }
  apply Qlt_shift_div_l; [exact Hpos|]. nra.
Qed.

(** The value computed from non-negative averages is at least 0 and below
    100. *)
Lemma rsiValue_range (avgGain avgLoss : Q) :
  0 <= avgGain -> 0 <= avgLoss ->
  0 <= rsiValue exact avgGain avgLoss /\ rsiValue exact avgGain avgLoss < 100.
Proof.
  intros Hg Hl. unfold rsiValue. cbn.
  change (inject_Z 0) with 0. change (inject_Z 1) with 1.
  change (inject_Z 100) with 100.
  destruct (Qeq_bool avgLoss 0) eqn:E.
  - split; [vm_compute; discriminate | reflexivity].
  - assert (Hpos : 0 < avgLoss).
    { destruct (Qlt_le_dec 0 avgLoss) as [H|H]; [exact H|].
      assert (Hz : avgLoss == 0) by lra.
      apply Qeq_bool_iff in Hz. congruence. }
    assert (Hrs : 0 <= avgGain / avgLoss)
      by (apply Qle_shift_div_l; [exact Hpos | lra]).
    assert (Hq : 0 < 100 / (1 + avgGain / avgLoss))
      by (apply Qlt_shift_div_l; lra).
    assert (Hq' : 100 / (1 + avgGain / avgLoss) <= 100)
      by (apply Qle_shift_div_r; lra).
    split; lra.
Qed.

Lemma wilderLoop_nonneg (period : nat) (gains : list Q) :
  (1 <= period)%nat ->
  forall losses avgGain avgLoss,
    Forall (fun x => 0 <= x) gains -> Forall (fun x => 0 <= x) losses ->
    0 <= avgGain -> 0 <= avgLoss ->
    Forall (fun p => 0 <= fst p /\ 0 <= snd p)
      (wilderLoop exact period gains losses avgGain avgLoss).
Proof.
  intros Hp. induction gains as [|g gains IH];
    intros [|l losses] avgGain avgLoss Hgs Hls Hg Hl; cbn [wilderLoop];
    try constructor.
  - inversion Hgs; inversion Hls; subst. cbn [fst snd].
    split; apply smooth_nonneg; assumption.
  - inversion Hgs; inversion Hls; subst.
    apply IH; try assumption; apply smooth_nonneg; assumption.
Qed.

Lemma wilderAverages_nonneg (prices : list Q) (period : nat) :
  (1 <= period)%nat ->
  Forall (fun p => 0 <= fst p /\ 0 <= snd p)
    (wilderAverages exact prices period).
Proof.
  intros Hp. unfold wilderAverages.
  destruct (List.length prices <? period + 1)%nat; [constructor|].
  cbv zeta.
  assert (Hg : Forall (fun x => 0 <= x)
                 (map (gainOf exact) (changes exact prices)))
    by (apply Forall_map, Forall_forall; intros; apply gainOf_nonneg).
  assert (Hl : Forall (fun x => 0 <= x)
                 (map (lossOf exact) (changes exact prices)))
    by (apply Forall_map, Forall_forall; intros; apply lossOf_nonneg).
  apply wilderLoop_nonneg; try assumption.
  - apply Forall_skipn; assumption.
  - apply Forall_skipn; assumption.
  - apply mean_nonneg; [assumption|]. apply Forall_firstn; assumption.
  - apply mean_nonneg; [assumption|]. apply Forall_firstn; assumption.
Qed.

Lemma calculateRSI_length {num : Type} (A : Arith num) (prices : list num)
    (period : nat) :
  List.length (calculateRSI A prices period)
  = if (List.length prices <? period + 1)%nat then 0%nat
    else (List.length prices - 1 - period)%nat.
Proof.
  unfold calculateRSI.
  destruct (List.length prices <? period + 1)%nat; [reflexivity|].
  cbv zeta. rewrite rsiLoop_length.
  - rewrite length_skipn, length_map, changes_length. reflexivity.
  - rewrite !length_skipn, !length_map. reflexivity.
Qed.

End RsiRange.

Section RsiFalling.

Lemma decreasing_changes (prices : list Q) :
  strictlyDecreasing prices ->
  Forall (fun x => x == 0) (map (gainOf exact) (changes exact prices))
  /\ Forall (fun x => 0 < x) (map (lossOf exact) (changes exact prices)).
Proof.
  induction prices as [|a rest IH]; [split; constructor|].
  destruct rest as [|b rest']; [split; constructor|].
  intros [Hab Hrest]. destruct (IH Hrest) as [IHg IHl].
  change (changes exact (a :: b :: rest'))
    with (sub exact b a :: changes exact (b :: rest')).
  cbn [map]. split; constructor; try assumption.
  - unfold gainOf. cbn. change (inject_Z 0) with 0.
    assert (E : JS.Qltb 0 (b - a) = false).
    { unfold JS.Qltb. apply negb_false_iff, Qle_bool_iff. lra. }
    rewrite E. reflexivity.
  - unfold lossOf. cbn. change (inject_Z 0) with 0.
    assert (E : JS.Qltb (b - a) 0 = true).
    { unfold JS.Qltb. apply negb_true_iff.
      destruct (Qle_bool 0 (b - a)) eqn:E; [|reflexivity].
      apply Qle_bool_iff in E. lra. }
    rewrite E.
    assert (Ha : Qabs (b - a) == - (b - a)) by (apply Qabs_neg; lra).
    apply Qlt_le_trans with (- (b - a)); [lra|].
    apply Qle_lteq. right. symmetry. exact Ha.
Qed.

Lemma total_pos (l : list Q) :
  l <> [] -> Forall (fun x => 0 < x) l -> 0 < total exact l.
Proof.
  intros Hne H. unfold total. cbn. change (inject_Z 0) with 0.
  assert (G : forall l' acc, Forall (fun x => 0 < x) l' -> 0 < acc ->
                             0 < fold_left Qplus l' acc).
  { induction l' as [|x l' IH]; intros acc Hl Ha; cbn; [exact Ha|].
    inversion Hl; subst. apply IH; [assumption|]. lra. }
  destruct H as [|x l Hx Hl]; [congruence|]. cbn.
  apply G; [assumption|]. lra.
Qed.

Lemma rsiValue_zero_gain (avgGain avgLoss : Q) :
  avgGain == 0 -> 0 < avgLoss -> rsiValue exact avgGain avgLoss == 0.
Proof.
  intros Hg Hl. unfold rsiValue. cbn.
  change (inject_Z 0) with 0. change (inject_Z 1) with 1.
  change (inject_Z 100) with 100.
  assert (E : Qeq_bool avgLoss 0 = false).
  { destruct (Qeq_bool avgLoss 0) eqn:E; [|reflexivity].
    apply Qeq_bool_iff in E. lra. }
  rewrite E, Hg.
  assert (Hz : 0 / avgLoss == 0) by (unfold Qdiv; ring).
  rewrite Hz. reflexivity.
Qed.

Lemma wilderLoop_zero_gain (period : nat) (gains : list Q) :
  (1 <= period)%nat ->
  forall losses avgGain avgLoss,
    Forall (fun x => x == 0) gains -> Forall (fun x => 0 < x) losses ->
    avgGain == 0 -> 0 < avgLoss ->
    Forall (fun p => fst p == 0 /\ 0 < snd p)
      (wilderLoop exact period gains losses avgGain avgLoss).
Proof.
  intros Hp. induction gains as [|g gains IH];
    intros [|l losses] avgGain avgLoss Hgs Hls Hg Hl; cbn [wilderLoop];
    try constructor.
  - inversion Hgs; inversion Hls; subst. cbn [fst snd].
    split; [apply smooth_zero | apply smooth_pos]; assumption.
  - inversion Hgs; inversion Hls; subst.
    apply IH; try assumption;
      [apply smooth_zero | apply smooth_pos]; assumption.
Qed.

Lemma decreasing_averages (prices : list Q) (period : nat) :
  (1 <= period)%nat -> strictlyDecreasing prices ->
  Forall (fun p => fst p == 0 /\ 0 < snd p)
    (wilderAverages exact prices period).
Proof.
  intros Hp H. unfold wilderAverages.
  destruct (List.length prices <? period + 1)%nat eqn:Elen; [constructor|].
  apply Nat.ltb_ge in Elen. cbv zeta.
  destruct (decreasing_changes prices H) as [Hg Hl].
  pose proof (ofNat_pos _ Hp) as Hpos.
  apply wilderLoop_zero_gain; try assumption.
  - apply Forall_skipn; assumption.
  - apply Forall_skipn; assumption.
  - assert (Ht : total exact
                   (firstn period (map (gainOf exact) (changes exact prices)))
                 == 0) by (apply total_zero, Forall_firstn; assumption).
    cbn in *. rewrite Ht. unfold Qdiv. ring.
  - assert (Ht : 0 < total exact
                       (firstn period
                          (map (lossOf exact) (changes exact prices)))).
    { apply total_pos; [|apply Forall_firstn; assumption].
      intros Hnil. apply (f_equal (@List.length Q)) in Hnil.
      rewrite length_firstn, length_map, changes_length in Hnil.
      cbn in Hnil. lia. }
    cbn in *. apply Qlt_shift_div_l; [exact Hpos|]. lra.
Qed.

End RsiFalling.

Section SignalHistory.

Context {num : Type} (A : Arith num).

(** Fewer than two EMA values: no more prices than the period. *)
Lemma ema_length_lt2 (prices : list num) (period : nat) :
  (List.length (calculateEMA A prices period) <? 2)%nat
  = (List.length prices <=? period)%nat.
Proof.
  unfold calculateEMA.
  destruct (List.length prices <? period)%nat eqn:E.
  - apply Nat.ltb_lt in E. cbn. symmetry. apply Nat.leb_le. lia.
  - apply Nat.ltb_ge in E. cbv zeta. cbn [List.length].
    rewrite emaLoop_length, length_skipn.
    destruct (List.length prices <=? period)%nat eqn:E2.
    + apply Nat.leb_le in E2. apply Nat.ltb_lt. lia.
    + apply Nat.leb_gt in E2. apply Nat.ltb_ge. lia.
Qed.

End SignalHistory.

(** ** The settlement and the monitor's tick as sequences of elementary
    writes *)

Section SettlementSteps.

Variable W : World.
Variable R : State -> State -> Prop.

Hypothesis R_refl : forall st, R st st.
Hypothesis R_trans : forall st1 st2 st3, R st1 st2 -> R st2 st3 -> R st1 st3.
Hypothesis R_uuid : forall st, R st (set_next_uuid (S (next_uuid st)) st).
Hypothesis R_settlement :
  forall s st, R st (set_profit_settlements (profit_settlements st ++ [s]) st).
Hypothesis R_account :
  forall id u e now st,
    R st (set_gas_fee_balances
            (gas_fee_balances st ++ [GasFeeBalance.mk id u e 0 0 0 now now]) st).
Hypothesis R_deduct :
  forall i fee now st, 0 < fee ->
    R st (set_gas_fee_balances
            (JS.update i (GasFeeBalance.deduct fee now) (gas_fee_balances st))
            st).
Hypothesis R_deposit :
  forall i c now st, 0 < c ->
    R st (set_gas_fee_balances
            (JS.update i (GasFeeBalance.deposit c now) (gas_fee_balances st))
            st).
Hypothesis R_transaction :
  forall t st,
    R st (set_gas_fee_transactions (gas_fee_transactions st ++ [t]) st).
Hypothesis R_commission :
  forall c st,
    R st (set_referral_commissions (referral_commissions st ++ [c]) st).
Hypothesis R_earning :
  forall a st, R st (set_admin_earnings (admin_earnings st ++ [a]) st).

Lemma getOrCreateGasBalance_steps now u e st :
  R st (snd (getOrCreateGasBalance W now u e st)).
Proof.
  unfold getOrCreateGasBalance.
  destruct (JS.findIndex _ _); cbn [snd]; [apply R_refl|].
  unfold freshUUID. cbn [fst snd].
  eapply R_trans; [apply R_uuid | apply R_account].
Qed.

Lemma payReferral_steps now userId tradeId g env st tot entry :
  R st (fst (payReferral W now userId tradeId g env (st, tot) entry)).
Proof.
  unfold payReferral. destruct entry as [level referrerProfile].
  destruct (JS.Qleb (g * nth (level - 1) REFERRAL_RATES 0) 0) eqn:E;
    [apply R_refl|].
  apply Qleb_false in E.
  unfold freshUUID. cbn [fst snd].
  match goal with
  | |- context [getOrCreateGasBalance W now ?u ?e' ?s] =>
      pose proof (getOrCreateGasBalance_steps now u e' s) as Hg;
      destruct (getOrCreateGasBalance W now u e' s) as [i st1]
  end.
  cbn [fst snd] in *.
  eapply R_trans; [|apply R_transaction].
  eapply R_trans; [|apply R_uuid].
  eapply R_trans; [|apply R_deposit; lra].
  eapply R_trans; [|exact Hg].
  eapply R_trans; [apply R_uuid | apply R_commission].
Qed.

Lemma payReferral_fold_steps now userId tradeId g env chain :
  forall st tot,
    R st (fst (fold_left (payReferral W now userId tradeId g env) chain
                 (st, tot))).
Proof.
  induction chain as [|entry chain IH]; intros st tot; cbn [fold_left];
    [apply R_refl|].
  pose proof (payReferral_steps now userId tradeId g env st tot entry) as H.
  destruct (payReferral W now userId tradeId g env (st, tot) entry)
    as [st1 tot1].
  eapply R_trans; [exact H | apply IH].
Qed.

Lemma processProfitSharing_steps now userId tradeId g env st :
  R st (processProfitSharing W now userId tradeId g env st).
Proof.
  unfold processProfitSharing.
  destruct (JS.Qleb g 0) eqn:E; [apply R_refl|].
  apply Qleb_false in E.
  unfold freshUUID. cbn [fst snd].
  match goal with
  | |- context [getOrCreateGasBalance W now ?u ?e' ?s] =>
      pose proof (getOrCreateGasBalance_steps now u e' s) as Hg;
      destruct (getOrCreateGasBalance W now u e' s) as [i st1]
  end.
  cbn [fst snd] in *.
  match goal with
  | |- context [fold_left ?f ?chain (?s, ?tot)] =>
      pose proof (payReferral_fold_steps now userId tradeId g env chain s tot)
        as Hf;
      destruct (fold_left f chain (s, tot)) as [st2 paid]
  end.
  cbn [fst snd] in *.
  eapply R_trans; [|apply R_earning].
  eapply R_trans; [|apply R_uuid].
  eapply R_trans; [|exact Hf].
  eapply R_trans; [|apply R_transaction].
  eapply R_trans; [|apply R_uuid].
  eapply R_trans; [|apply R_deduct; unfold SERVICE_FEE_RATE; lra].
  eapply R_trans; [|exact Hg].
  eapply R_trans; [apply R_uuid | apply R_settlement].
Qed.

End SettlementSteps.

Section MonitorSteps.

Variable W : World.
Variable R : State -> State -> Prop.

Hypothesis R_refl : forall st, R st st.
Hypothesis R_trans : forall st1 st2 st3, R st1 st2 -> R st2 st3 -> R st1 st3.
Hypothesis R_console :
  forall msg st, R st (set_console (console st ++ [msg]) st).
Hypothesis R_query :
  forall r st, isPositionQuery r = true ->
    R st (set_trace (trace st ++ [r]) st).
Hypothesis R_mark :
  forall i cp pnl now st,
    R st (set_positions
            (JS.update i (Position.set_mark cp pnl now) (positions st)) st).
Hypothesis R_close :
  forall i pnl now st,
    R st (set_positions
            (JS.update i (Position.set_closed pnl now) (positions st)) st).
Hypothesis R_uuid : forall st, R st (set_next_uuid (S (next_uuid st)) st).
Hypothesis R_trade :
  forall t st,
    Trade.status t = "filled" ->
    Trade.triggered_by t = Some "position_monitor" ->
    R st (set_trades (trades st ++ [t]) st).
Hypothesis R_settle :
  forall now userId tradeId g env st,
    R st (processProfitSharing W now userId tradeId g env st).

Lemma backfill_steps now st : R st (backfill W now st).
Proof.
  unfold backfill.
  generalize (settledTradeIds st). generalize (filter isProfitableFilled (trades st)).
  intros ts. revert st. induction ts as [|t ts IH]; intros st settled;
    cbn [fold_left]; [apply R_refl|].
  unfold backfillStep at 2.
  destruct (existsb (String.eqb (Trade.id t)) settled); [apply IH|].
  eapply R_trans; [apply R_settle | apply IH].
Qed.

Lemma checkExchangePosition_steps symbol exchange product isTestnet k s st :
  R st (snd (checkExchangePosition W symbol exchange product isTestnet k s st)).
Proof.
  unfold checkExchangePosition, callApiM.
  destruct (String.eqb exchange "binance" && String.eqb product "futures").
  - assert (H : R st (set_trace
                        (trace st
                           ++ [BinanceApi "/fapi/v2/positionRisk" k s isTestnet
                                 product "GET" [("symbol", PStr symbol)]]) st))
      by (apply R_query; reflexivity).
    destruct (success _); [|exact H].
    destruct (data _); try exact H.
    destruct (find _ _); exact H.
  - destruct (String.eqb exchange "bybit"); [|apply R_refl].
    assert (H : R st (set_trace
                        (trace st
                           ++ [BybitApi "/v5/position/list" k s isTestnet "GET"
                                 [("category", PStr "linear");
                                  ("symbol", PStr symbol)]]) st))
      by (apply R_query; reflexivity).
    destruct (success _); [|exact H].
    destruct (data _) as [| |[|p l]|]; exact H.
Qed.

Lemma monitorPosition_steps now exchange product isTestnet k s st results j :
  R st (fst (monitorPosition W now exchange product isTestnet k s
               (st, results) j)).
Proof.
  unfold monitorPosition.
  destruct (nth_error (positions st) j) as [position|]; [|apply R_refl].
  pose proof (checkExchangePosition_steps (Position.symbol position) exchange
                product isTestnet k s st) as Hc.
  destruct (checkExchangePosition W (Position.symbol position) exchange product
              isTestnet k s st) as [exchangePos st1].
  cbn [fst snd] in Hc.
  match goal with
  | |- context [if JS.Qgtb (currentPrice exchangePos) 0 then ?a else st1] =>
      assert (Hm : R st1 (if JS.Qgtb (currentPrice exchangePos) 0
                          then a else st1));
      [destruct (JS.Qgtb (currentPrice exchangePos) 0); [|apply R_refl];
       destruct (JS.findIndex _ _); [apply R_mark | apply R_refl]
      |set (st2 := if JS.Qgtb (currentPrice exchangePos) 0 then a else st1)
         in *]
  end.
  assert (H2 : R st st2) by (eapply R_trans; eassumption).
  clearbody st2.
  destruct (negb (isOpen exchangePos)
            && match nth_error (positions st2) j with
               | Some p => Position.is_open p
               | None => false
               end); [|exact H2].
  unfold consoleLog.
  destruct (JS.findIndex _ _); cbn [fst];
    [|eapply R_trans; [exact H2 | apply R_console]].
  unfold freshUUID. cbn [fst snd].
  eapply R_trans; [|apply R_settle].
  eapply R_trans; [|apply R_trade; reflexivity].
  eapply R_trans; [|apply R_uuid].
  eapply R_trans; [|apply R_close].
  eapply R_trans; [exact H2 | apply R_console].
Qed.

Lemma monitorPosition_fold_steps now exchange product isTestnet k s group :
  forall st results,
    R st (fst (fold_left (monitorPosition W now exchange product isTestnet k s)
                 group (st, results))).
Proof.
  induction group as [|j group IH]; intros st results; cbn [fold_left];
    [apply R_refl|].
  pose proof (monitorPosition_steps now exchange product isTestnet k s st
                results j) as H.
  destruct (monitorPosition W now exchange product isTestnet k s (st, results) j)
    as [st1 results1].
  eapply R_trans; [exact H | apply IH].
Qed.

Lemma monitorGroup_steps now st results entry :
  R st (fst (monitorGroup W now (st, results) entry)).
Proof.
  unfold monitorGroup. destruct entry as [key group].
  destruct (credentialFor key st); [apply monitorPosition_fold_steps|].
  apply R_console.
Qed.

Lemma monitorGroup_fold_steps now groups :
  forall st results,
    R st (fst (fold_left (monitorGroup W now) groups (st, results))).
Proof.
  induction groups as [|entry groups IH]; intros st results; cbn [fold_left];
    [apply R_refl|].
  pose proof (monitorGroup_steps now st results entry) as H.
  destruct (monitorGroup W now (st, results) entry) as [st1 results1].
  eapply R_trans; [exact H | apply IH].
Qed.

Lemma positionMonitor_steps now st : R st (fst (positionMonitor W now st)).
Proof.
  unfold positionMonitor. unfold consoleLog at 1.
  assert (H1 : R st (backfill W now
                       (set_console (console st ++ ["Position monitor started..."])
                          st)))
    by (eapply R_trans; [apply R_console | apply backfill_steps]).
  set (st1 := backfill W now _) in *. clearbody st1.
  destruct (openPositions st1) as [|j js]; [exact H1|].
  unfold consoleLog.
  match goal with
  | |- context [fold_left ?f ?groups (?s, [])] =>
      pose proof (monitorGroup_fold_steps now groups s []) as Hf;
      destruct (fold_left f groups (s, [])) as [st2 results]
  end.
  cbn [fst snd] in *.
  eapply R_trans; [|apply R_console].
  eapply R_trans; [|exact Hf].
  eapply R_trans; [exact H1 | apply R_console].
Qed.

End MonitorSteps.

Section MonitorFacts.

Lemma onlyQueries_refl st : onlyQueries st st.
Proof. exists []. rewrite app_nil_r. auto. Qed.

Lemma onlyQueries_trans st1 st2 st3 :
  onlyQueries st1 st2 -> onlyQueries st2 st3 -> onlyQueries st1 st3.
Proof.
  intros (q1 & H1 & F1) (q2 & H2 & F2). exists (q1 ++ q2).
  rewrite H2, H1, app_assoc, forallb_app, F1, F2. auto.
Qed.

Lemma onlyQueries_same st st' : trace st' = trace st -> onlyQueries st st'.
Proof. intros H. exists []. rewrite app_nil_r. auto. Qed.

Lemma monitorFrame_refl st : monitorFrame st st.
Proof.
  unfold monitorFrame. repeat (split; [reflexivity|]).
  exists []. rewrite app_nil_r. auto.
Qed.

Lemma monitorFrame_trans st1 st2 st3 :
  monitorFrame st1 st2 -> monitorFrame st2 st3 -> monitorFrame st1 st3.
Proof.
  intros (A1 & B1 & C1 & D1 & E1 & t1 & T1 & F1)
         (A2 & B2 & C2 & D2 & E2 & t2 & T2 & F2).
  unfold monitorFrame. repeat (split; [congruence|]).
  exists (t1 ++ t2). rewrite T2, T1, app_assoc. split; [reflexivity|].
  apply Forall_app. auto.
Qed.

Lemma monitorFrame_same st st' :
  api_keys st' = api_keys st ->
  trading_strategies st' = trading_strategies st ->
  webhook_logs st' = webhook_logs st ->
  bot_status st' = bot_status st ->
  profiles st' = profiles st ->
  trades st' = trades st ->
  monitorFrame st st'.
Proof.
  intros. unfold monitorFrame. repeat (split; [assumption|]).
  exists []. rewrite app_nil_r. auto.
Qed.

Lemma sameHolding_refl p : sameHolding p p.
Proof. unfold sameHolding. repeat split; auto. Qed.

Lemma sameHolding_trans p1 p2 p3 :
  sameHolding p1 p2 -> sameHolding p2 p3 -> sameHolding p1 p3.
Proof.
  unfold sameHolding. intros H1 H2.
  decompose [and] H1. decompose [and] H2.
  repeat split; try congruence. auto.
Qed.

Lemma holdingsKept_refl st : holdingsKept st st.
Proof.
  unfold holdingsKept. induction (positions st); constructor;
    [apply sameHolding_refl | assumption].
Qed.

Lemma Forall2_trans {A : Type} (P : A -> A -> Prop) :
  (forall x y z, P x y -> P y z -> P x z) ->
  forall l1 l2 l3, Forall2 P l1 l2 -> Forall2 P l2 l3 -> Forall2 P l1 l3.
Proof.
  intros Ht l1 l2 l3 H. revert l3.
  induction H as [|x y l1 l2 Hxy _ IH]; intros l3 H2;
    inversion H2; subst; constructor; eauto.
Qed.

Lemma holdingsKept_trans st1 st2 st3 :
  holdingsKept st1 st2 -> holdingsKept st2 st3 -> holdingsKept st1 st3.
Proof. apply Forall2_trans. apply sameHolding_trans. Qed.

Lemma holdingsKept_same st st' :
  positions st' = positions st -> holdingsKept st st'.
Proof. unfold holdingsKept. intros ->. apply holdingsKept_refl. Qed.

Lemma Forall2_update {A : Type} (P : A -> A -> Prop) (f : A -> A) :
  (forall x, P x x) -> (forall x, P x (f x)) ->
  forall i l, Forall2 P l (JS.update i f l).
Proof.
  intros Hr Hf i l. revert i.
  induction l as [|a r IH]; intros [|i]; cbn; constructor; auto.
  clear IH. induction r; constructor; auto.
Qed.

Lemma holdingsKept_update i f st :
  (forall p, sameHolding p (f p)) ->
  holdingsKept st (set_positions (JS.update i f (positions st)) st).
Proof.
  intros Hf. unfold holdingsKept. destruct st. cbn.
  apply Forall2_update; [apply sameHolding_refl | exact Hf].
Qed.

Lemma Forall_update {A : Type} (P : A -> Prop) (f : A -> A) :
  (forall x, P x -> P (f x)) ->
  forall i l, Forall P l -> Forall P (JS.update i f l).
Proof.
  intros Hf i l H. revert i.
  induction H as [|a r Ha Hr IH]; intros [|i]; cbn; constructor; auto.
Qed.

End MonitorFacts.

(** ** Ticks served from the file *)

Section Ticks.

Variable W : World.
Hypothesis uuid_injective : supplyInjective W.

Lemma processProfitSharing_uuid now userId tradeId g env st :
  (next_uuid st
   <= next_uuid (processProfitSharing W now userId tradeId g env st))%nat.
Proof.
  apply (processProfitSharing_steps W
           (fun a b => (next_uuid a <= next_uuid b)%nat));
    try (intros; match goal with |- (_ <= next_uuid (_ ?a))%nat =>
                   destruct a; cbn; lia end).
  - intros. lia.
  - intros. lia.
Qed.

Lemma positionMonitor_uuid now st :
  (next_uuid st <= next_uuid (fst (positionMonitor W now st)))%nat.
Proof.
  apply (positionMonitor_steps W
           (fun a b => (next_uuid a <= next_uuid b)%nat));
    try (intros; match goal with |- (_ <= next_uuid (_ ?a))%nat =>
                   destruct a; cbn; lia end).
  - intros. lia.
  - intros. lia.
  - intros. apply processProfitSharing_uuid.
Qed.

(** A request that does not reach [safeWrite()] leaves the invariant of the
    file as it was: the supply has only moved on. *)
Lemma reloaded_inv st st' :
  settlementInv W st -> (next_uuid st <= next_uuid st')%nat ->
  settlementInv W (reloaded st st').
Proof.
  intros [Honce Hfresh] Hle. split.
  - intros id Hid. specialize (Honce id Hid). exact Honce.
  - eapply supplyFresh_mono; [exact Hfresh|exact Hle|reflexivity|].
    intros n _. reflexivity.
Qed.

Lemma positionMonitorServed_inv now st :
  settlementInv W st -> settlementInv W (positionMonitorServed W now st).
Proof.
  intros Hinv. unfold positionMonitorServed. cbv zeta.
  pose proof (positionMonitor_inv W uuid_injective now st Hinv) as H.
  pose proof (positionMonitor_uuid now st) as Hle.
  destruct (snd (positionMonitor W now st)); [|exact H].
  apply reloaded_inv; assumption.
Qed.

Lemma runTicks_inv nows :
  forall st, settlementInv W st -> settlementInv W (runTicks W nows st).
Proof.
  induction nows as [|now later IH]; intros st Hinv; simpl; [assumption|].
  apply IH, positionMonitorServed_inv. assumption.
Qed.

End Ticks.

Section FailedQuery.

Variable W : World.

(** A venue that fails the request, or is not one the monitor knows, is
    reported like a venue on which the position is gone. *)
Lemma checkExchangePosition_failed symbol exchange product isTestnet k s st :
  (forall r, success (callApi W (List.length (trace st)) r) = false) ->
  fst (checkExchangePosition W symbol exchange product isTestnet k s st)
  = notOnVenue.
Proof.
  intros Hfail. unfold checkExchangePosition, callApiM.
  destruct (String.eqb exchange "binance" && String.eqb product "futures").
  - rewrite Hfail. reflexivity.
  - destruct (String.eqb exchange "bybit"); [|reflexivity].
    rewrite Hfail. reflexivity.
Qed.

End FailedQuery.

Section AdminShare.

(** The commissions of a chain sum to at most one percent of the gross
    profit. *)
Lemma commissions_bound (g : Q) (chain : list (nat * Profile.t)) :
  0 < g ->
  map fst chain = seq 1 (List.length chain) ->
  (List.length chain <= 3)%nat ->
  0 <= Qsum (commissionsOf g chain)
  /\ Qsum (commissionsOf g chain) <= (1 # 100) * g.
Proof.
  intros Hg Hlv Hlen. unfold commissionsOf.
  assert (E : map (fun e : nat * Profile.t => g * rateOf (fst e)) chain
              = map (fun l => g * rateOf l) (map fst chain))
    by (rewrite map_map; reflexivity).
  rewrite E, Hlv.
  destruct (List.length chain) as [|[|[|[|n]]]]; try lia; cbn;
    unfold rateOf; cbn; split; lra.
Qed.

End AdminShare.

Section BackfillRows.

Variable W : World.

Lemma processProfitSharing_trades now userId tradeId g env st :
  trades (processProfitSharing W now userId tradeId g env st) = trades st.
Proof.
  apply (processProfitSharing_steps W (fun a b => trades b = trades a));
    try (intros; match goal with |- _ (_ ?a) = _ => destruct a end;
         reflexivity); [reflexivity | congruence].
Qed.

Lemma backfill_fold_rows now ts :
  forall st settled,
    (forall t, In t ts -> isProfitableFilled t = true) ->
    let r := fold_left (backfillStep W now) ts (st, settled) in
    exists rows,
      profit_settlements (fst r) = profit_settlements st ++ rows
      /\ Forall (fun s => exists t,
                   In t ts /\ settlementOf t s
                   /\ ~ In (Trade.id t) settled) rows
      /\ NoDup (map ProfitSettlement.trade_id rows).
Proof.
  induction ts as [|t ts IH]; intros st settled Hts; cbn [fold_left].
  - exists []. cbn. rewrite app_nil_r. repeat split; constructor.
  - unfold backfillStep at 2.
    destruct (existsb (String.eqb (Trade.id t)) settled) eqn:E.
    + destruct (IH st settled) as (rows & Hr & Hall & Hnd);
        [intros; apply Hts; right; assumption|].
      exists rows. split; [exact Hr|]. split; [|exact Hnd].
      eapply Forall_impl; [|exact Hall].
      intros s (t' & Hin & Hs & Hn). exists t'. split; [right|]; auto.
    + assert (Hnot : ~ In (Trade.id t) settled).
      { intros Hc. apply existsb_eqb_In in Hc. congruence. }
      pose proof (isProfitableFilled_pos t (Hts t (or_introl eq_refl))) as Hg.
      destruct (processProfitSharing_spec W now (Trade.user_id t) (Trade.id t)
                  (JS.orZero (Trade.realized_pnl t))
                  (JS.strOr (Trade.environment t) "testnet") st Hg)
        as ((s & Hs & Hu & Htid & Hgp & _) & _).
      destruct (IH (processProfitSharing W now (Trade.user_id t) (Trade.id t)
                      (JS.orZero (Trade.realized_pnl t))
                      (JS.strOr (Trade.environment t) "testnet") st)
                  (Trade.id t :: settled))
        as (rows & Hr & Hall & Hnd);
        [intros; apply Hts; right; assumption|].
      exists (s :: rows). rewrite Hr, Hs, <- app_assoc.
      split; [reflexivity|]. split.
      * constructor.
        -- exists t. split; [left; reflexivity|].
           split; [repeat split; assumption | exact Hnot].
        -- eapply Forall_impl; [|exact Hall].
           intros s' (t' & Hin & Hs' & Hn). exists t'.
           split; [right; exact Hin|]. split; [exact Hs'|].
           intros Hc. apply Hn. right. exact Hc.
      * cbn [map]. constructor; [|exact Hnd].
        intros Hin. apply in_map_iff in Hin as (s' & Heq & Hin').
        rewrite Forall_forall in Hall.
        destruct (Hall s' Hin') as (t' & _ & (_ & Htid' & _) & Hn).
        apply Hn. left. congruence.
Qed.

End BackfillRows.

Section TickFacts.

Variable W : World.

Lemma filter_index_length {A : Type} (p : A -> bool) (l : list A) :
  forall k,
    List.length
      (filter (fun i => match nth_error l (i - k) with
                        | Some x => p x
                        | None => false
                        end) (seq k (List.length l)))
    = List.length (filter p l).
Proof.
  induction l as [|a r IH]; intros k; [reflexivity|].
  cbn [List.length seq filter]. rewrite Nat.sub_diag. cbn [nth_error].
  assert (E : filter (fun i => match nth_error (a :: r) (i - k) with
                               | Some x => p x
                               | None => false
                               end) (seq (S k) (List.length r))
              = filter (fun i => match nth_error r (i - S k) with
                                 | Some x => p x
                                 | None => false
                                 end) (seq (S k) (List.length r))).
  { apply filter_ext_in. intros i Hi. apply in_seq in Hi.
    replace (i - k)%nat with (S (i - S k)) by lia. reflexivity. }
  rewrite E. destruct (p a); cbn [List.length]; rewrite IH; reflexivity.
Qed.

Lemma isAutoStrategy_mode (s : TradingStrategy.t) :
  isAutoStrategy s = activeAutoMode s.
Proof.
  unfold isAutoStrategy, activeAutoMode.
  destruct (TradingStrategy.auto_signal_enabled s) as [[|]|];
    rewrite andb_true_r; reflexivity.
Qed.

Lemma isAutoStrategy_withDefaults (s : TradingStrategy.t) :
  isAutoStrategy (if isAutoStrategy s then withDefaults s else s)
  = isAutoStrategy s.
Proof.
  destruct (isAutoStrategy s) eqn:E; [|exact E].
  rewrite <- E. reflexivity.
Qed.

(** A strategy that passes the checks of the tick. *)
Lemma strategyGate_passed (now : Z) (config : TradingStrategy.t) (st : State) :
  strategyGate W now config st = None ->
  isWithinTradingSession (tuningOf config) now = true
  /\ (exists k,
        In k (api_keys st)
        /\ ApiKey.user_id k = TradingStrategy.user_id config
        /\ ApiKey.exchange k = TradingStrategy.exchange config
        /\ ApiKey.product k = TradingStrategy.product config
        /\ ApiKey.environment k = TradingStrategy.environment config
        /\ ApiKey.is_active k = true)
  /\ (exists b,
        In b (bot_status st)
        /\ BotStatus.user_id b = TradingStrategy.user_id config
        /\ BotStatus.environment b = TradingStrategy.environment config
        /\ BotStatus.is_running b = true)
  /\ 0 < balanceOf st (TradingStrategy.user_id config)
           (TradingStrategy.environment config)
  /\ inject_Z (Z.of_nat (openPositionsOf (TradingStrategy.user_id config) st))
     < JS.orZero (TradingStrategy.max_positions config).
Proof.
  intros H. pose proof (strategyGate_gas W now config st H) as Hgas.
  revert H. unfold strategyGate. cbv zeta. intros H.
  repeat match type of H with
         | (if ?c then _ else _) = None =>
             destruct c eqn:?; [discriminate H|]
         end.
  clear H.
  repeat match goal with
         | E : match find ?p ?l with _ => _ end = false |- _ =>
             let x := fresh "x" in
             let Hx := fresh "Hx" in
             destruct (find p l) as [x|] eqn:Hx; [|discriminate E];
             apply find_some in Hx
         end.
  split.
  { match goal with
    | E : negb (isWithinTradingSession _ _) = false |- _ =>
        apply negb_false_iff in E; exact E
    end. }
  split.
  { match goal with
    | Hx : In ?k (api_keys st) /\ _ |- _ =>
        exists k; destruct Hx as [Hin Hp];
        repeat (apply andb_true_iff in Hp as [Hp ?]);
        repeat match goal with
               | E : String.eqb _ _ = true |- _ => apply String.eqb_eq in E
               end; auto 10
    end. }
  split.
  { match goal with
    | Hx : In ?b (bot_status st) /\ _ |- _ =>
        exists b; destruct Hx as [Hin Hp];
        repeat (apply andb_true_iff in Hp as [Hp ?]);
        apply String.eqb_eq in Hp
    end.
    match goal with
    | E : negb (BotStatus.is_running _) = false |- _ =>
        apply negb_false_iff in E
    end.
    match goal with
    | E : String.eqb (BotStatus.environment _) _ = true |- _ =>
        apply String.eqb_eq in E
    end.
    auto. }
  split; [exact Hgas|].
  match goal with
  | E : JS.Qgeb _ _ = false |- _ =>
      unfold JS.Qgeb in E; unfold openPositionsOf;
      apply Qnot_le_lt; intros Hle; apply Qle_bool_iff in Hle; congruence
  end.
Qed.

End TickFacts.

Lemma filter_map_length {A B : Type} (p : B -> bool) (f : A -> B)
    (l : list A) :
  List.length (filter p (map f l))
  = List.length (filter (fun x => p (f x)) l).
Proof.
  induction l as [|a r IH]; [reflexivity|]. cbn.
  destruct (p (f a)); cbn; rewrite IH; reflexivity.
Qed.

Section Formatting.

Lemma pow10_pos (decimals : nat) : 0 < inject_Z (10 ^ Z.of_nat decimals).
Proof.
  change 0 with (inject_Z 0). rewrite <- Zlt_Qlt.
  apply Z.pow_pos_nonneg; lia.
Qed.

Lemma Qfloor_nonpos (x : Q) : (Qfloor x <= 0)%Z <-> x < 1.
Proof.
  split; intros H.
  - pose proof (Qlt_floor x) as Hlt.
    assert (Hle : inject_Z (Qfloor x + 1) <= 1).
    { change 1 with (inject_Z 1). rewrite <- Zle_Qle. lia. }
    lra.
  - pose proof (Qfloor_le x) as Hle.
    assert (Hlt : inject_Z (Qfloor x) < inject_Z 1)
      by (change (inject_Z 1) with 1; lra).
    rewrite <- Zlt_Qlt in Hlt. lia.
Qed.

(** A quantity formats to nothing exactly when it is below one unit of the
    precision. *)
Lemma formatQty_None (value : Q) (decimals : nat) :
  formatQty value decimals = None
  <-> value * inject_Z (10 ^ Z.of_nat decimals) < 1.
Proof.
  unfold formatQty. cbv zeta.
  pose proof (pow10_pos decimals) as Hf.
  set (f := inject_Z (10 ^ Z.of_nat decimals)) in *.
  rewrite <- Qfloor_nonpos.
  destruct (JS.Qleb (inject_Z (Qfloor (value * f)) / f) 0) eqn:E;
    unfold JS.Qleb in E.
  - apply Qle_bool_iff in E. split; [intros _|reflexivity].
    assert (H : inject_Z (Qfloor (value * f)) <= inject_Z 0).
    { change (inject_Z 0) with 0.
      assert (Hm : inject_Z (Qfloor (value * f)) / f * f
                   == inject_Z (Qfloor (value * f)))
        by (field; lra).
      rewrite <- Hm. nra. }
    rewrite <- Zle_Qle in H. exact H.
  - split; [discriminate|]. intros H. exfalso.
    assert (Hle : inject_Z (Qfloor (value * f)) / f <= 0).
    { apply Qle_shift_div_r; [exact Hf|].
      assert (Hz : inject_Z (Qfloor (value * f)) <= inject_Z 0)
        by (rewrite <- Zle_Qle; exact H).
      change (inject_Z 0) with 0 in Hz. lra. }
    apply Qle_bool_iff in Hle. congruence.
Qed.

End Formatting.

Section FormattingLadder.

Lemma pow10_mono (a b : nat) :
  (a <= b)%nat ->
  inject_Z (10 ^ Z.of_nat a) <= inject_Z (10 ^ Z.of_nat b).
Proof.
  intros H. rewrite <- Zle_Qle. apply Z.pow_le_mono_r; lia.
Qed.

Lemma formatQty_None_coarser (value : Q) (decimals coarser : nat) :
  (coarser <= decimals)%nat ->
  formatQty value decimals = None -> formatQty value coarser = None.
Proof.
  intros Hle H. apply formatQty_None in H. apply formatQty_None.
  pose proof (pow10_pos coarser) as Hc.
  pose proof (pow10_mono coarser decimals Hle) as Hm.
  destruct (Qlt_le_dec value 0) as [Hneg|Hpos]; nra.
Qed.

Lemma stringsAt_nil (quantity : Q) (precisions : list nat) :
  Forall (fun d => formatQty quantity d = None) precisions ->
  stringsAt quantity precisions = [].
Proof.
  induction 1 as [|d ds Hd _ IH]; [reflexivity|].
  unfold stringsAt in *. cbn [flat_map]. rewrite Hd, IH. reflexivity.
Qed.

End FormattingLadder.

(** ** The webhook's requests *)

Section WebhookState.

Variable W : World.

Ltac trace_leaf :=
  match goal with st : State |- _ => destruct st end;
  eexists; reflexivity.

Lemma getAccountBalance_state exchange product environment k s st :
  exists tr,
    snd (getAccountBalance W exchange product environment k s st)
    = set_trace tr st.
Proof.
  unfold getAccountBalance, callApiM. cbv zeta.
  destruct (String.eqb exchange "binance").
  - destruct (success _); [|trace_leaf].
    destruct (data _); try trace_leaf.
    destruct (String.eqb product "futures"); trace_leaf.
  - destruct (String.eqb exchange "bybit"); [|trace_leaf].
    destruct (success _); [|trace_leaf].
    destruct (data _); trace_leaf.
Qed.

Lemma calculatePositionSize_state strategy currentPrice k s st :
  exists tr,
    snd (calculatePositionSize W strategy currentPrice k s st)
    = set_trace tr st.
Proof.
  unfold calculatePositionSize. cbv zeta.
  destruct (String.eqb (TradingStrategy.position_size_type strategy) "fixed");
    [trace_leaf|].
  destruct (getAccountBalance_state (TradingStrategy.exchange strategy)
              (TradingStrategy.product strategy)
              (TradingStrategy.environment strategy) k s st) as [tr Htr].
  destruct (getAccountBalance W _ _ _ k s st) as [balance st1].
  cbn [snd] in Htr. subst st1.
  destruct (_ && _); cbn [snd]; exists tr; reflexivity.
Qed.

Lemma webhookTakeProfits_state place isBuy price roundedQty levels :
  forall st,
    exists tr,
      snd (webhookTakeProfits W place isBuy price roundedQty levels st)
      = set_trace tr st.
Proof.
  induction levels as [|[[enabled percent] closePercent] levels IH]; intros st;
    cbn [webhookTakeProfits]; [trace_leaf|].
  destruct (negb enabled); [apply IH|].
  destruct (positive _); [|apply IH].
  unfold callApiM. cbn [fst snd].
  destruct (success _); [|trace_leaf].
  match goal with
  | |- context [webhookTakeProfits W place isBuy price roundedQty levels ?s] =>
      destruct (IH s) as [tr Htr]
  end.
  rewrite Htr. trace_leaf.
Qed.

Lemma executeTrade_state strategy alert k s st :
  exists tr, snd (executeTrade W strategy alert k s st) = set_trace tr st.
Proof.
  unfold executeTrade. cbv zeta.
  assert (Hq : exists tr q,
            (if truthyNum (Alert.quantity alert)
             then (Finite (JS.orZero (Alert.quantity alert)), st)
             else calculatePositionSize W strategy
                    (JS.orZero (Alert.price alert)) k s st)
            = (q, set_trace tr st)).
  { destruct (truthyNum (Alert.quantity alert)).
    - exists (trace st). eexists. destruct st; reflexivity.
    - destruct (calculatePositionSize_state strategy
                  (JS.orZero (Alert.price alert)) k s st) as [tr Htr].
      destruct (calculatePositionSize W strategy _ k s st) as [q st1].
      cbn [snd] in Htr. subst st1. exists tr, q. reflexivity. }
  destruct Hq as (tr0 & q & Hq). rewrite Hq. clear Hq.
  destruct (nonPositive (floorQuantity q)); [exists tr0; reflexivity|].
  unfold callApiM. cbn [fst snd].
  destruct (String.eqb (TradingStrategy.exchange strategy) "binance"
            && String.eqb (TradingStrategy.product strategy) "futures").
  - match goal with
    | |- context [match ?lev with Some _ => _ | None => _ end] =>
        destruct lev as [lev'|]; [|exists tr0; reflexivity]
    end.
    destruct (negb (success _)); [trace_leaf|].
    destruct (JS.Qgtb (JS.orZero (Alert.price alert)) 0);
      [|destruct (data _) as [|[o|]| |]; trace_leaf].
    destruct (negb (success _)); [trace_leaf|].
    match goal with
    | |- context [webhookTakeProfits W ?p ?b ?pr ?rq ?lv ?s'] =>
        destruct (webhookTakeProfits_state p b pr rq lv s') as [trx Hx];
        destruct (webhookTakeProfits W p b pr rq lv s') as [failed stx];
        cbn [snd] in Hx; subst stx
    end.
    destruct failed; [trace_leaf|].
    destruct (_ && _).
    + destruct (negb (success _)); [trace_leaf|].
      destruct (data _) as [|[o|]| |]; trace_leaf.
    + destruct (data _) as [|[o|]| |]; trace_leaf.
  - destruct (String.eqb (TradingStrategy.exchange strategy) "bybit");
      [|exists tr0; reflexivity].
    match goal with
    | |- context [match ?lev with Some _ => _ | None => _ end] =>
        destruct lev as [lev'|]; [|exists tr0; reflexivity]
    end.
    destruct (negb (success _)); [trace_leaf|].
    destruct (JS.Qgtb (JS.orZero (Alert.price alert)) 0); [|trace_leaf].
    match goal with
    | |- context [webhookTakeProfits W ?p ?b ?pr ?rq ?lv ?s'] =>
        destruct (webhookTakeProfits_state p b pr rq lv s') as [trx Hx];
        destruct (webhookTakeProfits W p b pr rq lv s') as [failed stx];
        cbn [snd] in Hx; subst stx
    end.
    destruct failed; [trace_leaf|].
    destruct (_ && _); [|trace_leaf].
    destruct (negb (success _)); trace_leaf.
Qed.

Lemma alertGate_state now strategy alert st :
  exists tr, snd (alertGate W now strategy alert st) = set_trace tr st.
Proof.
  unfold alertGate, getBookTickerM. cbv zeta.
  repeat match goal with
         | |- context [if ?c then (Some _, st) else _] =>
             destruct c; [trace_leaf|]
         end.
  destruct (_ || _); [|trace_leaf].
  cbn [fst snd].
  destruct (getBookTicker W _ _) as [[bid ask]|]; [|trace_leaf].
  repeat match goal with
         | |- context [if ?c then (Some _, _) else _] =>
             destruct c; [trace_leaf|]
         end.
  trace_leaf.
Qed.

End WebhookState.

(** ** What the webhook's executor sends *)

Section Sends.

Variable W : World.
Variable P : Request -> bool.

Lemma sends_refl (st : State) : sends P st st.
Proof. exists []. rewrite set_trace_nil. split; reflexivity. Qed.

Lemma sends_snoc (st st1 : State) (r : Request) :
  sends P st st1 -> P r = true ->
  sends P st (set_trace (trace st1 ++ [r]) st1).
Proof.
  intros (rs & -> & Hrs) Hr. exists (rs ++ [r]). split.
  - destruct st. unfold set_trace. cbn. rewrite app_assoc. reflexivity.
  - rewrite forallb_app, Hrs. cbn. rewrite Hr. reflexivity.
Qed.

Lemma sends_trans (st st1 st2 : State) :
  sends P st st1 -> sends P st1 st2 -> sends P st st2.
Proof.
  intros (rs & -> & Hrs) (rs' & -> & Hrs'). exists (rs ++ rs'). split.
  - destruct st. unfold set_trace. cbn. rewrite app_assoc. reflexivity.
  - rewrite forallb_app, Hrs, Hrs'. reflexivity.
Qed.

Lemma webhookTakeProfits_sends place isBuy price roundedQty levels :
  (forall p c,
     positive (floorQuantity (scale roundedQty c)) = true ->
     P (place p (floorQuantity (scale roundedQty c))) = true) ->
  forall st,
    sends P st (snd (webhookTakeProfits W place isBuy price roundedQty levels
                       st)).
Proof.
  intros Hplace.
  induction levels as [|[[enabled percent] closePercent] levels IH]; intros st;
    cbn [webhookTakeProfits]; [apply sends_refl|].
  destruct (negb enabled); [apply IH|].
  destruct (positive _) eqn:Hpos; [|apply IH].
  unfold callApiM. cbn [fst snd].
  assert (Hstep : sends P st
                    (set_trace
                       (trace st
                        ++ [place (above isBuy price percent)
                              (floorQuantity
                                 (scale roundedQty (closePercent / 100)))])
                       st))
    by (apply sends_snoc; [apply sends_refl|apply Hplace; exact Hpos]).
  destruct (success _); [|exact Hstep].
  eapply sends_trans; [exact Hstep|apply IH].
Qed.

End Sends.

Lemma clampNumber_range (value lo hi : Q) :
  lo <= hi -> lo <= clampNumber value lo hi <= hi.
Proof.
  intros H. unfold clampNumber, Qmin2, Qmax2.
  destruct (Qle_bool lo value) eqn:E1.
  - apply Qle_bool_iff in E1.
    destruct (Qle_bool hi value) eqn:E2.
    + split; [exact H|apply Qle_refl].
    + split; [exact E1|]. apply Qlt_le_weak, Qnot_le_lt. intros Hle.
      apply Qle_bool_iff in Hle. congruence.
  - destruct (Qle_bool hi lo) eqn:E2.
    + split; [exact H|apply Qle_refl].
    + split; [apply Qle_refl|exact H].
Qed.

Lemma divide_finite (x y : Q) :
  Qeq_bool y 0 = false -> divide x y = Finite (x / y).
Proof. intros H. unfold divide. rewrite H. reflexivity. Qed.

(** The size of the entry order. *)
Lemma entry_size_ok (strict : bool) (q : Quantity) :
  (strict = true -> exists f, q = Finite f) ->
  nonPositive (floorQuantity q) = false ->
  sizeOk strict (Some (quantityParam (floorQuantity q))) = true.
Proof.
  intros Hfin Hpos.
  destruct q as [f| | |]; cbn in *.
  - unfold JS.Qgtb. unfold JS.Qleb in Hpos. rewrite Hpos. reflexivity.
  - destruct strict; [destruct (Hfin eq_refl); discriminate|reflexivity].
  - discriminate.
  - destruct strict; [destruct (Hfin eq_refl); discriminate|reflexivity].
Qed.

(** The size of a take-profit order. *)
Lemma part_size_ok (strict : bool) (q : Quantity) (c : Q) :
  (strict = true -> exists f, q = Finite f) ->
  positive (floorQuantity (scale (floorQuantity q) c)) = true ->
  sizeOk strict
    (Some (quantityParam (floorQuantity (scale (floorQuantity q) c)))) = true.
Proof.
  intros Hfin Hpos.
  destruct q as [f| | |]; cbn in *.
  - exact Hpos.
  - destruct strict; [destruct (Hfin eq_refl); discriminate|].
    destruct (JS.Qgtb c 0); [reflexivity|].
    destruct (JS.Qltb c 0); discriminate.
  - destruct strict; [destruct (Hfin eq_refl); discriminate|].
    destruct (JS.Qgtb c 0); [discriminate|].
    destruct (JS.Qltb c 0); [reflexivity|discriminate].
  - discriminate.
Qed.

Section SoundOrders.

Variable W : World.
Variable strict : bool.

Ltac sound_request :=
  unfold soundOrder, paramOf, withPositionSide;
  repeat match goal with
         | |- context [if ?c then [] else [_]] => destruct c
         | |- context [if ?c then [_] else []] => destruct c
         end;
  cbn -[sizeOk quantityParam floorQuantity scale];
  repeat match goal with
         | |- context [sizeOk ?s None] => change (sizeOk s None) with true
         end;
  repeat match goal with
         | H : ?b = true |- context [?b] => rewrite H
         end;
  try reflexivity.

Lemma getAccountBalance_sends exchange product environment k s st :
  sends (soundOrder strict) st
    (snd (getAccountBalance W exchange product environment k s st)).
Proof.
  unfold getAccountBalance, callApiM. cbv zeta.
  destruct (String.eqb exchange "binance").
  - assert (Hstep : forall r, soundOrder strict r = true ->
                      sends (soundOrder strict) st (set_trace (trace st ++ [r]) st))
      by (intros r Hr; apply sends_snoc; [apply sends_refl|exact Hr]).
    destruct (String.eqb product "futures"); cbn [fst snd];
      destruct (success _); try (apply Hstep; sound_request);
      destruct (data _); cbn [snd]; apply Hstep; sound_request.
  - destruct (String.eqb exchange "bybit"); [|apply sends_refl].
    cbn [fst snd].
    assert (Hstep : forall r, soundOrder strict r = true ->
                      sends (soundOrder strict) st (set_trace (trace st ++ [r]) st))
      by (intros r Hr; apply sends_snoc; [apply sends_refl|exact Hr]).
    destruct (success _); [|apply Hstep; sound_request].
    destruct (data _); cbn [snd]; apply Hstep; sound_request.
Qed.

Lemma calculatePositionSize_sends strategy currentPrice k s st :
  sends (soundOrder strict) st
    (snd (calculatePositionSize W strategy currentPrice k s st)).
Proof.
  unfold calculatePositionSize. cbv zeta.
  destruct (String.eqb (TradingStrategy.position_size_type strategy) "fixed");
    [apply sends_refl|].
  pose proof (getAccountBalance_sends (TradingStrategy.exchange strategy)
                (TradingStrategy.product strategy)
                (TradingStrategy.environment strategy) k s st) as H.
  destruct (getAccountBalance W _ _ _ k s st) as [balance st1].
  destruct (_ && _); exact H.
Qed.

Lemma calculatePositionSize_finite strategy currentPrice k s st :
  Qeq_bool currentPrice 0 = false ->
  exists f,
    fst (calculatePositionSize W strategy currentPrice k s st) = Finite f.
Proof.
  intros Hp. unfold calculatePositionSize. cbv zeta.
  destruct (String.eqb (TradingStrategy.position_size_type strategy) "fixed").
  - rewrite (divide_finite _ _ Hp). eexists. reflexivity.
  - destruct (getAccountBalance W _ _ _ k s st) as [balance st1].
    destruct (_ && _); cbn [fst]; [eexists; reflexivity|].
    rewrite (divide_finite _ _ Hp). eexists. reflexivity.
Qed.

Ltac sent :=
  repeat first
    [ apply sends_refl
    | assumption
    | apply sends_snoc; [|sound_request]
    | match goal with
      | H : sends (soundOrder strict) ?a ?b |- sends (soundOrder strict) _ ?b =>
          eapply sends_trans; [|exact H]
      end ].

Lemma executeTrade_sends strategy alert k s st :
  strict = sized alert ->
  sends (soundOrder strict) st (snd (executeTrade W strategy alert k s st)).
Proof.
  intros Hstrict. unfold executeTrade. cbv zeta.
  assert (Hq : exists q stq,
            (if truthyNum (Alert.quantity alert)
             then (Finite (JS.orZero (Alert.quantity alert)), st)
             else calculatePositionSize W strategy
                    (JS.orZero (Alert.price alert)) k s st)
            = (q, stq)
            /\ sends (soundOrder strict) st stq
            /\ (strict = true -> exists f, q = Finite f)).
  { unfold sized in Hstrict.
    destruct (truthyNum (Alert.quantity alert)).
    - eexists. eexists. split; [reflexivity|]. split; [apply sends_refl|].
      intros _. eexists. reflexivity.
    - pose proof (calculatePositionSize_sends strategy
                    (JS.orZero (Alert.price alert)) k s st) as H.
      pose proof (calculatePositionSize_finite strategy
                    (JS.orZero (Alert.price alert)) k s st) as Hf.
      destruct (calculatePositionSize W strategy _ k s st) as [q st1].
      exists q, st1. split; [reflexivity|]. split; [exact H|].
      intros Hs. apply Hf. cbn [orb] in Hstrict. rewrite Hs in Hstrict.
      destruct (Alert.price alert) as [p|]; [|discriminate].
      cbn in Hstrict |- *. symmetry in Hstrict.
      apply negb_true_iff in Hstrict. exact Hstrict. }
  destruct Hq as (q & stq & Hq & Hsq & Hfin). rewrite Hq. clear Hq.
  destruct (nonPositive (floorQuantity q)) eqn:Hpos; [exact Hsq|].
  pose proof (entry_size_ok strict q Hfin Hpos) as Hentry.
  assert (Hpart : forall c,
            positive (floorQuantity (scale (floorQuantity q) c)) = true ->
            sizeOk strict
              (Some (quantityParam
                       (floorQuantity (scale (floorQuantity q) c)))) = true)
    by (intros c; apply part_size_ok; exact Hfin).
  pose proof (clampNumber_range
                (orElse (TradingStrategy.trailing_stop_callback strategy)
                   (2 # 10)) (1 # 10) 5 ltac:(discriminate)) as [Hlo Hhi].
  apply Qleb_true in Hlo, Hhi.
  unfold callApiM. cbn [fst snd].
  destruct (String.eqb (TradingStrategy.exchange strategy) "binance"
            && String.eqb (TradingStrategy.product strategy) "futures").
  - match goal with
    | |- context [match ?lev with Some _ => _ | None => _ end] =>
        destruct lev as [lev'|]; [|exact Hsq]
    end.
    destruct (negb (success _)); [sent|].
    destruct (JS.Qgtb (JS.orZero (Alert.price alert)) 0);
      [|destruct (data _) as [|[o|]| |]; sent].
    destruct (negb (success _)); [sent|].
    match goal with
    | |- context [webhookTakeProfits W ?p ?b ?pr ?rq ?lv ?s'] =>
        assert (Hx : sends (soundOrder strict) s'
                       (snd (webhookTakeProfits W p b pr rq lv s')))
          by (apply webhookTakeProfits_sends; intros tp c Htq;
              pose proof (Hpart c Htq); sound_request);
        destruct (webhookTakeProfits W p b pr rq lv s') as [failed stx];
        cbn [snd] in Hx
    end.
    assert (Hsx : sends (soundOrder strict) st stx)
      by (eapply sends_trans; [|exact Hx]; sent).
    clear Hx.
    destruct failed; [exact Hsx|].
    destruct (_ && _).
    + destruct (negb (success _));
        [|destruct (data _) as [|[o|]| |]];
        (apply sends_snoc; [exact Hsx|]; sound_request).
    + destruct (data _) as [|[o|]| |]; exact Hsx.
  - destruct (String.eqb (TradingStrategy.exchange strategy) "bybit");
      [|exact Hsq].
    match goal with
    | |- context [match ?lev with Some _ => _ | None => _ end] =>
        destruct lev as [lev'|]; [|exact Hsq]
    end.
    destruct (negb (success _)); [sent|].
    destruct (JS.Qgtb (JS.orZero (Alert.price alert)) 0);
      [|sent].
    match goal with
    | |- context [webhookTakeProfits W ?p ?b ?pr ?rq ?lv ?s'] =>
        assert (Hx : sends (soundOrder strict) s'
                       (snd (webhookTakeProfits W p b pr rq lv s')))
          by (apply webhookTakeProfits_sends; intros tp c Htq;
              pose proof (Hpart c Htq); sound_request);
        destruct (webhookTakeProfits W p b pr rq lv s') as [failed stx];
        cbn [snd] in Hx
    end.
    assert (Hsx : sends (soundOrder strict) st stx)
      by (eapply sends_trans; [|exact Hx]; sent).
    clear Hx.
    destruct failed; [exact Hsx|].
    destruct (_ && _); [|exact Hsx].
    destruct (negb (success _));
      (apply sends_snoc; [exact Hsx|]; sound_request).
Qed.

End SoundOrders.

(** ** The MACD series *)

Lemma calculateEMA_length {num : Type} (A : Arith num) (prices : list num)
    (period : nat) :
  List.length (calculateEMA A prices period)
  = if (List.length prices <? period)%nat then 0%nat
    else (List.length prices - period + 1)%nat.
Proof.
  unfold calculateEMA.
  destruct (List.length prices <? period)%nat eqn:E; [reflexivity|].
  cbv zeta. cbn [List.length]. rewrite emaLoop_length, length_skipn. lia.
Qed.

(** ** The referral chain *)

Lemma referralWalk_shape (profiles : list Profile.t) (n : nat) :
  forall level start,
    Forall (fun e => In (snd e) profiles)
      (referralWalk profiles n level (Some start))
    /\ linkedFrom start
         (map snd (referralWalk profiles n level (Some start))).
Proof.
  induction n as [|n IH]; intros level start; cbn [referralWalk];
    [split; constructor|].
  destruct (Profile.referrer_id start) as [r|] eqn:Hr; cbn [JS.truthy];
    [|split; constructor].
  destruct (negb (String.eqb r EmptyString)); [|split; constructor].
  destruct (find _ profiles) as [rp|] eqn:Hfind; [|split; constructor].
  apply find_some in Hfind as [Hin Hid]. apply String.eqb_eq in Hid.
  destruct (IH (S level) rp) as [H1 H2].
  split.
  - constructor; [exact Hin|exact H1].
  - cbn [map snd linkedFrom]. split; [rewrite Hid; exact Hr|exact H2].
Qed.

(** * The claims *)



(** C4. When the owner's user id contains a hyphen (every id drawn by
    [crypto.randomUUID()] does), the credential the reconciler finds for the
    position's group is never a credential of that owner: the group key is
    split at its hyphens and the lookup is made with the first piece of the
    owner's id. *)
Theorem owner_credential_not_found
    (st : State) (pos : Position.t) (k : ApiKey.t) :
  hasChar "-" (Position.user_id pos) = true ->
  ApiKey.user_id k = Position.user_id pos ->
  credentialFor (groupKey pos) st <> Some k.
Proof.
  intros Hhyphen Howner Hfound. unfold credentialFor in Hfound.
  apply find_some in Hfound as [_ Hp].
  repeat (apply andb_true_iff in Hp as [Hp ?]).
  apply String.eqb_eq in Hp.
  pose proof (split_head_no_sep "-" (groupKey pos)) as Hhead.
  rewrite <- Hp, Howner, Hhyphen in Hhead. discriminate.
Qed.

Lemma owner_credential_not_found_witness :
  let owner := "3f2b8c1e-aaaa-bbbb-cccc-0123456789ab" in
  let st := onePositionState owner in
  let st' := fst (positionMonitor quietWorld 17 st) in
  hasChar "-" owner = true
  /\ ApiKey.user_id (futuresKey owner) = owner
  /\ In (futuresKey owner) (api_keys st)
  /\ credentialFor (groupKey (longBTC "p1" owner)) st <> Some (futuresKey owner)
  /\ credentialFor (groupKey (longBTC "p1" owner)) st = None
  /\ positions st' = positions st
  /\ trace st' = []
  /\ In ("No API keys found for " ++ owner ++ "-binance-testnet")%string
       (console st').
Proof.
  cbv zeta.
  split; [reflexivity|]. split; [reflexivity|]. split; [left; reflexivity|].
  split.
  { apply (owner_credential_not_found
             (onePositionState "3f2b8c1e-aaaa-bbbb-cccc-0123456789ab")
             (longBTC "p1" "3f2b8c1e-aaaa-bbbb-cccc-0123456789ab")
             (futuresKey "3f2b8c1e-aaaa-bbbb-cccc-0123456789ab"));
      reflexivity. }
  split; [reflexivity|]. split; [reflexivity|]. split; [reflexivity|].
  vm_compute. tauto.
Defined.

(** C2. A settlement with gross profit [g > 0] records a row with fee
    [0.3 g] and net [0.7 g]; appends a "service_fee" ledger row of amount
    [- 0.3 g] for the trading user, whose balance snapshot goes from the
    user's balance to that balance minus the fee; for each level [k] present
    in the referral chain (levels are 1, 2, 3 in order, at most three) it
    records a commission of [g * rate k] marked paid, with rates 0.005, 0.003
    and 0.002, and a matching ledger row; every account ends with its former
    balance, minus the fee if it is the trader's, plus the commissions it was
    paid; and the admin-earning row carries
    [admin_share = fee - sum of the commissions]. *)
Theorem settlement_amounts
    (W : World) (now : Z) (userId tradeId : string) (g : Q) (env : string)
    (st : State) :
  0 < g ->
  let st' := processProfitSharing W now userId tradeId g env st in
  let chain := getReferralChain userId st in
  let fee := g * SERVICE_FEE_RATE in
  SERVICE_FEE_RATE = 3 # 10
  /\ (exists s,
        profit_settlements st' = profit_settlements st ++ [s]
        /\ ProfitSettlement.trade_id s = Some tradeId
        /\ ProfitSettlement.gross_profit s = g
        /\ ProfitSettlement.service_fee_amount s == (3 # 10) * g
        /\ ProfitSettlement.net_profit s == (7 # 10) * g)
  /\ (exists t txs,
        gas_fee_transactions st' = gas_fee_transactions st ++ t :: txs
        /\ txView t = (userId, - fee, "service_fee", Some tradeId, env)
        /\ GasFeeTransaction.balance_before t = balanceOf st userId env
        /\ GasFeeTransaction.balance_after t = balanceOf st userId env - fee
        /\ map txView txs = map (expectedCommissionTx tradeId g env) chain
        /\ Forall ledgerConsistent (t :: txs))
  /\ map fst chain = seq 1 (List.length chain)
  /\ (List.length chain <= 3)%nat
  /\ map rateOf [1; 2; 3]%nat = [5 # 1000; 3 # 1000; 2 # 1000]
  /\ map commissionView (referral_commissions st')
     = map commissionView (referral_commissions st)
         ++ map (expectedCommission userId tradeId g) chain
  /\ (forall u e,
        balanceOf st' u e
        == balanceOf st u e - debitedFrom userId env fee u e
           + creditedTo env g chain u e)
  /\ (exists a,
        admin_earnings st' = admin_earnings st ++ [a]
        /\ AdminEarning.total_service_fee a = fee
        /\ AdminEarning.referral_commissions_paid a
           == Qsum (commissionsOf g chain)
        /\ AdminEarning.admin_share a == fee - Qsum (commissionsOf g chain)).
Proof.
  intros Hg st' chain fee.
  destruct (processProfitSharing_spec W now userId tradeId g env st Hg)
    as ((s & Hs & _ & Htid & Hgp & _ & Hfee & Hnet) & Htx & Hcom
        & (a & Ha & _ & _ & _ & Hatot & Hapaid & Hashare) & Hbal & _).
  destruct (getReferralChain_levels userId st) as [Hlv Hlen].
  split; [reflexivity|].
  split.
  { exists s. repeat split; try assumption.
    - rewrite Hfee. unfold SERVICE_FEE_RATE. ring.
    - rewrite Hnet. unfold SERVICE_FEE_RATE. ring. }
  split; [exact Htx|].
  split; [exact Hlv|]. split; [exact Hlen|]. split; [reflexivity|].
  split; [exact Hcom|]. split; [exact Hbal|].
  exists a. auto.
Qed.

Lemma settlement_amounts_witness :
  let st' :=
    processProfitSharing quietWorld 17 "alice" "T1" 1000 "testnet"
      referralState in
  0 < 1000
  /\ map (fun e => (fst e, Profile.user_id (snd e)))
       (getReferralChain "alice" referralState)
     = [(1%nat, "bob"); (2%nat, "carol")]
  /\ balanceOf referralState "alice" "testnet" - balanceOf st' "alice" "testnet"
     == 300
  /\ balanceOf st' "bob" "testnet" - balanceOf referralState "bob" "testnet"
     == 5
  /\ balanceOf st' "carol" "testnet" - balanceOf referralState "carol" "testnet"
     == 3
  /\ (exists a,
        admin_earnings st' = [a] /\ AdminEarning.admin_share a == 292).
Proof.
  cbv zeta.
  destruct (settlement_amounts quietWorld 17 "alice" "T1" 1000 "testnet"
              referralState eq_refl)
    as (_ & _ & _ & _ & _ & _ & _ & Hbal & (a & Ha & _ & _ & Hshare)).
  split; [reflexivity|]. split; [reflexivity|].
  split; [rewrite (Hbal "alice" "testnet"); vm_compute; reflexivity|].
  split; [rewrite (Hbal "bob" "testnet"); vm_compute; reflexivity|].
  split; [rewrite (Hbal "carol" "testnet"); vm_compute; reflexivity|].
  exists a. split; [exact Ha|]. rewrite Hshare. vm_compute. reflexivity.
Defined.

(** C1, as amended.  Under a UUID supply that never repeats and has not yet
    produced the id of a recorded trade or settlement, every sequence of
    ticks of the position monitor, backfill included, keeps at most one
    ProfitSettlement row per non-empty trade id, from any state that has at
    most one.  And where no filled trade with a positive realized PnL has
    the empty id, the tick's settlement pass run once more over its own
    result changes nothing.  [processProfitSharing] itself makes no such
    check: the guard is the caller's set of settled ids, which leaves the
    empty id out. *)
Theorem settlement_once_per_trade
    (W : World) (st : State) (nows : list Z) :
  supplyInjective W ->
  settledOnce st ->
  supplyFresh W st ->
  let st' := runTicks W nows st in
  settledOnce st'
  /\ forall now now',
       (forall t, In t (trades st') -> isProfitableFilled t = true ->
          Trade.id t <> "") ->
       backfill W now' (backfill W now st') = backfill W now st'.
Proof.
  intros Hinj Honce Hfresh st'.
  assert (Hinv : settlementInv W st') by (apply runTicks_inv; [|split]; assumption).
  split; [apply Hinv|].
  intros now now' Hne. apply backfill_idempotent; assumption.
Qed.

Lemma settlement_once_per_trade_witness :
  let st := onePositionState "alice" in
  let st' := runTicks flatWorld [17; 18]%Z st in
  supplyInjective flatWorld
  /\ settledOnce st
  /\ supplyFresh flatWorld st
  /\ settledOnce st'
  /\ map Trade.id (trades st') = ["u"]
  /\ settlementsFor "u" st' = 1%nat
  /\ backfill flatWorld 19 st' = st'.
Proof.
  cbv zeta.
  assert (Hinj : supplyInjective flatWorld)
    by (intros m n H; apply unaryUUID_injective; exact H).
  assert (Honce : settledOnce (onePositionState "alice"))
    by (intros id _; apply Nat.le_0_l).
  assert (Hfresh : supplyFresh flatWorld (onePositionState "alice"))
    by (intros n _; split; [reflexivity|intros t []]).
  destruct (settlement_once_per_trade flatWorld (onePositionState "alice")
              [17; 18]%Z Hinj Honce Hfresh) as [H1 H2].
  split; [exact Hinj|]. split; [exact Honce|]. split; [exact Hfresh|].
  split; [exact H1|]. split; [reflexivity|]. split; [reflexivity|].
  vm_compute. reflexivity.
Defined.

(** C1, the claim as stated, fails for a trade whose id is the empty string.
    With an open position in the file - here one the monitor skips for want
    of a credential - each tick reaches [safeWrite()]: from a file with no
    settlement row at all, two ticks leave two rows for that trade and take
    the fee from the trader twice.  (With no open position the handler
    returns before [safeWrite()] and the rows of its backfill never reach
    the file.) *)
Lemma settlement_twice_for_empty_id :
  let st1 := runTicks quietWorld [1]%Z emptyIdHeldState in
  let st2 := runTicks quietWorld [1; 2]%Z emptyIdHeldState in
  profit_settlements emptyIdHeldState = []
  /\ map Position.is_open (positions st2) = [true]
  /\ settlementsFor "" st1 = 1%nat
  /\ ~ (settlementsFor "" st2 <= 1)%nat
  /\ balanceOf st1 "alice" "testnet" == - 3
  /\ balanceOf st2 "alice" "testnet" == - 6
  /\ List.length (gas_fee_transactions st2) = 2%nat
  /\ List.length (admin_earnings st2) = 2%nat
  /\ profit_settlements (runTicks quietWorld [1; 2]%Z emptyIdState) = [].
Proof.
  cbv zeta. split; [reflexivity|]. split; [reflexivity|].
  split; [reflexivity|]. split; [vm_compute; lia|].
  split; [vm_compute; reflexivity|]. split; [vm_compute; reflexivity|].
  split; [reflexivity|]. split; reflexivity.
Qed.

(** C9, what the code does.  For a period of at least 1, at every output
    index of [calculateRSI] where the smoothed average loss is zero the value
    returned is [100 - 100 / (1 + 100) = 10000 / 101] (about 99.0099), which is
    not 100: the zero-loss case sets the relative strength [rs], not the RSI,
    to 100.  So the RSI of every strictly increasing series is constantly
    [10000 / 101]. *)
Theorem rsi_zero_loss_is_not_100 (prices : list Q) (period : nat) :
  (0 < period)%nat ->
  (forall i avgGain avgLoss,
     nth_error (wilderAverages exact prices period) i = Some (avgGain, avgLoss) ->
     avgLoss == 0 ->
     exists r,
       nth_error (calculateRSI exact prices period) i = Some r
       /\ r == 10000 # 101)
  /\ (strictlyIncreasing prices ->
      Forall (fun r => r == 10000 # 101) (calculateRSI exact prices period))
  /\ ~ (10000 # 101 == 100).
Proof.
  intros _. split; [|split].
  - intros i avgGain avgLoss Hi Hz. rewrite calculateRSI_wilder.
    rewrite nth_error_map, Hi. simpl. eexists. split; [reflexivity|].
    apply rsiValue_zero_loss. assumption.
  - intros Hinc. rewrite calculateRSI_wilder.
    pose proof (increasing_zero_loss prices period Hinc) as H.
    induction H as [|p l Hp _ IH]; simpl; constructor; [|assumption].
    apply rsiValue_zero_loss. assumption.
  - intros H. vm_compute in H. discriminate.
Qed.

(** The prices 1, ..., 16 with period 14: one output, from an average gain
    of 1 and an average loss of 0; in binary64 it is the double that
    JavaScript prints as 99.00990099009901. *)
Lemma rsi_zero_loss_is_not_100_witness :
  (0 < 14)%nat
  /\ map (fun p => (Qred (fst p), Qred (snd p)))
       (wilderAverages exact (risingPrices exact) 14) = [(1, 0)]
  /\ (exists r,
        calculateRSI exact (risingPrices exact) 14 = [r] /\ r == 10000 # 101)
  /\ calculateRSI binary64 (risingPrices binary64) 14
     = [0x1.8c0a237c32b17p+6%float].
Proof.
  split; [lia|].
  destruct (rsi_zero_loss_is_not_100 (risingPrices exact) 14 ltac:(lia))
    as (H & _ & _).
  split; [vm_compute; reflexivity|].
  destruct (H 0%nat (196 # 196) (0 # 196)) as (r & Hr & Hv);
    [vm_compute; reflexivity|vm_compute; reflexivity|].
  split; [|vm_compute; reflexivity].
  exists r. split; [|exact Hv].
  vm_compute in Hr |- *. congruence.
Defined.

(** C8, as amended.  The effective overbought threshold is 75 whenever the
    configured [rsi_overbought] is at least 70 and is the configured value
    itself otherwise; the effective oversold threshold is 25 whenever the
    configured [rsi_oversold] is at most 30 and the configured value itself
    otherwise.  So the effective thresholds lie outside the 30-70 band
    exactly when the configured ones do, and they are the thresholds the
    analyzer classifies the current RSI against. *)
Theorem effective_rsi_thresholds (ind : StrategyIndicators.t) :
  (70 <= StrategyIndicators.rsi_overbought ind -> rsiOverbought ind = 75)
  /\ (StrategyIndicators.rsi_overbought ind < 70 ->
      rsiOverbought ind = StrategyIndicators.rsi_overbought ind)
  /\ (StrategyIndicators.rsi_oversold ind <= 30 -> rsiOversold ind = 25)
  /\ (30 < StrategyIndicators.rsi_oversold ind ->
      rsiOversold ind = StrategyIndicators.rsi_oversold ind)
  /\ (70 <= rsiOverbought ind <-> 70 <= StrategyIndicators.rsi_overbought ind)
  /\ (rsiOversold ind <= 30 <-> StrategyIndicators.rsi_oversold ind <= 30)
  /\ forall candles symbol,
       let s := analyzeSignal candles ind symbol in
       rsi_signal (indicators s) = classifyRSI ind (rsi_value s)
       \/ (rsi_signal (indicators s) = RsiNeutral /\ rsi_value s = 50).
Proof.
  unfold rsiOverbought, rsiOversold, JS.Qgeb, JS.Qleb.
  destruct (Qle_bool 70 (StrategyIndicators.rsi_overbought ind)) eqn:Eob;
  destruct (Qle_bool (StrategyIndicators.rsi_oversold ind) 30) eqn:Eos;
  try (apply Qle_bool_iff in Eob); try (apply Qle_bool_iff in Eos);
  try (assert (Hob : ~ 70 <= StrategyIndicators.rsi_overbought ind)
         by (intros Hc; apply Qle_bool_iff in Hc; congruence));
  try (assert (Hos : ~ StrategyIndicators.rsi_oversold ind <= 30)
         by (intros Hc; apply Qle_bool_iff in Hc; congruence));
  (split; [intros; try reflexivity; try contradiction|]);
  (split; [intros; try reflexivity; try lra|]);
  (split; [intros; try reflexivity; try contradiction|]);
  (split; [intros; try reflexivity; try lra|]);
  (split; [split; intros; try lra; try assumption; try contradiction|]);
  (split; [split; intros; try lra; try assumption; try contradiction|]);
  intros candles symbol; unfold analyzeSignal; cbv zeta;
  match goal with
  | |- context [if ?c then mkSignal NoAction _ _ _ _ _ _ _ else _] =>
      destruct c; [right; split; reflexivity|left; reflexivity]
  end.
Qed.

(** C8, the claim as stated, fails: a configuration inside the 30-70 band
    is taken as it is, so the bands are loosened. *)
Lemma rsi_bands_can_be_loosened :
  rsiOverbought looseBands = 60
  /\ rsiOversold looseBands = 40
  /\ ~ (70 <= rsiOverbought looseBands)
  /\ ~ (rsiOversold looseBands <= 30)
  /\ classifyRSI looseBands 65 = Overbought
  /\ classifyRSI looseBands 35 = Oversold.
Proof.
  split; [reflexivity|]. split; [reflexivity|].
  split; [intros H; vm_compute in H; apply H; reflexivity|].
  split; [intros H; vm_compute in H; apply H; reflexivity|].
  split; reflexivity.
Qed.



(** C10. A settlement with gross profit [g > 0] is always recorded, and its
    fee [0.3 g] is always taken: the "service_fee" ledger row goes from the
    trader's balance to that balance minus the fee, whatever the balance
    is, and the trader's account ends at its former balance minus the fee
    plus whatever commissions the trader's own referral chain pays back to
    it.  So a trader who is paid no such commission and holds less than the
    fee ends below zero - although a strategy passes the checks of the
    signal generator's tick only with a gas balance above zero. *)
Theorem fee_deducted_unconditionally
    (W : World) (now : Z) (userId tradeId : string) (g : Q) (env : string)
    (st : State) :
  0 < g ->
  let st' := processProfitSharing W now userId tradeId g env st in
  let fee := g * SERVICE_FEE_RATE in
  let refund := creditedTo env g (getReferralChain userId st) userId env in
  (exists s,
     profit_settlements st' = profit_settlements st ++ [s]
     /\ ProfitSettlement.trade_id s = Some tradeId
     /\ ProfitSettlement.service_fee_amount s = fee)
  /\ (exists t txs,
        gas_fee_transactions st' = gas_fee_transactions st ++ t :: txs
        /\ txView t = (userId, - fee, "service_fee", Some tradeId, env)
        /\ GasFeeTransaction.balance_before t = balanceOf st userId env
        /\ GasFeeTransaction.balance_after t = balanceOf st userId env - fee)
  /\ balanceOf st' userId env == balanceOf st userId env - fee + refund
  /\ (refund == 0 -> balanceOf st userId env < fee ->
      balanceOf st' userId env < 0)
  /\ (forall now' config,
        TradingStrategy.user_id config = userId ->
        TradingStrategy.environment config = env ->
        strategyGate W now' config st = None ->
        0 < balanceOf st userId env).
Proof.
  intros Hg st' fee refund.
  destruct (processProfitSharing_spec W now userId tradeId g env st Hg)
    as ((s & Hs & _ & Htid & _ & _ & Hfee & _)
        & (t & txs & Htx & Hview & Hbefore & Hafter & _) & _ & _ & Hbal & _).
  assert (Hself : balanceOf st' userId env
                  == balanceOf st userId env - fee + refund).
  { unfold st'. rewrite (Hbal userId env). unfold debitedFrom.
    rewrite !String.eqb_refl. cbn [andb]. reflexivity. }
  split; [exists s; auto|].
  split; [exists t, txs; auto|].
  split; [exact Hself|].
  split.
  - intros Hzero Hlow. rewrite Hself, Hzero. lra.
  - intros now' config Hu He Hgate. rewrite <- Hu, <- He.
    apply (strategyGate_gas W now' config st Hgate).
Qed.

Lemma fee_deducted_unconditionally_witness :
  let st' :=
    processProfitSharing quietWorld someday "alice" "T1" 1000 "testnet"
      fundedState in
  0 < 1000
  /\ strategyGate quietWorld someday (demoStrategy None) fundedState = None
  /\ balanceOf fundedState "alice" "testnet" == 10
  /\ balanceOf st' "alice" "testnet" == - (290)
  /\ balanceOf st' "alice" "testnet" < 0.
Proof.
  cbv zeta.
  destruct (fee_deducted_unconditionally quietWorld someday "alice" "T1" 1000
              "testnet" fundedState eq_refl)
    as (_ & _ & Hbal & Hneg & _).
  split; [reflexivity|]. split; [reflexivity|].
  split; [vm_compute; reflexivity|].
  split; [rewrite Hbal; vm_compute; reflexivity|].
  apply Hneg; vm_compute; reflexivity.
Defined.

(** C6. What the code does when a protective leg is refused after the
    entry order was filled.  The signal generator's tick records the trade
    and the open position, but the error it gathered goes nowhere: the
    webhook log it writes has status "executed" and no error message, the
    result it adds carries no reason, and everything it writes is what it
    would write had every leg been accepted.  The alert webhook does
    neither: on a venue that fills the entry order and refuses the
    stop-loss, [executeTrade] reports a failure, so no trade and no position
    are recorded, the log has status "failed" and the reply is a 500. *)
Theorem protective_leg_failure_is_not_surfaced
    (W : World) (now : Z) (config : TradingStrategy.t) (signal : Signal)
    (pair : string) (quantity leverage : Q)
    (geminiDecision : option GeminiDecision) (skipReason : string)
    (exec : Execution) (st : State) (results : list AutoSignalResult) :
  orderSuccess exec = true ->
  JS.truthy (orderId exec) = true ->
  let out :=
    recordExecution W now config signal pair quantity leverage geminiDecision
      skipReason exec (st, results) in
  (exists t, trades (fst out) = trades st ++ [t]
             /\ Trade.status t = "filled"
             /\ Trade.order_id t = orderId exec)
  /\ (exists p, positions (fst out) = positions st ++ [p]
                /\ Position.is_open p = true)
  /\ (exists l, webhook_logs (fst out) = webhook_logs st ++ [l]
                /\ WebhookLog.status l = "executed"
                /\ WebhookLog.error_message l = None)
  /\ (exists r, snd out = results ++ [r]
                /\ ar_executed r = true
                /\ ar_reason r = None)
  /\ out
     = recordExecution W now config signal pair quantity leverage
         geminiDecision skipReason
         (mkExecution true (orderId exec) None (thrown exec)) (st, results)
  /\ (let reply :=
        tradingviewWebhook legFailWorld someday buyAlert webhookState in
      map (paramOf "type") (trace (fst reply))
      = [None; Some (PStr "MARKET"); Some (PStr "STOP_MARKET")]
      /\ (forall r, success (callApi legFailWorld 1 r) = true)
      /\ trades (fst reply) = []
      /\ positions (fst reply) = []
      /\ map logView (webhook_logs (fst reply))
         = [("s1", "failed", Some "Order would immediately trigger")]
      /\ snd reply
         = Json 500
             (mkBody (Some false) (Some "Order would immediately trigger")
                None None None)).
Proof.
  intros Hok Hid out. subst out. unfold recordExecution.
  rewrite Hok, Hid. cbn [andb JS.truthy orderSuccess orderId].
  destruct (orderId exec) as [oid|] eqn:Hoid; [|discriminate Hid].
  cbn [JS.truthy] in Hid |- *. rewrite Hid.
  unfold freshUUID. cbn [fst snd].
  destruct st as [ks ss ls ts bs ps os gb gt rc ae se n c tr].
  cbn [trades positions webhook_logs trading_strategies set_trades
       set_positions set_next_uuid next_uuid].
  destruct (JS.findIndex (sameStrategy (TradingStrategy.id config)) ss);
    cbn; (split; [eexists; split; [reflexivity|split; reflexivity]|]);
    (split; [eexists; split; reflexivity|]);
    (split; [eexists; split; [reflexivity|split; reflexivity]|]);
    (split; [eexists; split; [reflexivity|split; reflexivity]|]);
    (split; [reflexivity|]).
  all: vm_compute; repeat split.
Qed.

Lemma protective_leg_failure_is_not_surfaced_witness :
  let config := demoStrategy None in
  let filled :=
    executeBinance legFailWorld config true "BTCUSDT" (1 # 100) 50000 5 "k"
      "s" webhookState in
  let out :=
    recordExecution legFailWorld someday config buySignal "BTCUSDT" (1 # 100)
      5 None "" (fst filled) (snd filled, []) in
  orderSuccess (fst filled) = true
  /\ orderId (fst filled) = Some "42"
  /\ executionError (fst filled)
     = Some "Order would immediately trigger | Order would immediately trigger"
  /\ List.length (trades (fst out)) = 1%nat
  /\ List.length (positions (fst out)) = 1%nat
  /\ map logView (webhook_logs (fst out)) = [("s1", "executed", None)]
  /\ map ar_reason (snd out) = [None].
Proof.
  cbv zeta.
  destruct (protective_leg_failure_is_not_surfaced legFailWorld someday
              (demoStrategy None) buySignal "BTCUSDT" (1 # 100) 5 None ""
              (fst (executeBinance legFailWorld (demoStrategy None) true
                      "BTCUSDT" (1 # 100) 50000 5 "k" "s" webhookState))
              (snd (executeBinance legFailWorld (demoStrategy None) true
                      "BTCUSDT" (1 # 100) 50000 5 "k" "s" webhookState))
              [] eq_refl eq_refl)
    as ((t & Ht & _) & (p & Hp & _) & (l & Hl & Hstatus & Herr)
        & (r & Hr & _ & Hreason) & _).
  split; [reflexivity|]. split; [reflexivity|]. split; [reflexivity|].
  split; [rewrite Ht; reflexivity|].
  split; [rewrite Hp; reflexivity|].
  split.
  - rewrite Hl. rewrite map_app. cbn [map]. unfold logView at 2.
    rewrite Hstatus, Herr.
    assert (Hl' := Hl). vm_compute in Hl'. injection Hl' as <-. reflexivity.
  - rewrite Hr. cbn [map app]. rewrite Hreason. reflexivity.
Defined.

(** * Further properties of the code *)

(** X1. [calculateEMA], in any arithmetic, returns nothing for fewer prices
    than the period and otherwise one value per price from the [period]-th
    on: [length - period + 1] values. *)
Theorem ema_series_length {num : Type} (A : Arith num) (prices : list num)
    (period : nat) :
  List.length (calculateEMA A prices period)
  = if (List.length prices <? period)%nat then 0%nat
    else (List.length prices - period + 1)%nat.
Proof.
  unfold calculateEMA.
  destruct (List.length prices <? period)%nat eqn:E; [reflexivity|].
  cbv zeta. cbn [List.length]. rewrite emaLoop_length, length_skipn. lia.
Qed.

(** X2. Over exact arithmetic and for a period of at least 1, every value of
    [calculateEMA] lies between the least and the greatest price: if all
    prices are within [lo, hi], so is the whole series. *)
Theorem ema_within_price_range (prices : list Q) (period : nat) (lo hi : Q) :
  (1 <= period)%nat ->
  allWithin lo hi prices ->
  allWithin lo hi (calculateEMA exact prices period).
Proof.
  intros Hp H. unfold calculateEMA.
  destruct (List.length prices <? period)%nat eqn:E; [constructor|].
  apply Nat.ltb_ge in E. cbv zeta.
  assert (Hfirst : lo <= div exact (total exact (firstn period prices))
                            (ofNat exact period) <= hi).
  { assert (Hlen : List.length (firstn period prices) = period)
      by (rewrite length_firstn; lia).
    pose proof (mean_bounds lo hi (firstn period prices)) as Hm.
    rewrite Hlen in Hm. apply Hm; [exact Hp|].
    apply Forall_firstn. exact H. }
  constructor; [exact Hfirst|].
  apply emaLoop_bounds; [|apply Forall_skipn; exact H|exact Hfirst].
  destruct (multiplier_range period Hp) as [H0 H1]. split; [lra|exact H1].
Qed.

Lemma ema_within_price_range_witness :
  (1 <= 3)%nat
  /\ allWithin 1 5 [1; 2; 3; 4; 5]
  /\ allWithin 1 5 (calculateEMA exact [1; 2; 3; 4; 5] 3)
  /\ map Qred (calculateEMA exact [1; 2; 3; 4; 5] 3) = [2; 3; 4].
Proof.
  assert (H : allWithin 1 5 [1; 2; 3; 4; 5]).
  { repeat constructor; vm_compute; discriminate. }
  split; [lia|]. split; [exact H|].
  split; [apply (ema_within_price_range [1; 2; 3; 4; 5] 3 1 5); [lia|exact H]|].
  reflexivity.
Defined.

(** X3. Over exact arithmetic and for a period of at least 1, [calculateRSI]
    returns nothing for fewer than [period + 1] prices and otherwise
    [length - 1 - period] values, each at least 0 and strictly below 100. *)
Theorem rsi_range (prices : list Q) (period : nat) :
  (1 <= period)%nat ->
  List.length (calculateRSI exact prices period)
  = (if (List.length prices <? period + 1)%nat then 0%nat
     else (List.length prices - 1 - period)%nat)
  /\ Forall (fun r => 0 <= r /\ r < 100) (calculateRSI exact prices period).
Proof.
  intros Hp. split; [apply calculateRSI_length|].
  rewrite calculateRSI_wilder. apply Forall_map.
  eapply Forall_impl; [|apply (wilderAverages_nonneg prices period Hp)].
  intros [g l] [Hg Hl]. apply rsiValue_range; assumption.
Qed.

Lemma rsi_range_witness :
  (1 <= 2)%nat
  /\ List.length (calculateRSI exact [10; 12; 11; 13; 9; 9; 14] 2) = 4%nat
  /\ Forall (fun r => 0 <= r /\ r < 100)
       (calculateRSI exact [10; 12; 11; 13; 9; 9; 14] 2).
Proof.
  destruct (rsi_range [10; 12; 11; 13; 9; 9; 14] 2 ltac:(lia)) as [Hlen Hall].
  split; [lia|]. split; [exact Hlen | exact Hall].
Defined.

(** X4. Over exact arithmetic and for a period of at least 1, the RSI of a
    strictly decreasing price series is 0 at every output index. *)
Theorem rsi_of_falling_prices (prices : list Q) (period : nat) :
  (1 <= period)%nat ->
  strictlyDecreasing prices ->
  Forall (fun r => r == 0) (calculateRSI exact prices period).
Proof.
  intros Hp H. rewrite calculateRSI_wilder. apply Forall_map.
  eapply Forall_impl; [|apply (decreasing_averages prices period Hp H)].
  intros [g l] [Hg Hl]. apply rsiValue_zero_gain; assumption.
Qed.

Lemma rsi_of_falling_prices_witness :
  (1 <= 14)%nat
  /\ strictlyDecreasing fallingPrices
  /\ Forall (fun r => r == 0) (calculateRSI exact fallingPrices 14)
  /\ List.length (calculateRSI exact fallingPrices 14) = 1%nat.
Proof.
  assert (H : strictlyDecreasing fallingPrices)
    by (vm_compute; repeat split).
  split; [lia|]. split; [exact H|].
  split; [apply (rsi_of_falling_prices fallingPrices 14); [lia|exact H]|].
  reflexivity.
Defined.

(** X5. The decision of [analyzeSignal].  A buy is returned only with at
    least three of the four bullish confirmations of the indicators it
    reports, a sell only with at least three of the four bearish ones, and
    never both at once: the side not taken has at most two.  The confidence
    is 0 when no action is returned and otherwise one of 3/4, 33/40 and 1. *)
Theorem signal_decision_rule
    (candles : list Candle.t) (ind : StrategyIndicators.t) (symbol : string) :
  let s := analyzeSignal candles ind symbol in
  (action s = Buy ->
   (3 <= bullishVotes (indicators s))%nat
   /\ (bearishVotes (indicators s) <= 2)%nat)
  /\ (action s = Sell ->
      (3 <= bearishVotes (indicators s))%nat
      /\ (bullishVotes (indicators s) <= 2)%nat)
  /\ (action s = NoAction -> confidence s = 0)
  /\ (action s <> NoAction ->
      confidence s == 3 # 4 \/ confidence s == 33 # 40 \/ confidence s == 1).
Proof.
  unfold analyzeSignal. cbv zeta.
  match goal with
  | |- context [if ?c then mkSignal NoAction _ _ _ _ _ _ _ else _] =>
      destruct c
  end.
  { cbn. repeat split; intros; try discriminate; try reflexivity.
    congruence. }
  match goal with
  | |- context [classifyCross ?a ?b ?c ?d] =>
      generalize (classifyCross a b c d)
  end.
  intros ema.
  match goal with
  | |- context [classifyCross ?a ?b ?c ?d] =>
      generalize (classifyCross a b c d)
  end.
  intros macd_.
  match goal with
  | |- context [classifyRSI ind ?r] => generalize (classifyRSI ind r)
  end.
  intros rsi.
  match goal with
  | |- context [JS.Qgtb ?v (?a * ?m)] => generalize (JS.Qgtb v (a * m))
  end.
  intros vol.
  generalize (analyzeMarketConditions candles). intros mc.
  destruct (isTrending mc), (JS.Qgtb (volatility mc) 5),
    (JS.Qltb (volatility mc) 3), ema, macd_, rsi, vol;
    vm_compute; repeat split; intros; try discriminate; try lia;
    try congruence; auto.
Qed.

(** X6. With no more candles than the longer of the two EMA periods,
    [analyzeSignal] has no crossover to look at and returns its neutral
    answer: no action, confidence 0, an RSI of 50 and neutral indicators. *)
Theorem signal_needs_history
    (candles : list Candle.t) (ind : StrategyIndicators.t) (symbol : string) :
  (List.length candles <= StrategyIndicators.ema_short ind)%nat
  \/ (List.length candles <= StrategyIndicators.ema_long ind)%nat ->
  let s := analyzeSignal candles ind symbol in
  action s = NoAction
  /\ confidence s = 0
  /\ rsi_value s = 50
  /\ indicators s = mkSignalIndicators Neutral RsiNeutral Neutral false.
Proof.
  intros H. unfold analyzeSignal. cbv zeta.
  rewrite !ema_length_lt2, !length_map.
  assert (E : (List.length candles <=? StrategyIndicators.ema_short ind)%nat
              || (List.length candles <=? StrategyIndicators.ema_long ind)%nat
              = true).
  { apply orb_true_iff. destruct H; [left|right]; apply Nat.leb_le;
      assumption. }
  rewrite E. cbn. auto.
Qed.

Lemma signal_needs_history_witness :
  let candles := map (fun n => candleAt (inject_Z (Z.of_nat n)) 1) (seq 1 26) in
  (List.length candles <= StrategyIndicators.ema_long defaultIndicators)%nat
  /\ action (analyzeSignal candles defaultIndicators "BTCUSDT") = NoAction
  /\ confidence (analyzeSignal candles defaultIndicators "BTCUSDT") = 0.
Proof.
  cbv zeta.
  destruct (signal_needs_history
              (map (fun n => candleAt (inject_Z (Z.of_nat n)) 1) (seq 1 26))
              defaultIndicators "BTCUSDT")
    as (Ha & Hc & _); [right; vm_compute; lia|].
  split; [vm_compute; lia|]. split; [exact Ha | exact Hc].
Defined.

(** X7. A tick of the position monitor only reads the venue: whatever the
    state and the venue's answers, every request it sends is a GET of the
    account's positions ([/fapi/v2/positionRisk] or [/v5/position/list]).
    It never places, amends or cancels an order. *)
Theorem monitor_only_reads_the_venue (W : World) (now : Z) (st : State) :
  onlyQueries st (fst (positionMonitor W now st)).
Proof.
  assert (Hsettle : forall now' u tid g env s,
            onlyQueries s (processProfitSharing W now' u tid g env s)).
  { intros. apply (processProfitSharing_steps W onlyQueries);
      try (intros; apply onlyQueries_same;
           match goal with |- _ (_ ?a) = _ => destruct a end; reflexivity).
    - apply onlyQueries_refl.
    - apply onlyQueries_trans. }
  apply (positionMonitor_steps W onlyQueries);
    try (intros; apply onlyQueries_same;
         match goal with |- _ (_ ?a) = _ => destruct a end; reflexivity).
  - apply onlyQueries_refl.
  - apply onlyQueries_trans.
  - intros r s Hr. exists [r]. cbn. rewrite Hr.
    split; [destruct s; reflexivity | reflexivity].
  - exact Hsettle.
Qed.

(** X8. A tick of the position monitor leaves credentials, strategies,
    webhook logs, bot status and profiles as they are, removes or rewrites
    no trade, and adds only closing trades of its own: status "filled",
    trigger source "position_monitor". *)
Theorem monitor_frame (W : World) (now : Z) (st : State) :
  monitorFrame st (fst (positionMonitor W now st)).
Proof.
  assert (Hsettle : forall now' u tid g env s,
            monitorFrame s (processProfitSharing W now' u tid g env s)).
  { intros. apply (processProfitSharing_steps W monitorFrame);
      try (intros; apply monitorFrame_same;
           match goal with |- _ (_ ?a) = _ => destruct a end; reflexivity).
    - apply monitorFrame_refl.
    - apply monitorFrame_trans. }
  apply (positionMonitor_steps W monitorFrame);
    try (intros; apply monitorFrame_same;
         match goal with |- _ (_ ?a) = _ => destruct a end; reflexivity).
  - apply monitorFrame_refl.
  - apply monitorFrame_trans.
  - intros t s Hs Ht. unfold monitorFrame.
    destruct s; cbn. repeat (split; [reflexivity|]).
    exists [t]. split; [reflexivity|]. constructor; auto.
  - exact Hsettle.
Qed.

(** X9. A tick of the position monitor deletes and adds no position row,
    and leaves in each row the id, owner, symbol, side, size, entry price,
    leverage, stop-loss, take-profit, venue, environment and creation date;
    a row that was closed stays closed. *)
Theorem monitor_keeps_holdings (W : World) (now : Z) (st : State) :
  holdingsKept st (fst (positionMonitor W now st)).
Proof.
  assert (Hsettle : forall now' u tid g env s,
            holdingsKept s (processProfitSharing W now' u tid g env s)).
  { intros. apply (processProfitSharing_steps W holdingsKept);
      try (intros; apply holdingsKept_same;
           match goal with |- _ (_ ?a) = _ => destruct a end; reflexivity).
    - apply holdingsKept_refl.
    - apply holdingsKept_trans. }
  apply (positionMonitor_steps W holdingsKept);
    try (intros; apply holdingsKept_same;
         match goal with |- _ (_ ?a) = _ => destruct a end; reflexivity).
  - apply holdingsKept_refl.
  - apply holdingsKept_trans.
  - intros. apply holdingsKept_update. intros p.
    unfold sameHolding. cbn. repeat split; auto.
  - intros. apply holdingsKept_update. intros p.
    unfold sameHolding. cbn. repeat split; auto. discriminate.
  - exact Hsettle.
Qed.

(** X10. Over exact arithmetic, settlements keep the gas-fee accounts
    balanced: if in every account the balance equals the total deposited
    minus the total deducted, the same holds after [processProfitSharing],
    whatever its arguments, and after a whole tick of the position monitor.
    The identity rests on exact cancellation and is only approximate in the
    doubles the code computes with: two deductions of 0.03 from a deposit of
    10 leave a balance of 9.940000000000001 against 10 - (0.03 + 0.03) =
    9.94. *)
Theorem accounts_stay_balanced
    (W : World) (now : Z) (userId tradeId : string) (g : Q) (env : string)
    (st : State) :
  accountsBalanced st ->
  accountsBalanced (processProfitSharing W now userId tradeId g env st)
  /\ accountsBalanced (fst (positionMonitor W now st))
  /\ (let fee := double 3 100 in
      let deposited := double 10 1 in
      eqb binary64 (sub binary64 (sub binary64 deposited fee) fee)
        (sub binary64 deposited (add binary64 fee fee)) = false).
Proof.
  assert (Hsettle : forall now' u tid g' env' s,
            accountsBalanced s ->
            accountsBalanced (processProfitSharing W now' u tid g' env' s)).
  { intros now' u tid g' env' s.
    apply (processProfitSharing_steps W
             (fun a b => accountsBalanced a -> accountsBalanced b));
      try (intros;
           match goal with H : accountsBalanced ?a |- _ => destruct a end;
           assumption); auto.
    - intros id u' e now'' s' H. unfold accountsBalanced in *.
      destruct s'; cbn in *. apply Forall_app. split; [exact H|].
      constructor; [|constructor]. cbn. reflexivity.
    - intros i fee now'' s' _ H. unfold accountsBalanced in *.
      destruct s'; cbn in *. apply Forall_update; [|exact H].
      intros b Hb. cbn. rewrite Hb. ring.
    - intros i c now'' s' _ H. unfold accountsBalanced in *.
      destruct s'; cbn in *. apply Forall_update; [|exact H].
      intros b Hb. cbn. rewrite Hb. ring. }
  intros H. split; [apply Hsettle; exact H|].
  split; [|vm_compute; reflexivity].
  revert H.
  apply (positionMonitor_steps W
           (fun a b => accountsBalanced a -> accountsBalanced b));
    try (intros;
           match goal with H : accountsBalanced ?a |- _ => destruct a end;
           assumption); auto.
Qed.

Lemma accounts_stay_balanced_witness :
  accountsBalanced referralState
  /\ accountsBalanced
       (processProfitSharing quietWorld 17 "alice" "T1" 1000 "testnet"
          referralState)
  /\ map (fun b => (GasFeeBalance.user_id b, Qred (GasFeeBalance.balance b),
                    Qred (GasFeeBalance.total_deposited b),
                    Qred (GasFeeBalance.total_deducted b)))
       (gas_fee_balances
          (processProfitSharing quietWorld 17 "alice" "T1" 1000 "testnet"
             referralState))
     = [("alice", 200, 500, 300); ("bob", 5, 5, 0); ("carol", 3, 3, 0)].
Proof.
  assert (H : accountsBalanced referralState)
    by (repeat constructor).
  split; [exact H|].
  split; [apply (accounts_stay_balanced quietWorld 17 "alice" "T1" 1000
                   "testnet" referralState H)|].
  reflexivity.
Defined.

(** X11. The reconciler takes a failed query for a closed position.  When
    the venue answers the position query with a failure (or the venue is
    not one [checkExchangePosition] knows), an open position is marked
    closed with an unrealized PnL of 0, one closing trade is recorded at the
    entry price with a realized PnL of 0, and nothing is settled. *)
Theorem failed_query_closes_position
    (W : World) (now : Z) (exchange product : string) (isTestnet : bool)
    (apiKey apiSecret : string) (st : State) (results : list MonitorResult)
    (j : nat) (position : Position.t) :
  nth_error (positions st) j = Some position ->
  Position.is_open position = true ->
  JS.findIndex (samePosition (Position.id position)) (positions st) = Some j ->
  (forall r, success (callApi W (List.length (trace st)) r) = false) ->
  let out :=
    monitorPosition W now exchange product isTestnet apiKey apiSecret
      (st, results) j in
  nth_error (positions (fst out)) j
  = Some (Position.set_closed 0 now position)
  /\ (exists t,
        trades (fst out) = trades st ++ [t]
        /\ Trade.realized_pnl t = Some 0
        /\ Trade.price t = Position.entry_price position
        /\ Trade.quantity t = Position.size position
        /\ Trade.triggered_by t = Some "position_monitor")
  /\ sameLedger st (fst out)
  /\ (exists r, snd out = results ++ [r] /\ mr_status r = "closed").
Proof.
  intros Hj Hopen Hfirst Hfail out. subst out. unfold monitorPosition.
  rewrite Hj.
  pose proof (checkExchangePosition_failed W (Position.symbol position)
                exchange product isTestnet apiKey apiSecret st Hfail) as Hrep.
  destruct (checkExchangePosition_state W (Position.symbol position) exchange
              product isTestnet apiKey apiSecret st) as [tr Htr].
  destruct (checkExchangePosition W (Position.symbol position) exchange product
              isTestnet apiKey apiSecret st) as [exchangePos st1].
  cbn [fst snd] in Hrep, Htr. subst exchangePos st1.
  change (JS.Qgtb (currentPrice notOnVenue) 0) with false. cbv iota.
  change (positions (set_trace tr st)) with (positions st).
  rewrite Hj, Hopen. cbn [negb andb isOpen notOnVenue].
  change (positions (consoleLog
                       ("Position " ++ Position.symbol position
                          ++ " closed on exchange, updating DB...")
                       (set_trace tr st))) with (positions st).
  rewrite Hfirst. unfold freshUUID. cbn [fst snd].
  rewrite (processProfitSharing_nonpos W now (Position.user_id position) _ 0
             (Position.environment position) _ ltac:(lra)).
  destruct st; cbn. rewrite (nth_error_update_eq _ _ _ _ Hj).
  split; [reflexivity|].
  split; [eexists; repeat split; reflexivity|].
  split; [repeat split; reflexivity|].
  eexists. split; reflexivity.
Qed.

Lemma failed_query_closes_position_witness :
  let out :=
    monitorPosition quietWorld 17 "binance" "futures" true "k" "s"
      (onePositionState "alice", []) 0 in
  (forall r, success (callApi quietWorld 0 r) = false)
  /\ map Position.is_open (positions (fst out)) = [false]
  /\ map Trade.realized_pnl (trades (fst out)) = [Some 0]
  /\ profit_settlements (fst out) = [].
Proof.
  cbv zeta.
  destruct (failed_query_closes_position quietWorld 17 "binance" "futures" true
              "k" "s" (onePositionState "alice") [] 0 (longBTC "p1" "alice")
              eq_refl eq_refl eq_refl (fun _ => eq_refl))
    as (Hp & (t & Ht & Hpnl & _) & Hl & _).
  split; [intros r; reflexivity|].
  split; [reflexivity|].
  split; [rewrite Ht; cbn; rewrite Hpnl; reflexivity|].
  destruct Hl as (_ & _ & _ & _ & Hs). rewrite Hs. reflexivity.
Defined.

(** X12. What a settlement leaves to the operator, over exact arithmetic.
    For a gross profit [g > 0] the admin-earning row splits the fee exactly
    into the commissions paid and the admin share; the commissions are at
    most 1% of [g], so the admin share is between 29% and 30% of [g].  In
    the doubles the code computes with, the split and the bounds hold only
    up to rounding: with three referrers, a profit of 0.19 pays commissions
    of 0.0019000000000000002, above 0.01 * 0.19, and for a profit of 0.41
    the commissions and the admin share do not add up to the fee. *)
Theorem admin_share_bounds
    (W : World) (now : Z) (userId tradeId : string) (g : Q) (env : string)
    (st : State) :
  0 < g ->
  (exists a,
     admin_earnings (processProfitSharing W now userId tradeId g env st)
     = admin_earnings st ++ [a]
     /\ AdminEarning.total_service_fee a
        == AdminEarning.referral_commissions_paid a
           + AdminEarning.admin_share a
     /\ 0 <= AdminEarning.referral_commissions_paid a
     /\ AdminEarning.referral_commissions_paid a <= (1 # 100) * g
     /\ (29 # 100) * g <= AdminEarning.admin_share a
     /\ AdminEarning.admin_share a <= (3 # 10) * g)
  /\ ltb binary64 (mul binary64 (double 1 100) (double 19 100))
       (paidInDoubles (double 19 100)) = true
  /\ (let fee := mul binary64 (double 41 100) (double 3 10) in
      let paid := paidInDoubles (double 41 100) in
      eqb binary64 fee (add binary64 paid (sub binary64 fee paid)) = false).
Proof.
  intros Hg. split; [|split; vm_compute; reflexivity].
  destruct (processProfitSharing_spec W now userId tradeId g env st Hg)
    as (_ & _ & _ & (a & Ha & _ & _ & _ & Hfee & Hpaid & Hshare) & _).
  destruct (getReferralChain_levels userId st) as [Hlv Hlen].
  destruct (commissions_bound g (getReferralChain userId st) Hg Hlv Hlen)
    as [H0 H1].
  exists a. split; [exact Ha|].
  rewrite Hfee, Hpaid, Hshare. unfold SERVICE_FEE_RATE.
  repeat split; lra.
Qed.

Lemma admin_share_bounds_witness :
  0 < 1000
  /\ exists a,
       admin_earnings
         (processProfitSharing quietWorld 17 "alice" "T1" 1000 "testnet"
            referralState) = [a]
       /\ (29 # 100) * 1000 <= AdminEarning.admin_share a
       /\ AdminEarning.admin_share a <= (3 # 10) * 1000.
Proof.
  split; [reflexivity|].
  destruct (admin_share_bounds quietWorld 17 "alice" "T1" 1000 "testnet"
              referralState eq_refl)
    as [(a & Ha & _ & _ & _ & Hlo & Hhi) _].
  exists a. split; [exact Ha|]. split; [exact Hlo | exact Hhi].
Defined.

(** X13. The settlement backfill settles filled trades with a positive
    realized PnL and nothing else: every row it adds carries the user, the
    id and the realized PnL of such a trade whose id was not among the
    settled ids, and no two rows it adds carry the same trade id - also
    when several trades share one. *)
Theorem backfill_settles_profitable_trades (W : World) (now : Z) (st : State) :
  exists rows,
    profit_settlements (backfill W now st) = profit_settlements st ++ rows
    /\ Forall (fun s => exists t,
                 In t (trades st)
                 /\ isProfitableFilled t = true
                 /\ settlementOf t s
                 /\ ~ In (Trade.id t) (settledTradeIds st)) rows
    /\ NoDup (map ProfitSettlement.trade_id rows).
Proof.
  unfold backfill.
  destruct (backfill_fold_rows W now (filter isProfitableFilled (trades st))
              st (settledTradeIds st)) as (rows & Hr & Hall & Hnd).
  { intros t Ht. apply filter_In in Ht. tauto. }
  exists rows. split; [exact Hr|]. split; [|exact Hnd].
  eapply Forall_impl; [|exact Hall].
  intros s (t & Hin & Hs & Hn). apply filter_In in Hin as [Hin Hp].
  exists t. auto.
Qed.

(** X14. The signal generator's tick does not look at [auto_signal_enabled]:
    the strategies it processes are the active ones whose signal mode is
    "auto" or unset, whatever that flag says - a strategy whose flag is
    [false] is processed like one whose flag is [true]. *)
Theorem flag_does_not_switch_off (W : World) (now : Z) (st : State) :
  processed (snd (autoSignalGenerator W now st))
  = List.length (filter activeAutoMode (trading_strategies st))
  /\ TradingStrategy.auto_signal_enabled switchedOff = Some false
  /\ processed (snd (autoSignalGenerator quietWorld someday switchedOffState))
     = 1%nat.
Proof.
  split; [|split; reflexivity].
  unfold autoSignalGenerator. cbv zeta.
  set (table := map (fun s => if isAutoStrategy s then withDefaults s else s)
                  (trading_strategies st)).
  change (trading_strategies (set_trading_strategies table st)) with table.
  assert (Hlen : List.length
                   (filter (fun i => match nth_error table i with
                                     | Some s => isAutoStrategy s
                                     | None => false
                                     end) (seq 0 (List.length table)))
                 = List.length (filter activeAutoMode (trading_strategies st))).
  { rewrite (filter_ext _
               (fun i => match nth_error table (i - 0) with
                         | Some s => isAutoStrategy s
                         | None => false
                         end))
      by (intros i; rewrite Nat.sub_0_r; reflexivity).
    rewrite (filter_index_length isAutoStrategy table 0).
    unfold table. rewrite filter_map_length. f_equal.
    apply filter_ext. intros s.
    rewrite isAutoStrategy_withDefaults. apply isAutoStrategy_mode. }
  destruct (filter _ (seq 0 (List.length table))) as [|i0 is_] eqn:E.
  - cbn in *. exact Hlen.
  - destruct (fold_left _ _ _) as [st' results]. cbn [snd processed].
    exact Hlen.
Qed.

(** X15. The signal generator acts for a strategy only past every check.
    If its pass over a strategy sends any request, or adds a result, a
    trade, a position or a webhook log, then at that instant the strategy
    was within its trading session, its owner had an active credential for
    the strategy's venue, product and environment, a bot status that is
    running, a gas balance above zero, and fewer open positions than
    [max_positions]. *)
Theorem tick_acts_only_past_the_checks
    (W : World) (now : Z) (st : State) (results : list AutoSignalResult)
    (i : nat) :
  let out := processStrategy W now (st, results) i in
  trace (fst out) <> trace st
  \/ snd out <> results
  \/ trades (fst out) <> trades st
  \/ positions (fst out) <> positions st
  \/ webhook_logs (fst out) <> webhook_logs st ->
  exists config,
    nth_error (trading_strategies st) i = Some config
    /\ isWithinTradingSession (tuningOf config) now = true
    /\ (exists k,
          In k (api_keys st)
          /\ ApiKey.user_id k = TradingStrategy.user_id config
          /\ ApiKey.exchange k = TradingStrategy.exchange config
          /\ ApiKey.product k = TradingStrategy.product config
          /\ ApiKey.environment k = TradingStrategy.environment config
          /\ ApiKey.is_active k = true)
    /\ (exists b,
          In b (bot_status st)
          /\ BotStatus.user_id b = TradingStrategy.user_id config
          /\ BotStatus.environment b = TradingStrategy.environment config
          /\ BotStatus.is_running b = true)
    /\ 0 < balanceOf st (TradingStrategy.user_id config)
             (TradingStrategy.environment config)
    /\ inject_Z (Z.of_nat (openPositionsOf (TradingStrategy.user_id config) st))
       < JS.orZero (TradingStrategy.max_positions config).
Proof.
  cbv zeta. unfold processStrategy.
  destruct (nth_error (trading_strategies st) i) as [config|];
    [|cbn; intros H; exfalso; intuition congruence].
  destruct (strategyGate W now config st) as [message|] eqn:Hgate.
  - cbn. intros H. exfalso. destruct st; cbn in H. intuition congruence.
  - intros _. exists config. split; [reflexivity|].
    apply (strategyGate_passed W now config st Hgate).
Qed.

Lemma tick_acts_only_past_the_checks_witness :
  trace (fst (processStrategy quietWorld someday (fundedState, []) 0)) <> []
  /\ isWithinTradingSession (tuningOf (demoStrategy None)) someday = true
  /\ 0 < balanceOf fundedState "alice" "testnet"
  /\ inject_Z (Z.of_nat (openPositionsOf "alice" fundedState)) < 5.
Proof.
  assert (Hacts : trace (fst (processStrategy quietWorld someday
                                (fundedState, []) 0)) <> trace fundedState)
    by (vm_compute; discriminate).
  destruct (tick_acts_only_past_the_checks quietWorld someday fundedState [] 0
              (or_introl Hacts))
    as (config & Hc & Hs & _ & _ & Hgas & Hmax).
  vm_compute in Hc. injection Hc as <-.
  split; [exact Hacts|]. split; [exact Hs|]. split; [exact Hgas | exact Hmax].
Defined.


(** X17. An entry order for a quantity below 0.001 is never sent: no
    precision formats it, the venue is not asked, and the order is reported
    failed with the error text of the leverage step, "Failed to set
    leverage" - although the leverage was set. *)
Theorem undersized_order_is_not_sent
    (W : World) (place : string -> Request) (quantity : Q) (st : State) :
  quantity < 1 # 1000 ->
  quantityStrings quantity = []
  /\ placeEntryOrder W place quantity st
     = (mkLadder (mkApiResult false NoData (Some "Failed to set leverage"))
          None None, st).
Proof.
  intros H.
  assert (H3 : formatQty quantity 3 = None).
  { apply formatQty_None. change (inject_Z (10 ^ Z.of_nat 3)) with 1000. lra. }
  assert (Hall : Forall (fun d => formatQty quantity d = None) [3; 2; 1; 0]%nat).
  { repeat constructor; try exact H3;
      apply (formatQty_None_coarser quantity 3); try exact H3; lia. }
  split; [apply stringsAt_nil; exact Hall|].
  unfold placeEntryOrder.
  inversion Hall as [|? ? E3 Hall2]; subst.
  inversion Hall2 as [|? ? E2 Hall1]; subst.
  inversion Hall1 as [|? ? E1 Hall0]; subst.
  inversion Hall0 as [|? ? E0 _]; subst.
  cbn [ladder]. rewrite E3, E2, E1, E0. reflexivity.
Qed.

Lemma undersized_order_is_not_sent_witness :
  let out :=
    executeBinance legFailWorld (demoStrategy None) true "BTCUSDT" (1 # 2000)
      50000 5 "k" "s" webhookState in
  (1 # 2000) < 1 # 1000
  /\ quantityStrings (1 # 2000) = []
  /\ success (callApi legFailWorld 0
                (BinanceApi "/fapi/v1/leverage" "k" "s" true "futures" "POST"
                   [("symbol", PStr "BTCUSDT"); ("leverage", PNum 5)])) = true
  /\ map isLeverageRequest (trace (snd out)) = [true]
  /\ orderSuccess (fst out) = false
  /\ executionError (fst out) = Some "Failed to set leverage".
Proof.
  cbv zeta.
  destruct (undersized_order_is_not_sent legFailWorld
              (fun q => BinanceApi "/fapi/v1/order" "k" "s" true "futures"
                          "POST" [("quantity", PStr q)])
              (1 # 2000) webhookState eq_refl) as [Hq _].
  split; [reflexivity|]. split; [exact Hq|].
  repeat split; reflexivity.
Defined.

(** X18. The signal generator places no order when the leverage cannot be
    set: if the venue refuses the leverage request, [executeOrder] sends
    nothing after it, reports the order failed, and leaves the rest of the
    state as it was. *)
Theorem order_needs_leverage
    (W : World) (config : TradingStrategy.t) (isBuy : bool) (pair : string)
    (quantity price leverage : Q) (apiKey apiSecret : string) (st : State) :
  (forall r, isLeverageRequest r = true ->
             success (callApi W (List.length (trace st)) r) = false) ->
  let out :=
    executeOrder W config isBuy pair quantity price leverage apiKey apiSecret
      st in
  orderSuccess (fst out) = false
  /\ orderId (fst out) = None
  /\ exists qs,
       snd out = set_trace (trace st ++ qs) st
       /\ forallb isLeverageRequest qs = true
       /\ (List.length qs <= 1)%nat.
Proof.
  intros Hfail. cbv zeta. unfold executeOrder.
  destruct (String.eqb (TradingStrategy.exchange config) "binance"
            && String.eqb (TradingStrategy.product config) "futures").
  - unfold executeBinance, callApiM. cbv zeta.
    rewrite Hfail by reflexivity. cbn.
    split; [reflexivity|]. split; [reflexivity|].
    eexists [_]. split; [reflexivity|]. split; [reflexivity | cbn; lia].
  - destruct (String.eqb (TradingStrategy.exchange config) "bybit").
    + unfold executeBybit, callApiM. cbv zeta.
      rewrite Hfail by reflexivity. cbn.
      split; [reflexivity|]. split; [reflexivity|].
      eexists [_]. split; [reflexivity|]. split; [reflexivity | cbn; lia].
    + cbn. split; [reflexivity|]. split; [reflexivity|].
      exists []. split; [symmetry; apply set_trace_nil|].
      split; [reflexivity | cbn; lia].
Qed.

Lemma order_needs_leverage_witness :
  let out :=
    executeOrder quietWorld (demoStrategy None) true "BTCUSDT" (1 # 100) 50000
      5 "k" "s" webhookState in
  orderSuccess (fst out) = false
  /\ map isLeverageRequest (trace (snd out)) = [true]
  /\ executionError (fst out) = Some "Network error".
Proof.
  cbv zeta.
  destruct (order_needs_leverage quietWorld (demoStrategy None) true "BTCUSDT"
              (1 # 100) 50000 5 "k" "s" webhookState (fun _ _ => eq_refl))
    as (Hs & _ & _).
  split; [exact Hs|]. split; reflexivity.
Defined.

(** X19. A close alert is handled in the database alone.  Whatever the
    alert and the state, the webhook handler sends nothing to the venue for
    it, records no trade and no log and settles nothing; either no row
    changes at all, or exactly one open position on the alert's symbol,
    owned by the owner of a strategy, has its open flag cleared. *)
Theorem close_alert_is_local (W : World) (now : Z) (alert : Alert.t)
    (st : State) :
  Alert.action alert = "close" ->
  let out := tradingviewWebhook W now alert st in
  samePositionsApart st (fst out)
  /\ (positions (fst out) = positions st
      \/ exists i p strategy,
           In strategy (trading_strategies st)
           /\ nth_error (positions st) i = Some p
           /\ Position.user_id p = TradingStrategy.user_id strategy
           /\ Position.symbol p = Alert.symbol alert
           /\ Position.is_open p = true
           /\ positions (fst out)
              = JS.update i (Position.set_manually_closed now) (positions st)
           /\ snd out
              = Json 200
                  (mkBody (Some true) None None None (Some "Position closed"))).
Proof.
  intros Hclose. cbv zeta. unfold tradingviewWebhook. rewrite Hclose.
  change (String.eqb "close" "close") with true.
  change (String.eqb "close" "") with false.
  cbn [negb andb orb].
  assert (Hsame : samePositionsApart st st)
    by (unfold samePositionsApart, sameLedger; repeat split; reflexivity).
  destruct (String.eqb (Alert.symbol alert) ""); [split; [exact Hsame|left; reflexivity]|].
  cbn [orb].
  match goal with
  | |- context [match ?found with Some _ => _ | None => (st, Json 404 _) end] =>
      destruct found as [strategy|] eqn:Hfound;
      [|split; [exact Hsame|left; reflexivity]]
  end.
  assert (Hin : In strategy (trading_strategies st)).
  { destruct (JS.truthy (Alert.strategy_id alert));
      [apply find_some in Hfound; tauto|].
    destruct (JS.truthy (Alert.secret alert)); [|discriminate].
    apply find_some in Hfound; tauto. }
  destruct (negb (TradingStrategy.is_active strategy));
    [split; [exact Hsame|left; reflexivity]|].
  match goal with
  | |- context [if ?c then (st, Json 401 _) else _] =>
      destruct c; [split; [exact Hsame|left; reflexivity]|]
  end.
  destruct (find _ (api_keys st));
    [|split; [exact Hsame|left; reflexivity]].
  destruct (JS.findIndex _ (positions st)) as [i|] eqn:Hi;
    [|split; [exact Hsame|left; reflexivity]].
  cbn [fst snd].
  split.
  { unfold samePositionsApart, sameLedger. destruct st; cbn.
    repeat split; reflexivity. }
  right. destruct (findIndex_Some _ _ _ Hi) as (p & Hp & Hq & _).
  repeat (apply andb_true_iff in Hq as [Hq ?]).
  apply String.eqb_eq in Hq.
  match goal with
  | E : String.eqb (Position.symbol p) _ = true |- _ => apply String.eqb_eq in E
  end.
  exists i, p, strategy. destruct st; cbn in *. auto 10.
Qed.

Lemma close_alert_is_local_witness :
  let out := tradingviewWebhook quietWorld someday unsignedClose holdingState in
  Alert.action unsignedClose = "close"
  /\ trace (fst out) = []
  /\ trades (fst out) = []
  /\ map Position.is_open (positions (fst out)) = [false]
  /\ snd out
     = Json 200 (mkBody (Some true) None None None (Some "Position closed")).
Proof.
  cbv zeta.
  destruct (close_alert_is_local quietWorld someday unsignedClose holdingState
              eq_refl) as [Hsame _].
  destruct Hsame as (_ & _ & _ & Htr & _ & _ & _ & _ & _ & Htrace).
  split; [reflexivity|]. split; [exact Htrace|]. split; [exact Htr|].
  split; reflexivity.
Defined.

(** X20. The webhook checks the secret only of alerts that carry one: a
    reply 401 is given to no alert without a secret.  An alert that names a
    strategy by its id and has no secret is handled whatever the strategy's
    secret is - such a close alert closes the owner's position. *)
Theorem secret_checked_only_if_sent
    (W : World) (now : Z) (alert : Alert.t) (st : State) (body : Body) :
  snd (tradingviewWebhook W now alert st) = Json 401 body ->
  JS.truthy (Alert.secret alert) = true
  /\ Alert.secret unsignedClose = None
  /\ TradingStrategy.webhook_secret (demoStrategy None) = Some "secret"
  /\ snd (tradingviewWebhook W now unsignedClose holdingState)
     = Json 200 (mkBody (Some true) None None None (Some "Position closed")).
Proof.
  intros H. split; [|repeat split; reflexivity].
  revert H. unfold tradingviewWebhook.
  destruct (String.eqb (Alert.symbol alert) ""
            || String.eqb (Alert.action alert) ""); [discriminate|].
  match goal with
  | |- context [match ?found with Some _ => _ | None => (st, Json 404 _) end] =>
      destruct found as [strategy|]; [|discriminate]
  end.
  destruct (negb (TradingStrategy.is_active strategy)); [discriminate|].
  destruct (JS.truthy (Alert.secret alert)); [reflexivity|].
  cbn [andb].
  destruct (find _ (api_keys st)); [|discriminate].
  match goal with
  | |- context [if ?c then reject _ _ _ _ _ _ else _] =>
      destruct c; [discriminate|]
  end.
  match goal with
  | |- context [let (_, _) := ?g in _] => destruct g as [[message|] st1]
  end; [discriminate|].
  destruct (String.eqb (Alert.action alert) "close").
  { destruct (JS.findIndex _ _); discriminate. }
  match goal with
  | |- context [if ?c then (st1, Json 400 _) else _] =>
      destruct c; [discriminate|]
  end.
  destruct (executeTrade W strategy alert _ _ st1) as [[r|] st2];
    [|discriminate].
  destruct (ex_success r && JS.truthy (ex_orderId r)); discriminate.
Qed.

Lemma secret_checked_only_if_sent_witness :
  snd (tradingviewWebhook quietWorld someday forgedAlert webhookState)
  = Json 401 (errorBody "Invalid webhook secret")
  /\ JS.truthy (Alert.secret forgedAlert) = true.
Proof.
  split; [reflexivity|].
  apply (secret_checked_only_if_sent quietWorld someday forgedAlert
           webhookState (errorBody "Invalid webhook secret") eq_refl).
Defined.

(** X21. The webhook records the size the alert carries, not the size it
    ordered.  Whenever an alert without a quantity is executed (the reply
    carries an order id and a trade id), the handler appends one trade with
    quantity 0 and one open position with size 0, whatever quantity
    [executeTrade] computed and sent to the venue. *)
Theorem unsized_alert_is_recorded_empty
    (W : World) (now : Z) (alert : Alert.t) (st : State)
    (orderId tradeId : string) (message : option string) :
  truthyNum (Alert.quantity alert) = false ->
  snd (tradingviewWebhook W now alert st)
  = Json 200 (mkBody (Some true) None (Some orderId) (Some tradeId) message) ->
  exists t p,
    trades (fst (tradingviewWebhook W now alert st)) = trades st ++ [t]
    /\ Trade.id t = tradeId
    /\ Trade.order_id t = Some orderId
    /\ Trade.quantity t == 0
    /\ positions (fst (tradingviewWebhook W now alert st))
       = positions st ++ [p]
    /\ Position.is_open p = true
    /\ Position.size p == 0.
Proof.
  intros Hq. unfold tradingviewWebhook.
  destruct (String.eqb (Alert.symbol alert) ""
            || String.eqb (Alert.action alert) ""); [discriminate|].
  match goal with
  | |- context [match ?found with Some _ => _ | None => (st, Json 404 _) end] =>
      destruct found as [strategy|]; [|discriminate]
  end.
  destruct (negb (TradingStrategy.is_active strategy)); [discriminate|].
  match goal with
  | |- context [if ?c then (st, Json 401 _) else _] =>
      destruct c; [discriminate|]
  end.
  destruct (find _ (api_keys st)); [|discriminate].
  destruct (String.eqb (Alert.action alert) "close").
  { cbn [negb andb]. destruct (JS.findIndex _ _); discriminate. }
  cbn [negb andb].
  match goal with
  | |- context [if ?c then reject _ _ _ _ _ _ else _] =>
      destruct c; [discriminate|]
  end.
  destruct (alertGate_state W now strategy alert st) as [tr1 Hgate].
  destruct (alertGate W now strategy alert st) as [[msg|] st1];
    [discriminate|].
  cbn [snd] in Hgate. subst st1.
  match goal with
  | |- context [if ?c then (_, Json 400 _) else _] =>
      destruct c; [discriminate|]
  end.
  match goal with
  | |- context [executeTrade W strategy alert ?k ?s ?st1] =>
      destruct (executeTrade_state W strategy alert k s st1) as [tr2 Hexec];
      destruct (executeTrade W strategy alert k s st1) as [[r|] st2]
  end; [|discriminate].
  cbn [snd] in Hexec. subst st2.
  destruct (ex_success r && JS.truthy (ex_orderId r)); [|discriminate].
  unfold recordTrade, logAlert, freshUUID. cbn [fst snd].
  intros Hreply. injection Hreply as Ho Ht _.
  assert (Hzero : JS.orZero (Alert.quantity alert) == 0).
  { destruct (Alert.quantity alert) as [q|]; [|reflexivity].
    cbn in Hq. apply negb_false_iff, Qeq_bool_iff in Hq. exact Hq. }
  destruct st; cbn in *.
  eexists. eexists.
  split; [reflexivity|]. cbn.
  split; [exact Ht|]. split; [f_equal; exact Ho|].
  split; [exact Hzero|]. split; [reflexivity|]. cbn.
  split; [reflexivity|exact Hzero].
Qed.

Lemma unsized_alert_is_recorded_empty_witness :
  let out := tradingviewWebhook fillingWorld someday unsizedAlert webhookState in
  truthyNum (Alert.quantity unsizedAlert) = false
  /\ existsb
       (fun r => match paramOf "quantity" r with
                 | Some (PNum q) => Qeq_bool q (2 # 1000)
                 | _ => false
                 end)
       (trace (fst out)) = true
  /\ exists t p,
       trades (fst out) = trades webhookState ++ [t]
       /\ Trade.quantity t == 0
       /\ positions (fst out) = positions webhookState ++ [p]
       /\ Position.size p == 0.
Proof.
  cbv zeta. split; [reflexivity|]. split; [vm_compute; reflexivity|].
  destruct (unsized_alert_is_recorded_empty fillingWorld someday unsizedAlert
              webhookState "42" (unaryUUID 0)
              (Some "Trade executed successfully") eq_refl eq_refl)
    as (t & p & Ht & _ & _ & Hq & Hp & _ & Hs).
  exists t, p. auto.
Defined.


(** X23. The callback rate of a trailing stop the webhook's [executeTrade]
    sends is always a number between 0.1 and 5, whatever the strategy
    asks for; a strategy asking for 9 gets 5. *)
Theorem webhook_callback_rate_is_clamped
    (W : World) (strategy : TradingStrategy.t) (alert : Alert.t)
    (apiKey apiSecret : string) (st : State) :
  (exists sent,
     trace (snd (executeTrade W strategy alert apiKey apiSecret st))
     = trace st ++ sent
     /\ forall r v,
          In r sent -> paramOf "callbackRate" r = Some v ->
          exists q, v = PNum q /\ 1 # 10 <= q <= 5)
  /\ map (paramOf "callbackRate")
       (trace (snd (executeTrade fillingWorld trailingStrategy buyAlert
                      "key" "secret" emptyState)))
     = [None; None; None; None; Some (PNum 5)].
Proof.
  split; [|vm_compute; reflexivity].
  destruct (executeTrade_sends W (sized alert) strategy alert apiKey apiSecret
              st eq_refl) as (rs & Hst & Hrs).
  exists rs. split.
  { rewrite Hst. destruct st; reflexivity. }
  intros r v Hin Hv. rewrite forallb_forall in Hrs.
  specialize (Hrs r Hin). unfold soundOrder in Hrs.
  apply andb_true_iff in Hrs as [_ Hrs]. rewrite Hv in Hrs.
  destruct v as [|q| |]; try discriminate. exists q. split; [reflexivity|].
  apply andb_true_iff in Hrs as [Hlo Hhi].
  unfold JS.Qleb in Hlo, Hhi. apply Qle_bool_iff in Hlo, Hhi. split; assumption.
Qed.

(** X24. Whatever the alert, the webhook handler leaves credentials,
    strategies, bot status, profiles and the whole gas-fee and settlement
    ledger as they are; it adds at most one webhook log, at most one trade
    (a filled trade of the webhook) and at most one position, and removes
    none. *)
Theorem webhook_frame (W : World) (now : Z) (alert : Alert.t) (st : State) :
  webhookFrame st (fst (tradingviewWebhook W now alert st)).
Proof.
  assert (Hsame : webhookFrame st st).
  { unfold webhookFrame, sameLedger. repeat split; try lia.
    - exists []. rewrite app_nil_r. split; [reflexivity|cbn; lia].
    - exists []. rewrite app_nil_r. split; [reflexivity|].
      split; [cbn; lia|constructor]. }
  assert (Hlog : forall tr strategy status message,
            webhookFrame st
              (logAlert W now strategy alert status message
                 (set_trace tr st))).
  { intros. unfold webhookFrame, sameLedger, logAlert, freshUUID.
    destruct st; cbn. repeat split; try lia.
    - eexists. split; [reflexivity|cbn; lia].
    - exists []. rewrite app_nil_r. split; [reflexivity|].
      split; [cbn; lia|constructor]. }
  assert (Hlog0 : forall strategy status message,
            webhookFrame st (logAlert W now strategy alert status message st)).
  { intros. specialize (Hlog (trace st) strategy status message).
    replace (set_trace (trace st) st) with st in Hlog
      by (destruct st; reflexivity).
    exact Hlog. }
  unfold tradingviewWebhook.
  destruct (String.eqb (Alert.symbol alert) ""
            || String.eqb (Alert.action alert) ""); [exact Hsame|].
  match goal with
  | |- context [match ?found with Some _ => _ | None => (st, Json 404 _) end] =>
      destruct found as [strategy|]; [|exact Hsame]
  end.
  destruct (negb (TradingStrategy.is_active strategy)); [exact Hsame|].
  match goal with
  | |- context [if ?c then (st, Json 401 _) else _] =>
      destruct c; [exact Hsame|]
  end.
  destruct (find _ (api_keys st)); [|exact Hsame].
  destruct (String.eqb (Alert.action alert) "close").
  { cbn [negb andb].
    destruct (JS.findIndex _ _); [|exact Hsame]. cbn [fst].
    unfold webhookFrame, sameLedger. destruct st; cbn.
    rewrite update_length. repeat split; try lia.
    - exists []. rewrite app_nil_r. split; [reflexivity|cbn; lia].
    - exists []. rewrite app_nil_r. split; [reflexivity|].
      split; [cbn; lia|constructor]. }
  cbn [negb andb].
  match goal with
  | |- context [if ?c then reject _ _ _ _ _ _ else _] =>
      destruct c; [apply Hlog0|]
  end.
  destruct (alertGate_state W now strategy alert st) as [tr1 Hgate].
  destruct (alertGate W now strategy alert st) as [[msg|] st1];
    cbn [snd] in Hgate; subst st1; [apply Hlog|].
  match goal with
  | |- context [if ?c then (_, Json 400 _) else _] => destruct c
  end.
  { cbn [fst]. unfold webhookFrame, sameLedger. destruct st; cbn.
    repeat split; try lia.
    - exists []. rewrite app_nil_r. split; [reflexivity|cbn; lia].
    - exists []. rewrite app_nil_r. split; [reflexivity|].
      split; [cbn; lia|constructor]. }
  match goal with
  | |- context [executeTrade W strategy alert ?k ?s ?st1] =>
      destruct (executeTrade_state W strategy alert k s st1) as [tr2 Hexec];
      destruct (executeTrade W strategy alert k s st1) as [[r|] st2]
  end; cbn [snd] in Hexec; subst st2.
  - assert (Htr : set_trace tr2 (set_trace tr1 st) = set_trace tr2 st)
      by (destruct st; reflexivity).
    rewrite Htr.
    destruct (ex_success r && JS.truthy (ex_orderId r)); [|apply Hlog].
    unfold recordTrade, logAlert, freshUUID. cbn [fst snd].
    unfold webhookFrame, sameLedger. destruct st; cbn.
    rewrite length_app. cbn. repeat split; try lia.
    + eexists. split; [reflexivity|cbn; lia].
    + eexists. split; [reflexivity|]. split; [cbn; lia|].
      constructor; [split; reflexivity|constructor].
  - cbn [fst]. unfold webhookFrame, sameLedger. destruct st; cbn.
    repeat split; try lia.
    + exists []. rewrite app_nil_r. split; [reflexivity|cbn; lia].
    + exists []. rewrite app_nil_r. split; [reflexivity|].
      split; [cbn; lia|constructor].
Qed.

(** X25. The webhook's log follows its reply.  A refusal (status 200 with
    "success: false") goes with one new log row of status "rejected"
    carrying the refusal's message, an execution (a reply with an order id)
    with one row of status "executed" and no message, a failed execution
    (status 500 with "success: false") with one row of status "failed"; no
    other reply - the 400, 401 and 404 replies, a close, an exception - writes
    a log row. *)
Theorem alert_log_follows_reply
    (W : World) (now : Z) (alert : Alert.t) (st : State) :
  logFollowsReply st (tradingviewWebhook W now alert st).
Proof.
  unfold tradingviewWebhook.
  destruct (String.eqb (Alert.symbol alert) ""
            || String.eqb (Alert.action alert) ""); [reflexivity|].
  match goal with
  | |- context [match ?found with Some _ => _ | None => (st, Json 404 _) end] =>
      destruct found as [strategy|]; [|reflexivity]
  end.
  destruct (negb (TradingStrategy.is_active strategy)); [reflexivity|].
  match goal with
  | |- context [if ?c then (st, Json 401 _) else _] =>
      destruct c; [reflexivity|]
  end.
  destruct (find _ (api_keys st)); [|reflexivity].
  destruct (String.eqb (Alert.action alert) "close").
  { cbn [negb andb].
    destruct (JS.findIndex _ _); [reflexivity|].
    unfold logFollowsReply. cbn. destruct st; reflexivity. }
  cbn [negb andb].
  match goal with
  | |- context [if ?c then reject _ _ _ _ _ _ else _] => destruct c
  end.
  { unfold logFollowsReply, reject, refusal, logAlert, freshUUID. cbn.
    destruct st; cbn. eexists.
    split; [reflexivity|split; reflexivity]. }
  destruct (alertGate_state W now strategy alert st) as [tr1 Hgate].
  destruct (alertGate W now strategy alert st) as [[msg|] st1];
    cbn [snd] in Hgate; subst st1.
  { unfold logFollowsReply, reject, refusal, logAlert, freshUUID. cbn.
    destruct st; cbn. eexists.
    split; [reflexivity|split; reflexivity]. }
  match goal with
  | |- context [if ?c then (_, Json 400 _) else _] => destruct c
  end.
  { unfold logFollowsReply. cbn. destruct st; reflexivity. }
  match goal with
  | |- context [executeTrade W strategy alert ?k ?s ?st1] =>
      destruct (executeTrade_state W strategy alert k s st1) as [tr2 Hexec];
      destruct (executeTrade W strategy alert k s st1) as [[r|] st2]
  end; cbn [snd] in Hexec; subst st2.
  - destruct (ex_success r && JS.truthy (ex_orderId r)).
    + unfold logFollowsReply, recordTrade, logAlert, freshUUID. cbn.
      destruct st; cbn. eexists.
      split; [reflexivity|split; reflexivity].
    + unfold logFollowsReply, logAlert, freshUUID. cbn.
      destruct st; cbn. eexists. eexists.
      split; [reflexivity|split; reflexivity].
  - unfold logFollowsReply. cbn. destruct st; reflexivity.
Qed.

(** X26. [calculateMACD], in any arithmetic, for [fast <= slow] and at
    least [slow] prices: the MACD line has one value per value of the slow
    EMA ([length - slow + 1]); the signal line is empty when that is fewer
    than the signal period and has [n - signal + 1] values otherwise; the
    histogram is as long as the signal line. *)
Theorem macd_series_lengths {num : Type} (A : Arith num) (prices : list num)
    (fast slow signalPeriod : nat) :
  (fast <= slow)%nat ->
  (slow <= List.length prices)%nat ->
  let result := calculateMACD A prices fast slow signalPeriod in
  let n := (List.length prices - slow + 1)%nat in
  List.length (macd result) = n
  /\ List.length (macd result) = List.length (calculateEMA A prices slow)
  /\ List.length (signal result)
     = (if (n <? signalPeriod)%nat then 0 else n - signalPeriod + 1)%nat
  /\ List.length (histogram result) = List.length (signal result).
Proof.
  intros Hfs Hsl. cbv zeta.
  pose proof (calculateEMA_length A prices fast) as Hf.
  pose proof (calculateEMA_length A prices slow) as Hs.
  destruct (Nat.ltb_spec (List.length prices) fast) as [?|_]; [lia|].
  destruct (Nat.ltb_spec (List.length prices) slow) as [?|_]; [lia|].
  unfold calculateMACD. cbv zeta.
  destruct (calculateEMA A prices fast) as [|f fs] eqn:Ef;
    [cbn in Hf; lia|].
  destruct (calculateEMA A prices slow) as [|s ss] eqn:Es;
    [cbn in Hs; lia|].
  rewrite Hf, Hs.
  set (n := Z.to_nat (Z.of_nat (List.length prices - fast + 1)
                      - (Z.of_nat slow - Z.of_nat fast))).
  assert (Hn : n = (List.length prices - slow + 1)%nat) by (unfold n; lia).
  set (line := map _ (seq 0 n)).
  assert (Hline : List.length line = n)
    by (unfold line; rewrite length_map, length_seq; reflexivity).
  rewrite Hline, <- Hn.
  destruct (Nat.ltb_spec n signalPeriod) as [Hlt|Hge]; cbn [macd signal histogram].
  - repeat split; assumption.
  - rewrite length_map, length_seq, calculateEMA_length, Hline.
    destruct (Nat.ltb_spec n signalPeriod) as [?|_]; [lia|].
    repeat split; try assumption. lia.
Qed.

Lemma macd_series_lengths_witness :
  let prices := firstn 8 (risingPrices exact) in
  let result := calculateMACD exact prices 2 4 3 in
  (2 <= 4)%nat
  /\ (4 <= List.length prices)%nat
  /\ List.length (macd result) = 5%nat
  /\ List.length (signal result) = 3%nat
  /\ List.length (histogram result) = 3%nat
  /\ map Qred (macd result) = [1; 1; 1; 1; 1].
Proof.
  cbv zeta.
  destruct (macd_series_lengths exact (firstn 8 (risingPrices exact)) 2 4 3
              ltac:(lia) ltac:(vm_compute; lia)) as (H1 & _ & H2 & H3).
  split; [lia|]. split; [vm_compute; lia|]. split; [exact H1|].
  split; [exact H2|]. split; [rewrite H3; exact H2|].
  vm_compute. reflexivity.
Defined.

(** X27. Over exact arithmetic and for a period of at least 1, the average
    volume lies between the least and the greatest of the volumes: if all
    volumes are within [lo, hi], so is [calculateAverageVolume]; of no
    volumes it is 0. *)
Theorem average_volume_within_range (volumes : list Q) (period : nat)
    (lo hi : Q) :
  (1 <= period)%nat ->
  volumes <> [] ->
  allWithin lo hi volumes ->
  lo <= calculateAverageVolume exact volumes period <= hi
  /\ calculateAverageVolume exact [] period == 0.
Proof.
  intros Hp Hne H. split; [|reflexivity].
  unfold calculateAverageVolume.
  destruct volumes as [|v vs] eqn:E; [congruence|]. rewrite <- E in *.
  cbv zeta.
  assert (Hlen : (1 <= List.length volumes)%nat) by (rewrite E; cbn; lia).
  apply mean_bounds.
  - unfold lastN. rewrite length_skipn. lia.
  - unfold lastN. apply Forall_skipn. exact H.
Qed.

Lemma average_volume_within_range_witness :
  (1 <= 2)%nat
  /\ @nil Q <> [10; 20; 60]
  /\ allWithin 10 60 [10; 20; 60]
  /\ 10 <= calculateAverageVolume exact [10; 20; 60] 2 <= 60
  /\ calculateAverageVolume exact [10; 20; 60] 2 == 40.
Proof.
  assert (H : allWithin 10 60 [10; 20; 60]).
  { repeat constructor; vm_compute; discriminate. }
  split; [lia|]. split; [discriminate|]. split; [exact H|].
  split; [|reflexivity].
  apply (average_volume_within_range [10; 20; 60] 2 10 60);
    [lia|discriminate|exact H].
Defined.

(** X28. The referral chain of a user has at most three entries, numbered
    1, 2, 3 in order; each entry is a stored profile, the first the referrer
    of the user's profile and each next one the referrer of the one before;
    a user without a profile has an empty chain.  Nothing stops a cycle: a
    profile naming itself as referrer fills all three levels. *)
Theorem referral_chain_shape (userId : string) (st : State) :
  let chain := getReferralChain userId st in
  (List.length chain <= 3)%nat
  /\ map fst chain = seq 1 (List.length chain)
  /\ Forall (fun e => In (snd e) (profiles st)) chain
  /\ match find (fun p => String.eqb (Profile.user_id p) userId)
             (profiles st) with
     | None => chain = []
     | Some start => linkedFrom start (map snd chain)
     end
  /\ map (fun e => (fst e, Profile.user_id (snd e)))
       (getReferralChain "dave" selfReferralState)
     = [(1%nat, "dave"); (2%nat, "dave"); (3%nat, "dave")].
Proof.
  cbv zeta. destruct (getReferralChain_levels userId st) as [Hlv Hlen].
  split; [exact Hlen|]. split; [exact Hlv|].
  unfold getReferralChain.
  destruct (find _ (profiles st)) as [start|].
  - destruct (referralWalk_shape (profiles st) 3 1 start) as [H1 H2].
    split; [exact H1|]. split; [exact H2|reflexivity].
  - split; [constructor|]. split; reflexivity.
Qed.
